(** * Micro credit risk analyzer: scoring, eligibility, compliance and CSV intake

    A shallow embedding of the decision logic of the repository:

    - [RealisticCreditEngine] (utils/realisticCreditEngine.ts): component
      scores, composite credit score, default probability, loan eligibility;
    - [RBIComplianceEngine] (utils/rbiGuidelines.ts): the regulatory rule set
      and the amortizing EMI formula;
    - [parseCSV] (components/FileUpload.tsx): the row parser with its
      defaults.

    Number model.  A JavaScript number is modelled by [num]: either one of
    the three special values (not-a-number and the two infinities) or a
    finite value carried as an exact rational.  Rounding to binary64,
    overflow, underflow and the sign of zero are not modelled, so a finite
    result here is the result of the source's formula in exact arithmetic.
    Decimal literals of the source ([0.4], [2.5], ...) are the rationals they
    denote.  Two finite numbers are the same number when their rationals are
    equal ([==]); statements compare numbers with the comparisons of the
    language ([JS.le], [JS.gt], ...) or bound the rational inside.

    Layout.  The modules [JS], [Math] and [Str] hold the fragment of the
    language the source uses; [Engine], [RBI] and [CSV] follow the three
    source files; [Props] and [Samples] hold the predicates and the inputs
    of the statements.  The modules named [...Facts] hold the proofs. *)

From Stdlib Require Import ZArith QArith Qabs Qround Qpower Lqa Lia List String Ascii Bool.
From stdpp Require Import base gmap strings list.
Import ListNotations.

Open Scope Q_scope.

(** ** JavaScript numbers *)

Module JS.

Inductive num : Type :=
| NaN
| PInf
| NInf
| Fin (q : Q).

Definition of_Z (z : Z) : num := Fin (inject_Z z).

Definition isNaN (x : num) : bool :=
  match x with NaN => true | _ => false end.

Definition isFinite (x : num) : bool :=
  match x with Fin _ => true | _ => false end.

(** Sign of a number: [Gt] positive, [Lt] negative, [Eq] zero (or not a
    number). *)
Definition sign (x : num) : comparison :=
  match x with
  | NaN => Eq
  | PInf => Gt
  | NInf => Lt
  | Fin q => q ?= 0
  end.

Definition sign_mul (a b : comparison) : comparison :=
  match a, b with
  | Eq, _ | _, Eq => Eq
  | Gt, Gt | Lt, Lt => Gt
  | Gt, Lt | Lt, Gt => Lt
  end.

(** The infinity of a given sign; a zero sign stands for an undefined
    form (infinity times zero, zero over zero). *)
Definition inf_of_sign (c : comparison) : num :=
  match c with Gt => PInf | Lt => NInf | Eq => NaN end.

Definition neg (x : num) : num :=
  match x with
  | NaN => NaN
  | PInf => NInf
  | NInf => PInf
  | Fin a => Fin (- a)
  end.

Definition add (x y : num) : num :=
  match x, y with
  | NaN, _ | _, NaN => NaN
  | PInf, NInf | NInf, PInf => NaN
  | PInf, _ | _, PInf => PInf
  | NInf, _ | _, NInf => NInf
  | Fin a, Fin b => Fin (a + b)
  end.

Definition sub (x y : num) : num :=
  match x, y with
  | NaN, _ | _, NaN => NaN
  | PInf, PInf | NInf, NInf => NaN
  | PInf, _ | _, NInf => PInf
  | NInf, _ | _, PInf => NInf
  | Fin a, Fin b => Fin (a - b)
  end.

Definition mul (x y : num) : num :=
  match x, y with
  | NaN, _ | _, NaN => NaN
  | Fin a, Fin b => Fin (a * b)
  | _, _ => inf_of_sign (sign_mul (sign x) (sign y))
  end.

(** Division.  A finite non-zero value over zero is an infinity, zero over
    zero is not a number; a zero divisor counts as positive. *)
Definition div (x y : num) : num :=
  match x, y with
  | NaN, _ | _, NaN => NaN
  | Fin a, Fin b =>
      if Qeq_bool b 0 then inf_of_sign (a ?= 0) else Fin (a / b)
  | Fin _, _ => Fin 0
  | _, Fin b =>
      inf_of_sign (sign_mul (sign x) (match b ?= 0 with Lt => Lt | _ => Gt end))
  | _, _ => NaN
  end.

(** Ordering; [None] when one side is not a number. *)
Definition cmp (x y : num) : option comparison :=
  match x, y with
  | NaN, _ | _, NaN => None
  | PInf, PInf | NInf, NInf => Some Eq
  | PInf, _ | _, NInf => Some Gt
  | NInf, _ | _, PInf => Some Lt
  | Fin a, Fin b => Some (a ?= b)
  end.

Definition lt (x y : num) : bool :=
  match cmp x y with Some Lt => true | _ => false end.
Definition le (x y : num) : bool :=
  match cmp x y with Some Lt | Some Eq => true | _ => false end.
Definition gt (x y : num) : bool :=
  match cmp x y with Some Gt => true | _ => false end.
Definition ge (x y : num) : bool :=
  match cmp x y with Some Gt | Some Eq => true | _ => false end.

(** Truthiness of a number and the operator [||] between two numbers. *)
Definition truthy (x : num) : bool :=
  match x with
  | NaN => false
  | Fin q => negb (Qeq_bool q 0)
  | _ => true
  end.

Definition or (x d : num) : num := if truthy x then x else d.

End JS.

Import JS (num(..), of_Z).

Declare Scope num_scope.
Delimit Scope num_scope with num.
Bind Scope num_scope with num.
Infix "+" := JS.add : num_scope.
Infix "-" := JS.sub : num_scope.
Infix "*" := JS.mul : num_scope.
Infix "/" := JS.div : num_scope.
Infix "<?" := JS.lt : num_scope.
Infix "<=?" := JS.le : num_scope.
Infix ">?" := JS.gt (at level 70, no associativity) : num_scope.
Infix ">=?" := JS.ge (at level 70, no associativity) : num_scope.
Infix "||" := JS.or : num_scope.

(** ** The functions of the [Math] object used by the source *)

Module Math.

(** [Math.pow] with a whole exponent. *)
Definition pow (x : num) (n : Z) : num :=
  if (n =? 0)%Z then Fin 1 else
  match x with
  | NaN => NaN
  | PInf => if (0 <? n)%Z then PInf else Fin 0
  | NInf => if (0 <? n)%Z then (if Z.odd n then NInf else PInf) else Fin 0
  | Fin q => if Qeq_bool q 0 && (n <? 0)%Z then PInf else Fin (q ^ n)
  end.

(** [Math.min] and [Math.max] of two arguments. *)
Definition min (x y : num) : num :=
  match JS.cmp x y with
  | None => NaN
  | Some Gt => y
  | Some _ => x
  end.

Definition max (x y : num) : num :=
  match JS.cmp x y with
  | None => NaN
  | Some Lt => y
  | Some _ => x
  end.

(** [Math.round]: the nearest whole number, halves going up. *)
Definition round (x : num) : num :=
  match x with
  | Fin q => of_Z (Qfloor (q + (1 # 2)))
  | _ => x
  end.

End Math.

Open Scope string_scope.

(** ** JavaScript strings and the global parsing functions

    A string is a sequence of 8-bit characters; the white space that
    [trim], [parseFloat] and [parseInt] skip is the ASCII one (tab, line
    feed, vertical tab, form feed, carriage return, space). *)

Module Str.

Definition isWhiteSpace (c : ascii) : bool :=
  let n := nat_of_ascii c in
  ((9 <=? n) && (n <=? 13) || (n =? 32))%nat.

Fixpoint trimStart (s : string) : string :=
  match s with
  | EmptyString => EmptyString
  | String c rest => if isWhiteSpace c then trimStart rest else s
  end.

Fixpoint trimEnd (s : string) : string :=
  match s with
  | EmptyString => EmptyString
  | String c rest =>
      match trimEnd rest with
      | EmptyString => if isWhiteSpace c then EmptyString else String c EmptyString
      | rest' => String c rest'
      end
  end.

(** [s.trim()] *)
Definition trim (s : string) : string := trimEnd (trimStart s).

(** [s.split(sep)] for a separator of one character: never an empty list. *)
Fixpoint split (sep : ascii) (s : string) : list string :=
  match s with
  | EmptyString => [EmptyString]
  | String c rest =>
      if Ascii.eqb c sep then EmptyString :: split sep rest
      else match split sep rest with
           | first :: others => String c first :: others
           | [] => [String c EmptyString]
           end
  end.

(** [s.replace(c, '')]: the first occurrence of the character is removed. *)
Fixpoint removeFirst (c : ascii) (s : string) : string :=
  match s with
  | EmptyString => EmptyString
  | String a rest => if Ascii.eqb a c then rest else String a (removeFirst c rest)
  end.

(** [toLowerCase] on the ASCII letters. *)
Definition lower_ascii (c : ascii) : ascii :=
  let n := nat_of_ascii c in
  if ((65 <=? n) && (n <=? 90))%nat then ascii_of_nat (n + 32) else c.

Fixpoint toLowerCase (s : string) : string :=
  match s with
  | EmptyString => EmptyString
  | String c rest => String (lower_ascii c) (toLowerCase rest)
  end.

(** [l.includes(s)] *)
Definition includes (l : list string) (s : string) : bool :=
  existsb (String.eqb s) l.

Definition isEmpty (s : string) : bool :=
  match s with EmptyString => true | _ => false end.

(** The value of a character as a digit of the given radix (10 or 16). *)
Definition digitOf (radix : Z) (c : ascii) : option Z :=
  let n := Z.of_nat (nat_of_ascii c) in
  let v :=
    if ((48 <=? n) && (n <=? 57))%Z then Some (n - 48)%Z
    else if ((97 <=? n) && (n <=? 102))%Z then Some (n - 87)%Z
    else if ((65 <=? n) && (n <=? 70))%Z then Some (n - 55)%Z
    else None in
  match v with
  | Some d => if (d <? radix)%Z then Some d else None
  | None => None
  end.

(** The longest prefix of digits, as their values, and what follows it. *)
Fixpoint spanDigits (radix : Z) (s : string) : list Z * string :=
  match s with
  | EmptyString => ([], EmptyString)
  | String c rest =>
      match digitOf radix c with
      | Some d => let (ds, after) := spanDigits radix rest in (d :: ds, after)
      | None => ([], s)
      end
  end.

Definition digitsValue (radix : Z) (ds : list Z) : Z :=
  fold_left (fun acc d => (acc * radix + d)%Z) ds 0%Z.

(** An optional sign: [-1] or [1], and what follows it. *)
Definition signOf (s : string) : Z * string :=
  match s with
  | String c rest =>
      if Ascii.eqb c "-" then ((-1)%Z, rest)
      else if Ascii.eqb c "+" then (1%Z, rest)
      else (1%Z, s)
  | EmptyString => (1%Z, s)
  end.

(** The exponent part [e] or [E], an optional sign, digits; [0] when what
    follows is not a complete exponent part. *)
Definition exponentPart (s : string) : Z :=
  match s with
  | String c rest =>
      if Ascii.eqb c "e" || Ascii.eqb c "E" then
        let (sgn, rest') := signOf rest in
        match spanDigits 10 rest' with
        | ([], _) => 0%Z
        | (ds, _) => (sgn * digitsValue 10 ds)%Z
        end
      else 0%Z
  | EmptyString => 0%Z
  end.

(** [parseFloat] of a string: leading white space is skipped and the
    longest prefix that is a decimal literal is read; not-a-number when
    there is none. *)
Definition parseFloatString (s : string) : num :=
  let (sgn, body) := signOf (trimStart s) in
  if String.prefix "Infinity" body then (if (sgn <? 0)%Z then NInf else PInf)
  else
    let (intDigits, afterInt) := spanDigits 10 body in
    let (fracDigits, afterFrac) :=
      match afterInt with
      | String c rest =>
          if Ascii.eqb c "." then spanDigits 10 rest else ([], afterInt)
      | EmptyString => ([], afterInt)
      end in
    match intDigits, fracDigits with
    | [], [] => NaN
    | _, _ =>
        let mantissa :=
          inject_Z (digitsValue 10 intDigits) +
          inject_Z (digitsValue 10 fracDigits) /
            inject_Z (10 ^ Z.of_nat (length fracDigits)) in
        Fin (inject_Z sgn * mantissa * 10 ^ exponentPart afterFrac)
    end.

(** [parseInt] of a string without a radix: white space, a sign, the prefix
    [0x] or [0X] selecting base 16, then the longest run of digits. *)
Definition parseIntString (s : string) : num :=
  let (sgn, body) := signOf (trimStart s) in
  let (radix, body) :=
    match body with
    | String c0 (String c1 rest) =>
        if Ascii.eqb c0 "0" && (Ascii.eqb c1 "x" || Ascii.eqb c1 "X")
        then (16%Z, rest) else (10%Z, body)
    | _ => (10%Z, body)
    end in
  match spanDigits radix body with
  | ([], _) => NaN
  | (ds, _) => of_Z (sgn * digitsValue radix ds)
  end.

(** The leading decimal digit of a positive whole number. *)
Definition leadingDigit (p : positive) : Z :=
  match Pos.to_uint p with
  | Decimal.D1 _ => 1 | Decimal.D2 _ => 2 | Decimal.D3 _ => 3
  | Decimal.D4 _ => 4 | Decimal.D5 _ => 5 | Decimal.D6 _ => 6
  | Decimal.D7 _ => 7 | Decimal.D8 _ => 8 | Decimal.D9 _ => 9
  | _ => 0
  end%Z.

(** The first significant decimal digit of a positive rational. *)
Definition firstSignificantDigit (q : Q) : Z :=
  let k := Z.of_nat (Decimal.nb_digits (Pos.to_uint (Qden q))) in
  match (Qnum q * 10 ^ k / Z.pos (Qden q))%Z with
  | Z.pos p => leadingDigit p
  | _ => 0%Z
  end.

(** [parseFloat] and [parseInt] of [values[index]]: an absent cell is
    [undefined], whose text has no numeric prefix. *)
Definition parseFloat (value : option string) : num :=
  match value with
  | Some s => parseFloatString s
  | None => NaN
  end.

Definition parseInt (value : option string) : num :=
  match value with
  | Some s => parseIntString s
  | None => NaN
  end.

(** [parseFloat] of a number goes through the number's text, which reads
    back as the same number. *)
Definition parseFloatNumber (n : num) : num := n.

(** [parseInt] of a number goes through the number's text as well: plain
    decimal digits for magnitudes from [1e-6] up to [1e21], of which the whole
    part is read, and exponent notation outside, of which only the leading
    digit is read. *)
Definition parseIntNumber (n : num) : num :=
  match n with
  | Fin q =>
      if Qeq_bool q 0 then Fin 0
      else if Qle_bool (1 # 1000000) (Qabs q) && negb (Qle_bool (10 ^ 21) (Qabs q))
      then of_Z (Z.quot (Qnum q) (Z.pos (Qden q)))
      else of_Z (Z.sgn (Qnum q) * firstSignificantDigit (Qabs q))
  | _ => NaN
  end.

End Str.

(** ** RealisticCreditEngine (utils/realisticCreditEngine.ts) *)

Module Engine.

Record ExpenseCategories : Type := {
  essentials : num;
  discretionary : num;
  investments : num
}.

(** The [UserData] interface.  [user_id] is [None] when the property holds
    [undefined]; the optional compliance properties of the interface are
    left out, the engine never reads them. *)
Record UserData : Type := {
  user_id : option string;
  monthly_income : num;
  income_type : string;
  income_stability_months : num;
  emergency_savings : num;
  electricity_bill_on_time : num;
  dth_recharge_on_time : num;
  internet_bill_on_time : num;
  rent_payment_on_time : num;
  overall_bill_payment_score : num;
  existing_loan_emi : num;
  credit_card_outstanding : num;
  previous_loan_defaults : num;
  loan_repayment_history_score : num;
  upi_transactions_per_month : num;
  digital_wallet_usage : num;
  online_bill_payments : num;
  digital_financial_activity_score : num;
  monthly_expenses : num;
  savings_rate : num;
  expense_categories : ExpenseCategories;
  age : num;
  employment_type : string;
  years_of_employment : num;
  city_tier : num
}.

Record EmiOption : Type := {
  tenure : Z;
  emi : num;
  total_interest : num;
  total_amount : num
}.

Record RateRange : Type := {
  range_min : num;
  range_max : num
}.

Record LoanEligibility : Type := {
  eligible : bool;
  max_amount : num;
  recommended_amount : num;
  tenure_options : list Z;
  interest_rate_range : RateRange;
  emi_options : list EmiOption
}.

Inductive RiskBand : Type := Excellent | Good | Fair | Poor | VeryPoor.

Inductive Decision : Type := Approve | Review | Reject.

Record Component : Type := {
  score : num;
  weight : Z
}.

Record ScoreComponents : Type := {
  payment_history : Component;
  credit_utilization : Component;
  income_stability : Component;
  digital_behavior : Component
}.

(** The [RiskScore] interface without its advisory texts
    ([improvement_suggestions], [financial_coaching], [peer_comparison]),
    which are built from message templates and decide nothing. *)
Record RiskScore : Type := {
  rs_user_id : option string;
  credit_score : num;
  risk_band : RiskBand;
  default_probability : num;
  decision : Decision;
  score_components : ScoreComponents;
  max_eligible_amount : num;
  recommended_emi : num;
  optimal_tenure_months : num;
  percentile_rank : num;
  rbi_compliant : bool;
  rbi_violations : list string;
  emi_to_income_ratio : num
}.

Section Scoring.

Open Scope num_scope.

(** Payment History Score (40% weight) *)
Definition calculatePaymentHistoryScore (userData : UserData) : num :=
  let billPaymentScore :=
    electricity_bill_on_time userData * Fin 0.3 +
    dth_recharge_on_time userData * Fin 0.2 +
    internet_bill_on_time userData * Fin 0.2 +
    rent_payment_on_time userData * Fin 0.3 in
  let loanRepaymentScore := loan_repayment_history_score userData in
  let defaultPenalty := previous_loan_defaults userData * Fin 20 in
  Math.max (Fin 0) (Math.min (Fin 100)
    ((billPaymentScore * Fin 0.6 + loanRepaymentScore * Fin 0.4) - defaultPenalty)).

(** Credit Utilization Score (25% weight) *)
Definition calculateCreditUtilizationScore (userData : UserData) : num :=
  let debtToIncomeRatio :=
    (existing_loan_emi userData + credit_card_outstanding userData * Fin 0.05)
    / monthly_income userData in
  let expenseToIncomeRatio := monthly_expenses userData / monthly_income userData in
  let utilizationScore := Math.max (Fin 0) (Fin 100 - debtToIncomeRatio * Fin 200) in
  let spendingScore := Math.max (Fin 0) (Fin 100 - expenseToIncomeRatio * Fin 100) in
  utilizationScore * Fin 0.7 + spendingScore * Fin 0.3.

(** The table of the income types.  A key outside the table gives
    [undefined], which turns the sum it enters into not-a-number. *)
Definition incomeTypeScore (income_type : string) : num :=
  if String.eqb income_type "salary" then Fin 90
  else if String.eqb income_type "business" then Fin 70
  else if String.eqb income_type "freelance" then Fin 60
  else if String.eqb income_type "daily_wage" then Fin 40
  else NaN.

(** Income Stability Score (20% weight) *)
Definition calculateIncomeStabilityScore (userData : UserData) : num :=
  let incomeTypeScore := incomeTypeScore (income_type userData) in
  let stabilityBonus := Math.min (Fin 20) (income_stability_months userData * Fin 2) in
  let employmentScore := Math.min (Fin 30) (years_of_employment userData * Fin 5) in
  let savingsScore := Math.min (Fin 25) (savings_rate userData * Fin 2.5) in
  Math.min (Fin 100) (incomeTypeScore + stabilityBonus + employmentScore + savingsScore).

(** Digital Behavior Score (15% weight) *)
Definition calculateDigitalBehaviorScore (userData : UserData) : num :=
  let upiScore := Math.min (Fin 30) (upi_transactions_per_month userData * Fin 2) in
  let walletScore := Math.min (Fin 25) (digital_wallet_usage userData * Fin 2.5) in
  let onlineBillScore := online_bill_payments userData * Fin 0.3 in
  let digitalActivityScore := digital_financial_activity_score userData * Fin 0.15 in
  upiScore + walletScore + onlineBillScore + digitalActivityScore.

(** Risk Band Classification *)
Definition getRiskBand (creditScore : num) : RiskBand :=
  if creditScore >=? Fin 750 then Excellent
  else if creditScore >=? Fin 650 then Good
  else if creditScore >=? Fin 550 then Fair
  else if creditScore >=? Fin 450 then Poor
  else VeryPoor.

(** Default Probability Calculation *)
Definition calculateDefaultProbability (creditScore : num) (userData : UserData) : num :=
  let baseProbability := Math.max (Fin 1) (Fin 50 - ((creditScore - Fin 300) / Fin 12)) in
  let baseProbability :=
    if previous_loan_defaults userData >? Fin 0
    then baseProbability + previous_loan_defaults userData * Fin 15
    else baseProbability in
  let baseProbability :=
    if existing_loan_emi userData / monthly_income userData >? Fin 0.5
    then baseProbability + Fin 10
    else baseProbability in
  let baseProbability :=
    if emergency_savings userData <? monthly_expenses userData
    then baseProbability + Fin 8
    else baseProbability in
  Math.min (Fin 95) (Math.max (Fin 1) (Math.round baseProbability)).

(** Interest Rate Based on Credit Score *)
Definition getInterestRate (creditScore : num) : num :=
  if creditScore >=? Fin 750 then Fin 18
  else if creditScore >=? Fin 650 then Fin 22
  else if creditScore >=? Fin 550 then Fin 24
  else Fin 26.

(** One entry of the EMI schedule: the body of the function mapped over
    the tenures in [calculateLoanEligibility]. *)
Definition emiOption (recommendedAmount interestRate : num) (tenure : Z) : EmiOption :=
  let monthlyRate := interestRate / Fin 100 / Fin 12 in
  let emi := Math.round
    ((recommendedAmount * monthlyRate * Math.pow (Fin 1 + monthlyRate) tenure) /
     (Math.pow (Fin 1 + monthlyRate) tenure - Fin 1)) in
  let totalAmount := emi * of_Z tenure in
  let totalInterest := totalAmount - recommendedAmount in
  {| tenure := tenure; emi := emi;
     total_interest := totalInterest; total_amount := totalAmount |}.

(** The local constant [scoreMultiplier] of [calculateLoanEligibility]:
    adjust based on credit score. *)
Definition scoreMultiplier (creditScore : num) : num :=
  if creditScore >=? Fin 750 then Fin 1.0
  else if creditScore >=? Fin 650 then Fin 0.8
  else if creditScore >=? Fin 550 then Fin 0.6
  else Fin 0.4.

(** Loan Eligibility Calculation *)
Definition calculateLoanEligibility (userData : UserData) (creditScore : num)
  : LoanEligibility :=
  let maxEMICapacity := monthly_income userData * Fin 0.4 - existing_loan_emi userData in
  let baseAmount := Math.min (Fin 125000) (monthly_income userData * Fin 10) in
  let scoreMultiplier := scoreMultiplier creditScore in
  let maxAmount := Math.round (baseAmount * scoreMultiplier) in
  let recommendedAmount := Math.round (maxAmount * Fin 0.7) in
  let tenureOptions := [12; 18; 24; 36]%Z in
  let interestRate := getInterestRate creditScore in
  let emiOptions :=
    List.filter (fun option => emi option <=? maxEMICapacity)
      (List.map (emiOption recommendedAmount interestRate) tenureOptions) in
  {| eligible := (maxAmount >? Fin 10000) && (0 <? length emiOptions)%nat;
     max_amount := maxAmount;
     recommended_amount := recommendedAmount;
     tenure_options := tenureOptions;
     interest_rate_range :=
       {| range_min := interestRate; range_max := interestRate + Fin 2 |};
     emi_options := emiOptions |}.

(** Calculate Percentile Rank *)
Definition calculatePercentileRank (creditScore : num) : num :=
  if creditScore >=? Fin 800 then Fin 95
  else if creditScore >=? Fin 750 then Fin 85
  else if creditScore >=? Fin 700 then Fin 70
  else if creditScore >=? Fin 650 then Fin 55
  else if creditScore >=? Fin 600 then Fin 40
  else if creditScore >=? Fin 550 then Fin 25
  else Fin 10.

(** Decision Making *)
Definition makeDecision (creditScore defaultProbability : num) : Decision :=
  if (creditScore >=? Fin 650) && (defaultProbability <=? Fin 20) then Approve
  else if (creditScore >=? Fin 550) && (defaultProbability <=? Fin 35) then Review
  else Reject.

(** RBI Compliance Check *)
Definition checkRBICompliance (userData : UserData) (loanAmount : num) : bool :=
  if loanAmount >? Fin 125000 then false
  else if (existing_loan_emi userData / monthly_income userData) >? Fin 0.5 then false
  else true.

(** RBI Violations *)
Definition getRBIViolations (userData : UserData) (loanAmount : num) : list string :=
  let violations : list string := [] in
  let violations :=
    if loanAmount >? Fin 125000
    then (violations ++ ["Loan amount exceeds RBI limit of ₹1.25L"])%list
    else violations in
  let violations :=
    if (existing_loan_emi userData / monthly_income userData) >? Fin 0.5
    then (violations ++ ["EMI-to-income ratio exceeds 50%"])%list
    else violations in
  violations.

(** The EMI of the first retained schedule entry, [0] when there is none:
    [emi_options[0]?.emi || 0]. *)
Definition firstEmi (options : list EmiOption) : num :=
  match options with
  | [] => Fin 0
  | option :: _ => emi option || Fin 0
  end.

(** [tenure_options[0] || 12] *)
Definition firstTenure (tenures : list Z) : num :=
  match tenures with
  | [] => Fin 12
  | tenure :: _ => of_Z tenure || Fin 12
  end.

(** Credit Score Calculation (300-900 scale like CIBIL).  The calls that
    only feed the advisory texts ([buildFinancialProfile],
    [generateRecommendations], [generatePeerComparison]) are left out with
    them. *)
Definition calculateCreditScore (userData : UserData) : RiskScore :=
  let paymentHistoryScore := calculatePaymentHistoryScore userData in
  let creditUtilizationScore := calculateCreditUtilizationScore userData in
  let incomeStabilityScore := calculateIncomeStabilityScore userData in
  let digitalBehaviorScore := calculateDigitalBehaviorScore userData in
  let weightedScore :=
    (paymentHistoryScore * Fin 0.40) +
    (creditUtilizationScore * Fin 0.25) +
    (incomeStabilityScore * Fin 0.20) +
    (digitalBehaviorScore * Fin 0.15) in
  let creditScore := Math.round (Fin 300 + (weightedScore * Fin 6)) in
  let riskBand := getRiskBand creditScore in
  let defaultProbability := calculateDefaultProbability creditScore userData in
  let loanEligibility := calculateLoanEligibility userData creditScore in
  let percentileRank := calculatePercentileRank creditScore in
  {| rs_user_id := user_id userData;
     credit_score := creditScore;
     risk_band := riskBand;
     default_probability := defaultProbability;
     decision := makeDecision creditScore defaultProbability;
     score_components :=
       {| payment_history := {| score := paymentHistoryScore; weight := 40 |};
          credit_utilization := {| score := creditUtilizationScore; weight := 25 |};
          income_stability := {| score := incomeStabilityScore; weight := 20 |};
          digital_behavior := {| score := digitalBehaviorScore; weight := 15 |} |};
     max_eligible_amount := max_amount loanEligibility;
     recommended_emi := firstEmi (emi_options loanEligibility);
     optimal_tenure_months := firstTenure (tenure_options loanEligibility);
     percentile_rank := percentileRank;
     rbi_compliant := checkRBICompliance userData (max_amount loanEligibility);
     rbi_violations := getRBIViolations userData (max_amount loanEligibility);
     emi_to_income_ratio :=
       firstEmi (emi_options loanEligibility) / monthly_income userData * Fin 100 |}.

End Scoring.

End Engine.

(** ** RBIComplianceEngine (utils/rbiGuidelines.ts) *)

Module RBI.

Import Str.

Inductive Classification : Type := rural | urban.

Record RBIBorrowerProfile : Type := {
  user_id : string;
  monthly_income : num;
  existing_loan_amount : num;
  household_income : num;
  rural_urban_classification : Classification;
  purpose_of_loan : string;
  collateral_free : bool
}.

Record RBILoanLimits : Type := {
  maxLoanAmount : num;
  maxTotalIndebtedness : num;
  minIncomeThreshold : num
}.

(** One entry of the violations list.  Six of the seven messages are fixed
    texts (their interpolated values are constants of the class, written out
    here); the seventh interpolates the computed ratio through [toFixed(1)]
    and is kept as the ratio itself. *)
Inductive Violation : Type :=
| Message (text : string)
| EmiToIncomeRatioExceeds (emiToIncomeRatio : num).

Record RBIComplianceCheck : Type := {
  isCompliant : bool;
  violations : list Violation;
  riskAdjustment : Z
}.

Definition LOAN_LIMITS : RBILoanLimits :=
  {| maxLoanAmount := Fin 125000;
     maxTotalIndebtedness := Fin 100000;
     minIncomeThreshold := Fin 5000 |}.

Definition INTEREST_RATE_CAP : num := Fin 26.
Definition MIN_TENURE_MONTHS : Z := 24.

Section Compliance.

Open Scope num_scope.

(** Calculate EMI using standard formula; the tenure is a whole number of
    months. *)
Definition calculateEMI (principal annualRate : num) (tenureMonths : Z) : num :=
  let monthlyRate := annualRate / (Fin 12 * Fin 100) in
  let emi :=
    (principal * monthlyRate * Math.pow (Fin 1 + monthlyRate) tenureMonths) /
    (Math.pow (Fin 1 + monthlyRate) tenureMonths - Fin 1) in
  emi.

(** The two mutable locals of [checkCompliance], the list of violations and
    the running risk adjustment, are threaded as one state through its eight
    rules.  [violation v p] is [violations.push(v); riskAdjustment -= p],
    [bonus b] is [riskAdjustment += b], and [when c f] is the statement
    [if (c) { f }]. *)
Definition State : Type := list Violation * Z.

Definition violation (v : Violation) (penalty : Z) (st : State) : State :=
  ((st.1 ++ [v])%list, (st.2 - penalty)%Z).

Definition bonus (b : Z) (st : State) : State := (st.1, (st.2 + b)%Z).

Definition when (c : bool) (f : State -> State) (st : State) : State :=
  if c then f st else st.

(** Check RBI compliance for a borrower *)
Definition checkCompliance (profile : RBIBorrowerProfile)
    (requestedAmount proposedRate : num) (tenureMonths : Z) : RBIComplianceCheck :=
  let st : State := ([], 0%Z) in
  (* 1. Loan Amount Limit Check *)
  let st :=
    when (requestedAmount >? maxLoanAmount LOAN_LIMITS)
      (violation (Message "Loan amount exceeds RBI limit of Rs. 125000") 15) st in
  (* 2. Total Indebtedness Check *)
  let totalDebt := existing_loan_amount profile + requestedAmount in
  let st :=
    when (totalDebt >? maxTotalIndebtedness LOAN_LIMITS)
      (violation (Message "Total indebtedness exceeds RBI limit of Rs. 100000") 10)
      st in
  (* 3. Income Threshold Check *)
  let st :=
    when (monthly_income profile <? minIncomeThreshold LOAN_LIMITS)
      (violation (Message "Monthly income below minimum threshold of Rs. 5000") 20)
      st in
  (* 4. Interest Rate Cap Check *)
  let st :=
    when (proposedRate >? INTEREST_RATE_CAP)
      (violation (Message "Interest rate exceeds RBI cap of 26%") 5) st in
  (* 5. Minimum Tenure Check (for loans above Rs. 15,000) *)
  let st :=
    when ((requestedAmount >? Fin 15000) && (tenureMonths <? MIN_TENURE_MONTHS)%Z)
      (violation
         (Message "Tenure below minimum 24 months for loans above Rs. 15,000") 5)
      st in
  (* 6. Income-to-EMI Ratio Check (EMI should not exceed 50% of monthly income) *)
  let monthlyEMI := calculateEMI requestedAmount proposedRate tenureMonths in
  let emiToIncomeRatio := (monthlyEMI / monthly_income profile) * Fin 100 in
  let st :=
    (if emiToIncomeRatio >? Fin 50
     then violation (EmiToIncomeRatioExceeds emiToIncomeRatio) 10
     else when (emiToIncomeRatio <? Fin 30) (bonus 5)) st in
  (* 7. Collateral-Free Lending Compliance *)
  let st :=
    when (negb (collateral_free profile))
      (violation
         (Message "RBI mandates collateral-free lending for microfinance") 5)
      st in
  (* 8. Purpose of Loan Check (productive purposes preferred) *)
  let productivePurposes :=
    ["business"; "agriculture"; "livestock"; "education"; "healthcare"] in
  let st :=
    when (includes productivePurposes (toLowerCase (purpose_of_loan profile)))
      (bonus 3) st in
  {| isCompliant := (length st.1 =? 0)%nat;
     violations := st.1;
     riskAdjustment := Z.max (-20) (Z.min 10 st.2) |}.

End Compliance.

End RBI.

(** ** parseCSV (components/FileUpload.tsx) *)

Module CSV.

Import Str Engine.

(** What the parser can throw: the [Error] raised for a header without all
    required columns, and the [TypeError] of a method call on [undefined]. *)
Inductive error : Type :=
| InvalidCSVFormat (missingColumns : list string)
| TypeError.

Inductive result (A : Type) : Type :=
| Ok (a : A)
| Throw (e : error).

Arguments Ok {A} a.
Arguments Throw {A} e.

Definition bind {A B : Type} (c : result A) (k : A -> result B) : result B :=
  match c with
  | Ok a => k a
  | Throw e => Throw e
  end.

Notation "'let!' x ':=' c 'in' k" := (bind c (fun x => k))
  (at level 10, x name, c at level 100, k at level 200).

(** [l.map(f)] for an [f] that can throw: the first exception ends the
    traversal. *)
Fixpoint mapResult {A B : Type} (f : A -> result B) (l : list A) : result (list B) :=
  match l with
  | [] => Ok []
  | a :: rest =>
      let! b := f a in
      let! bs := mapResult f rest in
      Ok (b :: bs)
  end.

Definition requiredColumns : list string :=
  ["user_id"; "monthly_income"; "income_type"; "income_stability_months";
   "emergency_savings"; "electricity_bill_on_time"; "dth_recharge_on_time";
   "internet_bill_on_time"; "rent_payment_on_time"; "existing_loan_emi";
   "previous_loan_defaults"; "upi_transactions_per_month"; "digital_wallet_usage";
   "online_bill_payments"; "monthly_expenses"; "savings_rate"; "age";
   "employment_type"; "years_of_employment"; "city_tier"].

Record Validation : Type := {
  isValid : bool;
  missingColumns : list string
}.

Definition validateCSVFormat (headers : list string) : Validation :=
  let missingColumns :=
    List.filter (fun col => negb (includes headers col)) requiredColumns in
  {| isValid := (length missingColumns =? 0)%nat;
     missingColumns := missingColumns |}.

(** The object [userData] while a row is read.  Every property is only ever
    given values of one kind, so the object is kept as two maps: the
    properties holding numbers, and the properties holding a cell as it is (a
    string, or [undefined] for an absent cell).  A key that is not in a map is
    a property that was never assigned. *)
Record RowObject : Type := {
  numbers : gmap string num;
  texts : gmap string (option string)
}.

Definition emptyObject : RowObject := {| numbers := ∅; texts := ∅ |}.

Definition setNumber (key : string) (n : num) (o : RowObject) : RowObject :=
  {| numbers := <[key := n]> (numbers o); texts := texts o |}.

Definition setText (key : string) (s : option string) (o : RowObject) : RowObject :=
  {| numbers := numbers o; texts := <[key := s]> (texts o) |}.

(** [value || d] for a cell: [undefined] and the empty string are falsy. *)
Definition textOr (value : option string) (d : string) : string :=
  match value with
  | Some s => if isEmpty s then d else s
  | None => d
  end.

(** [x || d] for a property that holds a number when it was assigned. *)
Definition numberOr (x : option num) (d : num) : num :=
  match x with
  | Some n => JS.or n d
  | None => d
  end.

(** [value.replace('%', '')]: a method call, which throws on [undefined]. *)
Definition withoutPercent (value : option string) : result (option string) :=
  match value with
  | Some s => Ok (Some (removeFirst "%" s))
  | None => Throw TypeError
  end.

Section Row.

Open Scope num_scope.

(** The body of [headers.forEach]: the [switch] on the header. *)
Definition assign (header : string) (value : option string) (userData : RowObject)
  : result RowObject :=
  if header =? "user_id" then
    Ok (setText "user_id" value userData)
  else if header =? "monthly_income" then
    Ok (setNumber "monthly_income" (parseFloat value || Fin 25000) userData)
  else if header =? "income_type" then
    Ok (setText "income_type" (Some (textOr value "salary")) userData)
  else if header =? "income_stability_months" then
    Ok (setNumber "income_stability_months" (parseInt value || Fin 6) userData)
  else if header =? "emergency_savings" then
    Ok (setNumber "emergency_savings" (parseFloat value || Fin 0) userData)
  else if header =? "electricity_bill_on_time" then
    let! stripped := withoutPercent value in
    Ok (setNumber "electricity_bill_on_time" (parseFloat stripped || Fin 80) userData)
  else if header =? "dth_recharge_on_time" then
    let! stripped := withoutPercent value in
    Ok (setNumber "dth_recharge_on_time" (parseFloat stripped || Fin 75) userData)
  else if header =? "internet_bill_on_time" then
    let! stripped := withoutPercent value in
    Ok (setNumber "internet_bill_on_time" (parseFloat stripped || Fin 85) userData)
  else if header =? "rent_payment_on_time" then
    let! stripped := withoutPercent value in
    Ok (setNumber "rent_payment_on_time" (parseFloat stripped || Fin 90) userData)
  else if header =? "existing_loan_emi" then
    Ok (setNumber "existing_loan_emi" (parseFloat value || Fin 0) userData)
  else if header =? "credit_card_outstanding" then
    Ok (setNumber "credit_card_outstanding" (parseFloat value || Fin 0) userData)
  else if header =? "previous_loan_defaults" then
    Ok (setNumber "previous_loan_defaults" (parseInt value || Fin 0) userData)
  else if header =? "upi_transactions_per_month" then
    Ok (setNumber "upi_transactions_per_month" (parseInt value || Fin 15) userData)
  else if header =? "digital_wallet_usage" then
    Ok (setNumber "digital_wallet_usage" (parseFloat value || Fin 20) userData)
  else if header =? "online_bill_payments" then
    let! stripped := withoutPercent value in
    Ok (setNumber "online_bill_payments" (parseFloat stripped || Fin 70) userData)
  else if header =? "monthly_expenses" then
    Ok (setNumber "monthly_expenses"
          (parseFloat value ||
           numberOr (numbers userData !! "monthly_income") (Fin 25000) * Fin 0.6)
          userData)
  else if header =? "savings_rate" then
    let! stripped := withoutPercent value in
    Ok (setNumber "savings_rate" (parseFloat stripped || Fin 15) userData)
  else if header =? "age" then
    Ok (setNumber "age" (parseInt value || Fin 25) userData)
  else if header =? "employment_type" then
    Ok (setText "employment_type" (Some (textOr value "salaried")) userData)
  else if header =? "years_of_employment" then
    Ok (setNumber "years_of_employment" (parseFloat value || Fin 1) userData)
  else if header =? "city_tier" then
    Ok (setNumber "city_tier" (parseInt value || Fin 2) userData)
  else Ok userData.

(** [headers.forEach((header, index) => ...)] with [value = values[index]]. *)
Fixpoint forEachHeader (headers : list string) (index : nat) (values : list string)
    (userData : RowObject) : result RowObject :=
  match headers with
  | [] => Ok userData
  | header :: rest =>
      let! userData' := assign header (values !! index) userData in
      forEachHeader rest (S index) values userData'
  end.

Definition safeParseFloat (val : option num) (defaultVal : num) : num :=
  let parsed :=
    match val with
    | Some n => parseFloatNumber n
    | None => NaN
    end in
  if JS.isNaN parsed then defaultVal else parsed.

Definition safeParseInt (val : option num) (defaultVal : num) : num :=
  let parsed :=
    match val with
    | Some n => parseIntNumber n
    | None => NaN
    end in
  if JS.isNaN parsed then defaultVal else parsed.

(** The second half of the row function: every numeric property is
    validated in the order of the source, the text defaults are set, the
    derived scores are computed, and the object is returned as [UserData]. *)
Definition completeRow (userData : RowObject) : UserData :=
  let property (key : string) : option num := numbers userData !! key in
  let text (key : string) : option string :=
    match texts userData !! key with
    | Some value => value
    | None => None
    end in
  let monthly_income := safeParseFloat (property "monthly_income") (Fin 25000) in
  let monthly_expenses :=
    safeParseFloat (property "monthly_expenses") (monthly_income * Fin 0.6) in
  let emergency_savings := safeParseFloat (property "emergency_savings") (Fin 0) in
  let existing_loan_emi := safeParseFloat (property "existing_loan_emi") (Fin 0) in
  let credit_card_outstanding :=
    safeParseFloat (property "credit_card_outstanding") (Fin 0) in
  let digital_wallet_usage := safeParseFloat (property "digital_wallet_usage") (Fin 20) in
  let years_of_employment := safeParseFloat (property "years_of_employment") (Fin 1) in
  let electricity_bill_on_time :=
    safeParseFloat (property "electricity_bill_on_time") (Fin 80) in
  let dth_recharge_on_time := safeParseFloat (property "dth_recharge_on_time") (Fin 75) in
  let internet_bill_on_time := safeParseFloat (property "internet_bill_on_time") (Fin 85) in
  let rent_payment_on_time := safeParseFloat (property "rent_payment_on_time") (Fin 90) in
  let online_bill_payments := safeParseFloat (property "online_bill_payments") (Fin 70) in
  let savings_rate := safeParseFloat (property "savings_rate") (Fin 15) in
  let previous_loan_defaults := safeParseInt (property "previous_loan_defaults") (Fin 0) in
  let upi_transactions_per_month :=
    safeParseInt (property "upi_transactions_per_month") (Fin 15) in
  let age := safeParseInt (property "age") (Fin 25) in
  let income_stability_months :=
    safeParseInt (property "income_stability_months") (Fin 6) in
  let city_tier := safeParseInt (property "city_tier") (Fin 2) in
  let income_type := textOr (text "income_type") "salary" in
  let employment_type := textOr (text "employment_type") "salaried" in
  let overall_bill_payment_score :=
    electricity_bill_on_time * Fin 0.3 +
    dth_recharge_on_time * Fin 0.2 +
    internet_bill_on_time * Fin 0.2 +
    rent_payment_on_time * Fin 0.3 in
  let loan_repayment_history_score :=
    Math.max (Fin 0) (Fin 90 - (previous_loan_defaults * Fin 30)) in
  let digital_financial_activity_score :=
    Math.min (Fin 100)
      (upi_transactions_per_month * Fin 2 +
       digital_wallet_usage * Fin 1.5 +
       online_bill_payments * Fin 0.5) in
  {| user_id := text "user_id";
     monthly_income := monthly_income;
     income_type := income_type;
     income_stability_months := income_stability_months;
     emergency_savings := emergency_savings;
     electricity_bill_on_time := electricity_bill_on_time;
     dth_recharge_on_time := dth_recharge_on_time;
     internet_bill_on_time := internet_bill_on_time;
     rent_payment_on_time := rent_payment_on_time;
     overall_bill_payment_score := overall_bill_payment_score;
     existing_loan_emi := existing_loan_emi;
     credit_card_outstanding := credit_card_outstanding;
     previous_loan_defaults := previous_loan_defaults;
     loan_repayment_history_score := loan_repayment_history_score;
     upi_transactions_per_month := upi_transactions_per_month;
     digital_wallet_usage := digital_wallet_usage;
     online_bill_payments := online_bill_payments;
     digital_financial_activity_score := digital_financial_activity_score;
     monthly_expenses := monthly_expenses;
     savings_rate := savings_rate;
     expense_categories :=
       {| essentials := monthly_expenses * Fin 0.7;
          discretionary := monthly_expenses * Fin 0.2;
          investments := monthly_expenses * Fin 0.1 |};
     age := age;
     employment_type := employment_type;
     years_of_employment := years_of_employment;
     city_tier := city_tier |}.

(** The function mapped over the data lines. *)
Definition parseRow (headers : list string) (line : string) : result UserData :=
  let values := List.map trim (split "," line) in
  let! userData := forEachHeader headers 0 values emptyObject in
  Ok (completeRow userData).

Definition parseCSV (csvText : string) : result (list UserData) :=
  let lines := split "010" (trim csvText) in
  let headers := List.map trim (split "," (hd "" lines)) in
  (* Validate CSV format *)
  let validation := validateCSVFormat headers in
  if negb (isValid validation)
  then Throw (InvalidCSVFormat (missingColumns validation))
  else mapResult (parseRow headers) (tl lines).

End Row.

End CSV.
(** ** Profiles the scoring pipeline is specified for *)

Module Props.

(** A finite number between two bounds. *)
Definition between (lo hi : Q) (x : num) : Prop :=
  match x with Fin q => lo <= q <= hi | _ => False end.

Definition nonneg (x : num) : Prop :=
  match x with Fin q => 0 <= q | _ => False end.

Definition positive (x : num) : Prop :=
  match x with Fin q => 0 < q | _ => False end.

Import Engine.

(** The BorrowerProfile of the data model: a positive income, one of the four
    income types, percentages between 0 and 100, counts and amounts that are
    not negative. *)
Record valid_profile (u : UserData) : Prop := {
  valid_monthly_income : positive (monthly_income u);
  valid_income_type :
    In (income_type u) ["salary"; "business"; "freelance"; "daily_wage"];
  valid_income_stability_months : nonneg (income_stability_months u);
  valid_years_of_employment : nonneg (years_of_employment u);
  valid_savings_rate : between 0 100 (savings_rate u);
  valid_emergency_savings : nonneg (emergency_savings u);
  valid_monthly_expenses : nonneg (monthly_expenses u);
  valid_electricity : between 0 100 (electricity_bill_on_time u);
  valid_dth : between 0 100 (dth_recharge_on_time u);
  valid_internet : between 0 100 (internet_bill_on_time u);
  valid_rent : between 0 100 (rent_payment_on_time u);
  valid_overall : between 0 100 (overall_bill_payment_score u);
  valid_loan_repayment : between 0 100 (loan_repayment_history_score u);
  valid_previous_loan_defaults : nonneg (previous_loan_defaults u);
  valid_existing_loan_emi : nonneg (existing_loan_emi u);
  valid_credit_card_outstanding : nonneg (credit_card_outstanding u);
  valid_upi : nonneg (upi_transactions_per_month u);
  valid_wallet : nonneg (digital_wallet_usage u);
  valid_online : between 0 100 (online_bill_payments u);
  valid_digital_activity : between 0 100 (digital_financial_activity_score u)
}.

(** The schedule of [calculateCreditScore]'s eligibility step, named for the
    statements about it: the rounded EMI the engine computes for a tenure,
    the EMI capacity, and a tenure fitting the capacity. *)
Definition scheduleEmi (u : UserData) (tenure : Z) : num :=
  emi (emiOption
         (recommended_amount
            (calculateLoanEligibility u (credit_score (calculateCreditScore u))))
         (getInterestRate (credit_score (calculateCreditScore u))) tenure).

Definition emiCapacity (u : UserData) : num :=
  JS.sub (JS.mul (monthly_income u) (Fin 0.4)) (existing_loan_emi u).

Definition fits (u : UserData) (tenure : Z) : Prop :=
  JS.le (scheduleEmi u tenure) (emiCapacity u) = true.

Definition tenures : list Z := [12; 18; 24; 36]%Z.

(** The first entry of a list of violations. *)
Definition starts_with (v : RBI.Violation) (l : list RBI.Violation) : Prop :=
  exists rest, l = v :: rest.


(** *** What the statements about [parseCSV] speak of *)

Import Str CSV.

(** The local variables of [parseCSV] and of its row function: the header
    names, the data lines, the cells of a line. *)
Definition headersOf (csvText : string) : list string :=
  List.map trim (split "," (hd "" (split "010" (trim csvText)))).

Definition rowsOf (csvText : string) : list string :=
  tl (split "010" (trim csvText)).

Definition cellsOf (line : string) : list string :=
  List.map trim (split "," line).

(** The position of the last header equal to a column name: [forEach] visits
    the headers in order, so the last one decides the property. *)
Fixpoint lastIndexOf (col : string) (headers : list string) : option nat :=
  match headers with
  | [] => None
  | header :: rest =>
      match lastIndexOf col rest with
      | Some i => Some (S i)
      | None => if String.eqb header col then Some 0%nat else None
      end
  end.

(** How the cell of a numeric column is read: [parseFloat(value)],
    [parseInt(value)], or [parseFloat(value.replace('%', ''))]. *)
Inductive CellKind : Type := FloatCell | IntCell | PercentCell.

Definition readCell (kind : CellKind) (value : option string) : num :=
  match kind with
  | FloatCell => parseFloat value
  | IntCell => parseInt value
  | PercentCell =>
      match value with
      | Some s => parseFloat (Some (removeFirst "%" s))
      | None => NaN
      end
  end.

(** The numeric columns with a fixed default, with the way their cell is
    read, the default, and the property of the result they end in.
    ([monthly_expenses] is not listed: its default is 0.6 times the income
    read so far.) *)
Record Column : Type := {
  col_name : string;
  col_kind : CellKind;
  col_default : num;
  col_field : UserData -> num
}.

Definition numericColumns : list Column :=
  [ {| col_name := "monthly_income"; col_kind := FloatCell; col_default := Fin 25000;
       col_field := monthly_income |};
    {| col_name := "income_stability_months"; col_kind := IntCell; col_default := Fin 6;
       col_field := income_stability_months |};
    {| col_name := "emergency_savings"; col_kind := FloatCell; col_default := Fin 0;
       col_field := emergency_savings |};
    {| col_name := "electricity_bill_on_time"; col_kind := PercentCell; col_default := Fin 80;
       col_field := electricity_bill_on_time |};
    {| col_name := "dth_recharge_on_time"; col_kind := PercentCell; col_default := Fin 75;
       col_field := dth_recharge_on_time |};
    {| col_name := "internet_bill_on_time"; col_kind := PercentCell; col_default := Fin 85;
       col_field := internet_bill_on_time |};
    {| col_name := "rent_payment_on_time"; col_kind := PercentCell; col_default := Fin 90;
       col_field := rent_payment_on_time |};
    {| col_name := "existing_loan_emi"; col_kind := FloatCell; col_default := Fin 0;
       col_field := existing_loan_emi |};
    {| col_name := "credit_card_outstanding"; col_kind := FloatCell; col_default := Fin 0;
       col_field := credit_card_outstanding |};
    {| col_name := "previous_loan_defaults"; col_kind := IntCell; col_default := Fin 0;
       col_field := previous_loan_defaults |};
    {| col_name := "upi_transactions_per_month"; col_kind := IntCell; col_default := Fin 15;
       col_field := upi_transactions_per_month |};
    {| col_name := "digital_wallet_usage"; col_kind := FloatCell; col_default := Fin 20;
       col_field := digital_wallet_usage |};
    {| col_name := "online_bill_payments"; col_kind := PercentCell; col_default := Fin 70;
       col_field := online_bill_payments |};
    {| col_name := "savings_rate"; col_kind := PercentCell; col_default := Fin 15;
       col_field := savings_rate |};
    {| col_name := "age"; col_kind := IntCell; col_default := Fin 25; col_field := age |};
    {| col_name := "years_of_employment"; col_kind := FloatCell; col_default := Fin 1;
       col_field := years_of_employment |};
    {| col_name := "city_tier"; col_kind := IntCell; col_default := Fin 2;
       col_field := city_tier |} ].

(** A number that is exactly zero. *)
Definition isZero (x : num) : Prop :=
  match x with Fin q => q == 0 | _ => False end.

(** The columns whose default is zero. *)
Definition zeroDefaultColumns : list string :=
  ["emergency_savings"; "existing_loan_emi"; "credit_card_outstanding";
   "previous_loan_defaults"].

(** The headers whose cell goes through [value.replace]. *)
Definition percentColumns : list string :=
  ["electricity_bill_on_time"; "dth_recharge_on_time"; "internet_bill_on_time";
   "rent_payment_on_time"; "online_bill_payments"; "savings_rate"].

End Props.

(** ** Inputs used to exercise the statements *)

Module Samples.

Import Engine.

(** A salaried borrower with the defaults of the CSV intake. *)
Definition sample_user : UserData :=
  {| user_id := Some "U001";
     monthly_income := Fin 25000;
     income_type := "salary";
     income_stability_months := Fin 6;
     emergency_savings := Fin 20000;
     electricity_bill_on_time := Fin 80;
     dth_recharge_on_time := Fin 75;
     internet_bill_on_time := Fin 85;
     rent_payment_on_time := Fin 90;
     overall_bill_payment_score := Fin 83;
     existing_loan_emi := Fin 2000;
     credit_card_outstanding := Fin 0;
     previous_loan_defaults := Fin 0;
     loan_repayment_history_score := Fin 90;
     upi_transactions_per_month := Fin 15;
     digital_wallet_usage := Fin 20;
     online_bill_payments := Fin 70;
     digital_financial_activity_score := Fin 95;
     monthly_expenses := Fin 15000;
     savings_rate := Fin 15;
     expense_categories :=
       {| essentials := Fin 10500; discretionary := Fin 3000; investments := Fin 1500 |};
     age := Fin 25;
     employment_type := "salaried";
     years_of_employment := Fin 1;
     city_tier := Fin 2 |}.


(** A borrower whose existing EMI exceeds the income. *)
Definition indebted_user : UserData :=
  {| user_id := Some "U002";
     monthly_income := Fin 10000;
     income_type := "daily_wage";
     income_stability_months := Fin 3;
     emergency_savings := Fin 0;
     electricity_bill_on_time := Fin 60;
     dth_recharge_on_time := Fin 60;
     internet_bill_on_time := Fin 60;
     rent_payment_on_time := Fin 60;
     overall_bill_payment_score := Fin 60;
     existing_loan_emi := Fin 12000;
     credit_card_outstanding := Fin 0;
     previous_loan_defaults := Fin 1;
     loan_repayment_history_score := Fin 60;
     upi_transactions_per_month := Fin 5;
     digital_wallet_usage := Fin 2;
     online_bill_payments := Fin 10;
     digital_financial_activity_score := Fin 18;
     monthly_expenses := Fin 9000;
     savings_rate := Fin 0;
     expense_categories :=
       {| essentials := Fin 6300; discretionary := Fin 1800; investments := Fin 900 |};
     age := Fin 40;
     employment_type := "self_employed";
     years_of_employment := Fin 2;
     city_tier := Fin 3 |}.

Definition sample_profile : RBI.RBIBorrowerProfile :=
  {| RBI.user_id := "U001";
     RBI.monthly_income := Fin 25000;
     RBI.existing_loan_amount := Fin 0;
     RBI.household_income := Fin 40000;
     RBI.rural_urban_classification := RBI.urban;
     RBI.purpose_of_loan := "Business";
     RBI.collateral_free := true |}.

Definition header_line : string :=
  "user_id,monthly_income,income_type,income_stability_months,emergency_savings,electricity_bill_on_time,dth_recharge_on_time,internet_bill_on_time,rent_payment_on_time,existing_loan_emi,previous_loan_defaults,upi_transactions_per_month,digital_wallet_usage,online_bill_payments,monthly_expenses,savings_rate,age,employment_type,years_of_employment,city_tier".

(** A file whose second data line stops after three cells. *)
Definition csv_short_row : string :=
  header_line ++ "
U001,30000,salary,12,50000,95%,90,85%,100,0,0,40,6,80%,18000,20%,30,salaried,5,1
U002,18000,daily_wage
".

(** A file whose data line has zeros in the income, the UPI count and the
    savings rate, and nothing in most other cells. *)
Definition csv_zero_cells : string :=
  header_line ++ "
U003,0,,x,,,,,,,,0,,,,0,,,,
".

(** What [parseCSV] returns for it, and its only data line. *)
Definition users_zero_cells : list UserData :=
  match CSV.parseCSV csv_zero_cells with
  | CSV.Ok users => users
  | CSV.Throw _ => []
  end.

Definition line_zero_cells : string := "U003,0,,x,,,,,,,,0,,,,0,,,,".

Definition column_monthly_income : Props.Column :=
  {| Props.col_name := "monthly_income"; Props.col_kind := Props.FloatCell;
     Props.col_default := Fin 25000; Props.col_field := monthly_income |}.

(** A file whose income cell reads [Infinity]. *)
Definition csv_infinite_income : string :=
  header_line ++ "
U004,Infinity,salary,12,50000,95%,90,85%,100,0,0,40,6,80%,18000,20%,30,salaried,5,1
".

End Samples.


(** A count, such as the length of an array, as a number. *)
Module Count.

Definition of_nat (n : nat) : num := of_Z (Z.of_nat n).

End Count.

(** ** RealisticCreditEngine: the advisory functions *)

Module Advisor.

Import Str Engine.

Record FinancialProfile : Type := {
  debt_to_income_ratio : num;
  savings_to_income_ratio : num;
  expense_to_income_ratio : num;
  payment_consistency_score : num;
  bill_payment_reliability : num;
  loan_repayment_track_record : num;
  digital_payment_adoption : num;
  financial_app_usage : num;
  online_banking_activity : num;
  income_volatility : num;
  emergency_fund_adequacy : num;
  credit_utilization_pattern : num
}.

(** A text of the recommendations.  The fixed texts are kept as they are;
    the three templates that interpolate a computed number are kept as the
    number:
    - [EmiRatioTooHigh p] is "Your EMI-to-income ratio is p% (too high).
      Reduce EMIs below 40% to improve score";
    - [BuildEmergencyFund t] is "Build emergency fund to (rupee sign)t
      (3 months expenses)";
    - [SaveMonthly a] is "Save (rupee sign)a per month for 6 months". *)
Inductive Text : Type :=
| Plain (s : string)
| EmiRatioTooHigh (percent : num)
| BuildEmergencyFund (target : num)
| SaveMonthly (amount : num).

Inductive Priority : Type := high | medium | low.

Record Coaching : Type := {
  priority : Priority;
  action : Text;
  impact : string
}.

Record Recommendations : Type := {
  immediate : list Text;
  coaching : list Coaching
}.

(** One rule of [generateRecommendations]: [immediate.push(s)] followed by
    [coaching.push(c)], under the rule's condition. *)
Definition advise (c : bool) (s : Text) (entry : Coaching) (r : Recommendations)
  : Recommendations :=
  if c
  then {| immediate := (immediate r ++ [s])%list;
          coaching := (coaching r ++ [entry])%list |}
  else r.

Section Advice.

Open Scope num_scope.

(** Build Financial Profile *)
Definition buildFinancialProfile (userData : UserData) : FinancialProfile :=
  {| debt_to_income_ratio :=
       (existing_loan_emi userData * Fin 12) / (monthly_income userData * Fin 12);
     savings_to_income_ratio := savings_rate userData / Fin 100;
     expense_to_income_ratio := monthly_expenses userData / monthly_income userData;
     payment_consistency_score := overall_bill_payment_score userData;
     bill_payment_reliability :=
       (electricity_bill_on_time userData + dth_recharge_on_time userData +
        internet_bill_on_time userData + rent_payment_on_time userData) / Fin 4;
     loan_repayment_track_record := loan_repayment_history_score userData;
     digital_payment_adoption := digital_financial_activity_score userData;
     financial_app_usage := digital_wallet_usage userData;
     online_banking_activity := online_bill_payments userData;
     income_volatility :=
       if income_type userData =? "salary" then Fin 10
       else if income_type userData =? "business" then Fin 30
       else Fin 50;
     emergency_fund_adequacy :=
       (emergency_savings userData / monthly_expenses userData) * Fin 33.33;
     credit_utilization_pattern :=
       (credit_card_outstanding userData / monthly_income userData) * Fin 100 |}.

(** Generate Personalized Recommendations.  The two arrays are threaded
    through the five rules in the order of the source. *)
Definition generateRecommendations (userData : UserData) (profile : FinancialProfile)
  : Recommendations :=
  let r := {| immediate := []; coaching := [] |} in
  (* Payment History Improvements *)
  let r :=
    advise (overall_bill_payment_score userData <? Fin 80)
      (Plain "Set up auto-pay for all utility bills to improve payment consistency")
      {| priority := high;
         action := Plain "Enable auto-debit for electricity, DTH, and internet bills";
         impact := "Can improve credit score by 30-50 points in 3 months" |} r in
  (* EMI Management *)
  let emiRatio := existing_loan_emi userData / monthly_income userData in
  let r :=
    advise (emiRatio >? Fin 0.4)
      (EmiRatioTooHigh (Math.round (emiRatio * Fin 100)))
      {| priority := high;
         action :=
           Plain "Consider loan restructuring or prepayment to reduce EMI burden";
         impact := "Reducing EMI ratio to 30% can improve eligibility by ₹25,000" |}
      r in
  (* Digital Behavior *)
  let r :=
    advise (upi_transactions_per_month userData <? Fin 20)
      (Plain "Increase UPI transactions to build stronger digital payment history")
      {| priority := medium;
         action :=
           Plain "Use UPI for daily transactions like groceries, fuel, and small purchases";
         impact := "Higher digital activity can boost score by 15-25 points" |} r in
  (* Emergency Savings *)
  let r :=
    advise (emergency_savings userData <? monthly_expenses userData * Fin 3)
      (BuildEmergencyFund (monthly_expenses userData * Fin 3))
      {| priority := medium;
         action :=
           SaveMonthly
             (Math.round
                ((monthly_expenses userData * Fin 3 - emergency_savings userData)
                 / Fin 6));
         impact :=
           "Adequate emergency fund reduces default risk and improves loan terms" |}
      r in
  (* Savings Rate *)
  let r :=
    advise (savings_rate userData <? Fin 20)
      (Plain
         "Increase savings rate to at least 20% of income for better financial health")
      {| priority := low;
         action :=
           Plain "Track expenses and identify areas to cut discretionary spending";
         impact := "Higher savings rate demonstrates financial discipline" |} r in
  r.

End Advice.

(** [text.split(' ')[0]]: the first word of a text.  The templates start
    with a fixed word, whatever the number they carry. *)
Definition firstWord (t : Text) : string :=
  match t with
  | Plain s => hd "" (split " " s)
  | EmiRatioTooHigh _ => "Your"
  | BuildEmergencyFund _ => "Build"
  | SaveMonthly _ => "Save"
  end.

End Advisor.

(** ** RBIComplianceEngine: recommendations and the compliance report *)

Module RBIReport.

Import Str RBI Count.

Record LoanRecommendation : Type := {
  maxRecommendedAmount : num;
  recommendedTenure : Z;
  maxInterestRate : num;
  warnings : list string
}.

Record LoanDecision : Type := {
  decided_user_id : string;
  decided : string;
  amount : num
}.

Record RiskDistribution : Type := {
  low : nat;
  medium : nat;
  high : nat
}.

(** The report without its [commonViolations]: that list counts the
    violations by their message, and the message of the EMI ratio goes
    through [toFixed(1)]. *)
Record ComplianceReport : Type := {
  totalApplications : nat;
  compliantApplications : nat;
  complianceRate : num;
  riskDistribution : RiskDistribution
}.

Definition append_if (c : bool) (s : string) (l : list string) : list string :=
  if c then (l ++ [s])%list else l.

Section Report.

Open Scope num_scope.

(** Get RBI-compliant loan recommendations *)
Definition getRecommendations (profile : RBIBorrowerProfile) : LoanRecommendation :=
  (* Calculate maximum loan amount based on income *)
  let maxByIncome :=
    Math.min (monthly_income profile * Fin 0.5 * Fin 24) (maxLoanAmount LOAN_LIMITS) in
  (* Consider existing debt *)
  let maxByDebt := maxTotalIndebtedness LOAN_LIMITS - existing_loan_amount profile in
  let maxRecommendedAmount := Math.min maxByIncome maxByDebt in
  let warnings : list string := [] in
  let warnings :=
    append_if (maxRecommendedAmount <=? Fin 0)
      "Borrower not eligible due to existing debt levels" warnings in
  let warnings :=
    append_if (monthly_income profile <? minIncomeThreshold LOAN_LIMITS)
      "Income below RBI minimum threshold" warnings in
  {| maxRecommendedAmount := Math.max (Fin 0) maxRecommendedAmount;
     recommendedTenure := if maxRecommendedAmount >? Fin 15000 then 36%Z else 12%Z;
     maxInterestRate := INTEREST_RATE_CAP;
     warnings := warnings |}.

(** Generate RBI compliance report: the count of the compliant profiles
    among those that have a decision. *)
Definition compliantCount (profiles : list RBIBorrowerProfile)
    (decisions : list LoanDecision) : nat :=
  fold_left
    (fun compliantCount profile =>
       match find (fun d => decided_user_id d =? user_id profile)%string decisions with
       | Some decision =>
           if isCompliant (checkCompliance profile (amount decision) (Fin 24) 24)
           then S compliantCount else compliantCount
       | None => compliantCount
       end)
    profiles 0%nat.

Definition generateComplianceReport (profiles : list RBIBorrowerProfile)
    (decisions : list LoanDecision) : ComplianceReport :=
  let compliantCount := compliantCount profiles decisions in
  {| totalApplications := length profiles;
     compliantApplications := compliantCount;
     complianceRate := (of_nat compliantCount / of_nat (length profiles)) * Fin 100;
     riskDistribution :=
       {| low := length (List.filter (fun d => decided d =? "Approve")%string decisions);
          medium := length (List.filter (fun d => decided d =? "Review")%string decisions);
          high := length (List.filter (fun d => decided d =? "Reject")%string decisions)
       |} |}.

End Report.

End RBIReport.

(** ** calculateRiskScore (components/FileUpload.tsx) *)

Module Batch.

Import Str Engine Advisor Count.

Record ScoreDistribution : Type := {
  excellent : nat;
  good : nat;
  fair : nat;
  poor : nat;
  very_poor : nat
}.

Record DashboardStats : Type := {
  total_users : nat;
  approval_rate : num;
  score_distribution : ScoreDistribution;
  excellent_credit_count : nat;
  good_credit_count : nat;
  fair_credit_count : nat;
  poor_credit_count : nat;
  very_poor_credit_count : nat;
  avg_credit_score : num;
  avg_default_probability : num;
  total_loan_eligibility : num;
  avg_digital_adoption : num;
  avg_savings_rate : num;
  common_improvement_areas : list (string * nat);
  rbi_compliance_rate : num;
  avg_eligible_loan_amount : num;
  common_violations : list (string * nat)
}.

(** [m.set(key, (m.get(key) || 0) + 1)] on a [Map], kept as the list of its
    entries in insertion order: a key already present keeps its place. *)
Fixpoint increment (key : string) (m : list (string * nat)) : list (string * nat) :=
  match m with
  | [] => [(key, 1%nat)]
  | (k, n) :: rest =>
      if (k =? key)%string then (k, S n) :: rest
      else (k, n) :: increment key rest
  end.

Definition tally (keys : list string) : list (string * nat) :=
  fold_left (fun m key => increment key m) keys [].

(** [entries.sort((a, b) => b.count - a.count)]: the sort is stable, so the
    entries come out by decreasing count, equal counts in their former
    order. *)
Fixpoint insertByCount (x : string * nat) (sorted : list (string * nat))
  : list (string * nat) :=
  match sorted with
  | [] => [x]
  | y :: rest =>
      if (x.2 <? y.2)%nat then y :: insertByCount x rest
      else x :: y :: rest
  end.

Definition sortByCount (entries : list (string * nat)) : list (string * nat) :=
  fold_right insertByCount [] entries.

(** [Array.from(m.entries()).map(...).sort(...).slice(0, n)] *)
Definition mostCommon (n : nat) (keys : list string) : list (string * nat) :=
  firstn n (sortByCount (tally keys)).

(** [l.reduce((sum, x) => sum + f(x), 0)] *)
Definition sumOf {A : Type} (f : A -> num) (l : list A) : num :=
  fold_left (fun sum x => JS.add sum (f x)) l (Fin 0).

Definition countIf {A : Type} (f : A -> bool) (l : list A) : nat :=
  length (List.filter f l).

(** [score.improvement_suggestions] is the [immediate] list of
    [generateRecommendations], which [calculateCreditScore] calls with the
    user's data and financial profile. *)
Definition improvement_suggestions (user : UserData) : list Text :=
  immediate (generateRecommendations user (buildFinancialProfile user)).

Section Stats.

Open Scope num_scope.

Definition calculateRiskScore (userData : list UserData)
  : list RiskScore * DashboardStats :=
  let scores := List.map calculateCreditScore userData in
  (* Calculate dashboard stats *)
  let totalUsers := length scores in
  let approvedUsers :=
    countIf (fun s => match decision s with Approve => true | _ => false end) scores in
  (* Credit Score Distribution *)
  let scoreDistribution :=
    {| excellent := countIf (fun s => credit_score s >=? Fin 750) scores;
       good :=
         countIf (fun s => (credit_score s >=? Fin 650) && (credit_score s <? Fin 750))
           scores;
       fair :=
         countIf (fun s => (credit_score s >=? Fin 550) && (credit_score s <? Fin 650))
           scores;
       poor :=
         countIf (fun s => (credit_score s >=? Fin 450) && (credit_score s <? Fin 550))
           scores;
       very_poor := countIf (fun s => credit_score s <? Fin 450) scores |} in
  (* Risk Metrics *)
  let avgCreditScore := sumOf credit_score scores / of_nat totalUsers in
  let avgDefaultProbability := sumOf default_probability scores / of_nat totalUsers in
  let totalLoanEligibility := sumOf max_eligible_amount scores in
  (* Behavioral Insights *)
  let avgDigitalAdoption :=
    sumOf digital_financial_activity_score userData / of_nat totalUsers in
  let avgSavingsRate := sumOf savings_rate userData / of_nat totalUsers in
  (* Common improvement areas: first word as category *)
  let commonImprovementAreas :=
    mostCommon 3
      (List.concat
         (List.map (fun user => List.map firstWord (improvement_suggestions user))
            userData)) in
  (* RBI Compliance Stats *)
  let compliantUsers := countIf rbi_compliant scores in
  let commonViolations :=
    mostCommon 3 (List.concat (List.map rbi_violations scores)) in
  (scores,
   {| total_users := totalUsers;
      approval_rate := (of_nat approvedUsers / of_nat totalUsers) * Fin 100;
      score_distribution := scoreDistribution;
      excellent_credit_count := excellent scoreDistribution;
      good_credit_count := good scoreDistribution;
      fair_credit_count := fair scoreDistribution;
      poor_credit_count := poor scoreDistribution;
      very_poor_credit_count := very_poor scoreDistribution;
      avg_credit_score := Math.round avgCreditScore;
      avg_default_probability :=
        Math.round (avgDefaultProbability * Fin 100) / Fin 100;
      total_loan_eligibility := totalLoanEligibility;
      avg_digital_adoption := Math.round avgDigitalAdoption;
      avg_savings_rate := Math.round (avgSavingsRate * Fin 100) / Fin 100;
      common_improvement_areas := commonImprovementAreas;
      rbi_compliance_rate := (of_nat compliantUsers / of_nat totalUsers) * Fin 100;
      avg_eligible_loan_amount := totalLoanEligibility / of_nat totalUsers;
      common_violations := commonViolations |}).

End Stats.

End Batch.

(** ** Orders used by the statements about the engine *)

Module Order.

Import Engine.

(** Two finite numbers in order. *)
Definition fle (x y : num) : Prop :=
  match x, y with
  | Fin a, Fin b => a <= b
  | _, _ => False
  end.

(** The decisions from the worst to the best. *)
Definition decisionRank (d : Decision) : nat :=
  match d with
  | Reject => 0
  | Review => 1
  | Approve => 2
  end.

(** The priorities from the most to the least urgent. *)
Definition priorityRank (p : Advisor.Priority) : nat :=
  match p with
  | Advisor.high => 0
  | Advisor.medium => 1
  | Advisor.low => 2
  end.

(** A list of naturals that never decreases, and one that never increases. *)
Fixpoint nondecreasing (l : list nat) : bool :=
  match l with
  | a :: (b :: _) as rest => (a <=? b)%nat && nondecreasing rest
  | _ => true
  end.

Fixpoint nonincreasing (l : list nat) : bool :=
  match l with
  | a :: (b :: _) as rest => (b <=? a)%nat && nonincreasing rest
  | _ => true
  end.

(** A result that falls in a given risk band. *)
Definition inBand (b : RiskBand) (s : RiskScore) : bool :=
  match b, risk_band s with
  | Excellent, Excellent | Good, Good | Fair, Fair | Poor, Poor
  | VeryPoor, VeryPoor => true
  | _, _ => false
  end.

End Order.

(** ** The EMI formula in binary64

    The modules above carry a finite number as an exact rational.  The code
    computes in binary64, and for the EMI formula the difference shows: this
    module is [RBIComplianceEngine.calculateEMI] once more, over the
    primitive binary64 numbers, for the statements that depend on the
    rounding. *)

From Stdlib Require PrimFloat.

Module Binary64.

Import PrimFloat.

(** [Math.pow] at a whole exponent, by repeated multiplication.  The
    language leaves the precision of [Math.pow] to the implementation; at
    base 1, the only base the statements use, every product is exact and the
    result is 1, as it is in every implementation. *)
Definition pow (x : float) (n : Z) : float :=
  match n with
  | Z0 => 1%float
  | Zpos p => Pos.iter (mul x) 1%float p
  | Zneg p => div 1%float (Pos.iter (mul x) 1%float p)
  end.

Section Formula.

Open Scope float_scope.

(** Calculate EMI using standard formula *)
Definition calculateEMI (principal annualRate : float) (tenureMonths : Z) : float :=
  let monthlyRate := annualRate / (12 * 100) in
  let emi :=
    (principal * monthlyRate * pow (1 + monthlyRate) tenureMonths) /
    (pow (1 + monthlyRate) tenureMonths - 1) in
  emi.

End Formula.

End Binary64.

(** ** RBIComplianceDashboard (components/RBIComplianceDashboard.tsx) *)

Module Dashboard.

Import Engine Batch.

(** [scores.filter(s => s.emi_to_income_ratio > 50).length] *)
Definition highEMIRatioCount (scores : list RiskScore) : nat :=
  countIf (fun s => JS.gt (emi_to_income_ratio s) (Fin 50)) scores.

End Dashboard.
(** * Facts about the number model *)

Module NumFacts.

Import Props.

Ltac num_simpl :=
  cbn [JS.add JS.sub JS.mul JS.neg JS.cmp JS.lt JS.le JS.gt JS.ge
       Math.min Math.max Math.round JS.truthy JS.or of_Z].

(** Split on every comparison of rationals left in the goal. *)
Ltac qcases :=
  repeat (num_simpl; match goal with
  | |- context [Qcompare ?a ?b] => destruct (Qcompare_spec a b)
  end); num_simpl.

(** Turn a hypothesis [between _ _ x], [nonneg x] or [positive x] into
    [x = Fin q] with the bound on [q]. *)
Ltac fin_of_as H q :=
  match type of H with
  | between _ _ ?x =>
      destruct x as [ | | | q] eqn:?; cbn [between] in H; [contradiction .. | ]
  | nonneg ?x =>
      destruct x as [ | | | q] eqn:?; cbn [nonneg] in H; [contradiction .. | ]
  | positive ?x =>
      destruct x as [ | | | q] eqn:?; cbn [positive] in H; [contradiction .. | ]
  end.

Tactic Notation "fin_of" hyp(H) "as" ident(q) := fin_of_as H q.
Tactic Notation "fin_of" hyp(H) := let q := fresh "q" in fin_of_as H q.

Lemma div_fin (a b : Q) : ~ b == 0 -> JS.div (Fin a) (Fin b) = Fin (a / b).
Proof.
  intros Hb. cbn [JS.div].
  destruct (Qeq_bool b 0) eqn:E; [ | reflexivity].
  apply Qeq_bool_eq in E. contradiction.
Qed.

Lemma Qdiv_nonneg (a b : Q) : 0 <= a -> 0 < b -> 0 <= a / b.
Proof.
  intros Ha Hb. apply Qle_shift_div_l; [assumption | lra].
Qed.

Lemma pow_fin_pos (q : Q) (n : Z) : (0 < n)%Z -> Math.pow (Fin q) n = Fin (q ^ n).
Proof.
  intros Hn. unfold Math.pow.
  destruct (Z.eqb_spec n 0); [lia | ].
  destruct (Z.ltb_spec n 0); [lia | ].
  now rewrite andb_false_r.
Qed.

Lemma le_fin (a b : Q) : a <= b -> JS.le (Fin a) (Fin b) = true.
Proof. intros H. qcases; [reflexivity .. | lra]. Qed.

Lemma le_fin_false (a b : Q) : b < a -> JS.le (Fin a) (Fin b) = false.
Proof. intros H. qcases; [lra .. | reflexivity]. Qed.


Lemma gt_le (x y : num) : JS.le x y = true -> JS.gt x y = false.
Proof. unfold JS.le, JS.gt. destruct (JS.cmp x y) as [[ | | ] | ]; congruence. Qed.

(** Rounding keeps a value between two whole bounds. *)
Lemma round_bounds (lo hi : Z) (q : Q) :
  inject_Z lo <= q + (1 # 2) -> q + (1 # 2) < inject_Z (hi + 1) ->
  between (inject_Z lo) (inject_Z hi) (Math.round (Fin q)).
Proof.
  intros Hlo Hhi. cbn [Math.round of_Z between].
  pose proof (Qfloor_le (q + (1 # 2))) as Hf.
  apply Qfloor_resp_le in Hlo. rewrite Qfloor_Z in Hlo.
  assert (Qfloor (q + (1 # 2)) < hi + 1)%Z as Hz.
  { rewrite Zlt_Qlt. lra. }
  rewrite <- !Zle_Qle. lia.
Qed.

Lemma round_nonneg (q : Q) : 0 <= q -> nonneg (Math.round (Fin q)).
Proof.
  intros Hq. cbn [Math.round of_Z nonneg].
  assert (inject_Z 0 <= q + (1 # 2)) as H by (change (inject_Z 0) with 0; lra).
  apply Qfloor_resp_le in H. rewrite Qfloor_Z in H.
  change 0 with (inject_Z 0). now rewrite <- Zle_Qle.
Qed.

(** The core inequality: [c*b/(b-1) < c*a/(a-1)] for [1 < a < b], [0 < c]. *)
Lemma amortization_decreasing (c a b : Q) :
  0 < c -> 1 < a -> a < b -> c * b / (b - 1) < c * a / (a - 1).
Proof.
  intros Hc Ha Hab.
  apply Qlt_shift_div_r; [lra | ].
  set (k := c * a / (a - 1)).
  assert (k * (a - 1) == c * a) as Hk by (unfold k; field; lra).
  assert (c < k) as Hck.
  { unfold k. apply Qlt_shift_div_l; [lra | ]. nra. }
  nra.
Qed.

Lemma amortization_nonincreasing (c a b : Q) :
  0 <= c -> 1 < a -> a < b -> c * b / (b - 1) <= c * a / (a - 1).
Proof.
  intros Hc Ha Hab. apply Qle_lteq in Hc. destruct Hc as [Hc | Hc].
  - apply Qlt_le_weak, amortization_decreasing; assumption.
  - rewrite <- Hc. unfold Qdiv. rewrite !Qmult_0_l. lra.
Qed.

End NumFacts.

(** * The scoring engine *)

Module EngineFacts.

Import Props Samples NumFacts Engine.

Section ComponentScores.

Variable u : UserData.
Hypothesis Hvalid : valid_profile u.

Lemma payment_history_range : between 0 100 (calculatePaymentHistoryScore u).
Proof.
  destruct Hvalid as [_ _ _ _ _ _ _ He Hd Hi Hr _ Hl Hp _ _ _ _ _ _].
  unfold calculatePaymentHistoryScore.
  fin_of He; fin_of Hd; fin_of Hi; fin_of Hr; fin_of Hl; fin_of Hp.
  qcases; cbn [between]; lra.
Qed.

Lemma credit_utilization_range : between 0 100 (calculateCreditUtilizationScore u).
Proof.
  destruct Hvalid as [Hm _ _ _ _ _ Hx _ _ _ _ _ _ _ He Hc _ _ _ _].
  unfold calculateCreditUtilizationScore.
  fin_of Hm; fin_of Hx; fin_of He; fin_of Hc.
  num_simpl. rewrite !div_fin by lra.
  pose proof (Qdiv_nonneg (q1 + q2 * 0.05) q ltac:(lra) Hm).
  pose proof (Qdiv_nonneg q0 q Hx Hm).
  qcases; cbn [between]; lra.
Qed.

Lemma income_stability_range : between 0 100 (calculateIncomeStabilityScore u).
Proof.
  destruct Hvalid as [_ Ht Hs Hy Hr _ _ _ _ _ _ _ _ _ _ _ _ _ _ _].
  unfold calculateIncomeStabilityScore.
  fin_of Hs; fin_of Hy; fin_of Hr.
  cbn [In] in Ht.
  destruct Ht as [<- | [<- | [<- | [<- | []]]]];
    cbn [incomeTypeScore String.eqb Ascii.eqb Bool.eqb];
    qcases; cbn [between]; lra.
Qed.

Lemma digital_behavior_range : between 0 100 (calculateDigitalBehaviorScore u).
Proof.
  destruct Hvalid as [_ _ _ _ _ _ _ _ _ _ _ _ _ _ _ _ Hu Hw Ho Hd].
  unfold calculateDigitalBehaviorScore.
  fin_of Hu; fin_of Hw; fin_of Ho; fin_of Hd.
  qcases; cbn [between]; lra.
Qed.

(** The weighted sum of the four component scores, brought to the 300-900
    scale and rounded. *)
Lemma credit_score_whole :
  exists z : Z, credit_score (calculateCreditScore u) = of_Z z /\ (300 <= z <= 900)%Z.
Proof.
  pose proof payment_history_range as Hp.
  pose proof credit_utilization_range as Hc.
  pose proof income_stability_range as Hs.
  pose proof digital_behavior_range as Hd.
  unfold calculateCreditScore. cbn [credit_score].
  fin_of Hp; fin_of Hc; fin_of Hs; fin_of Hd.
  num_simpl. eexists; split; [reflexivity | ].
  match goal with |- (_ <= Qfloor (?x + _) <= _)%Z =>
    pose proof (round_bounds 300 900 x) as Hr end.
  cbn [Math.round of_Z between] in Hr. rewrite <- !Zle_Qle in Hr.
  apply Hr.
  - change (inject_Z 300) with 300. lra.
  - change (inject_Z (900 + 1)) with 901. lra.
Qed.

Lemma default_probability_range (cs : Q) :
  between 1 95 (calculateDefaultProbability (Fin cs) u).
Proof.
  destruct Hvalid as [Hm _ _ _ _ Hs Hx _ _ _ _ _ _ Hp He _ _ _ _ _].
  unfold calculateDefaultProbability.
  fin_of Hm; fin_of Hs; fin_of Hx; fin_of Hp; fin_of He.
  num_simpl. rewrite !div_fin by lra.
  qcases; cbn [between of_Z]; lra.
Qed.

End ComponentScores.

Lemma sample_user_valid : valid_profile sample_user.
Proof.
  split; cbn; try lra; auto.
Defined.

(** C5: for every valid profile each of the four component scores (payment
    history, credit utilization, income stability, digital behavior) is a
    finite number between 0 and 100. *)
Theorem component_scores_in_range (u : UserData) :
  valid_profile u ->
  between 0 100 (calculatePaymentHistoryScore u) /\
  between 0 100 (calculateCreditUtilizationScore u) /\
  between 0 100 (calculateIncomeStabilityScore u) /\
  between 0 100 (calculateDigitalBehaviorScore u).
Proof.
  intros Hv. repeat split.
  all: first [ apply payment_history_range | apply credit_utilization_range
             | apply income_stability_range | apply digital_behavior_range ];
    exact Hv.
Qed.

Lemma component_scores_in_range_witness :
  valid_profile sample_user /\
  (between 0 100 (calculatePaymentHistoryScore sample_user) /\
   between 0 100 (calculateCreditUtilizationScore sample_user) /\
   between 0 100 (calculateIncomeStabilityScore sample_user) /\
   between 0 100 (calculateDigitalBehaviorScore sample_user)).
Proof.
  split; [exact sample_user_valid | ].
  apply (component_scores_in_range sample_user). exact sample_user_valid.
Defined.

(** C1: for every valid profile the credit score of the result lies between
    300 and 900 and its default probability between 1 and 95. *)
Theorem score_and_probability_in_range (u : UserData) :
  valid_profile u ->
  between 300 900 (credit_score (calculateCreditScore u)) /\
  between 1 95 (default_probability (calculateCreditScore u)).
Proof.
  intros Hv.
  destruct (credit_score_whole u Hv) as (z & Hz & Hlo & Hhi).
  split.
  - rewrite Hz. cbn [of_Z between].
    change 300 with (inject_Z 300). change 900 with (inject_Z 900).
    rewrite <- !Zle_Qle. lia.
  - change (default_probability (calculateCreditScore u))
      with (calculateDefaultProbability (credit_score (calculateCreditScore u)) u).
    rewrite Hz. apply default_probability_range. exact Hv.
Qed.

Lemma score_and_probability_in_range_witness :
  valid_profile sample_user /\
  (between 300 900 (credit_score (calculateCreditScore sample_user)) /\
   between 1 95 (default_probability (calculateCreditScore sample_user))).
Proof.
  split; [exact sample_user_valid | ].
  apply (score_and_probability_in_range sample_user). exact sample_user_valid.
Defined.

End EngineFacts.

(** * Loan eligibility *)

Module EligibilityFacts.

Import Props Samples NumFacts Engine.

Lemma round_le (hi : Z) (q : Q) :
  q + (1 # 2) < inject_Z (hi + 1) ->
  JS.le (Math.round (Fin q)) (of_Z hi) = true.
Proof.
  intros H. cbn [Math.round of_Z]. apply le_fin.
  pose proof (Qfloor_le (q + (1 # 2))) as Hf.
  assert (Qfloor (q + (1 # 2)) < hi + 1)%Z as Hz by (rewrite Zlt_Qlt; lra).
  rewrite <- Zle_Qle. lia.
Qed.

Lemma scoreMultiplier_cases (cs : num) :
  scoreMultiplier cs = Fin 1.0 \/ scoreMultiplier cs = Fin 0.8 \/
  scoreMultiplier cs = Fin 0.6 \/ scoreMultiplier cs = Fin 0.4.
Proof.
  unfold scoreMultiplier.
  destruct (JS.ge cs (Fin 750)); [tauto | ].
  destruct (JS.ge cs (Fin 650)); [tauto | ].
  destruct (JS.ge cs (Fin 550)); tauto.
Qed.

Lemma max_amount_eq (u : UserData) (cs : num) :
  max_amount (calculateLoanEligibility u cs) =
  Math.round (JS.mul (Math.min (Fin 125000) (JS.mul (monthly_income u) (Fin 10)))
                     (scoreMultiplier cs)).
Proof. reflexivity. Qed.

(** The bound on the maximum amount for a finite income of either sign. *)
Lemma max_amount_finite_income (u : UserData) (cs : num) (m : Q) :
  monthly_income u = Fin m ->
  JS.le (max_amount (calculateLoanEligibility u cs)) (Fin 125000) = true.
Proof.
  intros Hm. rewrite max_amount_eq, Hm.
  change (Fin 125000) with (of_Z 125000) at 2.
  cbn [JS.mul Math.min JS.cmp].
  destruct (scoreMultiplier_cases cs) as [-> | [-> | [-> | ->]]];
    destruct (Qcompare_spec 125000 (m * 10)); cbn [JS.mul];
    apply round_le; change (inject_Z (125000 + 1)) with 125001; lra.
Qed.

(** The same bound for an infinite income: the base amount is the ceiling
    itself, or the negative infinity. *)
Lemma max_amount_infinite_income (u : UserData) (cs : num) :
  monthly_income u = PInf \/ monthly_income u = NInf ->
  JS.le (max_amount (calculateLoanEligibility u cs)) (Fin 125000) = true.
Proof.
  intros [Hm | Hm]; rewrite max_amount_eq, Hm;
    destruct (scoreMultiplier_cases cs) as [-> | [-> | [-> | ->]]]; reflexivity.
Qed.

(** C3: whatever the profile and the credit score, as long as the monthly
    income is a number, the maximum amount returned by the eligibility
    calculation is at most 125000. *)
Theorem max_amount_within_ceiling (u : UserData) (cs : num) :
  monthly_income u <> NaN ->
  JS.le (max_amount (calculateLoanEligibility u cs)) (Fin 125000) = true.
Proof.
  intros Hnan. destruct (monthly_income u) as [ | | | m] eqn:E.
  - congruence.
  - apply max_amount_infinite_income. left. exact E.
  - apply max_amount_infinite_income. right. exact E.
  - apply (max_amount_finite_income u cs m). exact E.
Qed.

Lemma max_amount_within_ceiling_witness :
  monthly_income sample_user <> NaN /\
  JS.le (max_amount (calculateLoanEligibility sample_user (Fin 700)))
        (Fin 125000) = true.
Proof.
  split; [discriminate | ].
  apply (max_amount_within_ceiling sample_user (Fin 700)). discriminate.
Defined.

(** Without any assumption the maximum amount is never above the ceiling:
    when the income is not a number so is the amount, and it compares above
    nothing. *)
Lemma max_amount_never_above_ceiling (u : UserData) (cs : num) :
  JS.gt (max_amount (calculateLoanEligibility u cs)) (Fin 125000) = false.
Proof.
  destruct (monthly_income u) as [ | | | m] eqn:E.
  - rewrite max_amount_eq, E. reflexivity.
  - apply gt_le, max_amount_infinite_income. left. exact E.
  - apply gt_le, max_amount_infinite_income. right. exact E.
  - apply gt_le, (max_amount_finite_income u cs m). exact E.
Qed.

(** The rate assigned to a score is 18, 22, 24 or 26 by band, it is the lower
    end of the reported range, and it is never above 26. *)
Lemma getInterestRate_bands (u : UserData) (cs : num) :
  getInterestRate cs =
    (if JS.ge cs (Fin 750) then Fin 18
     else if JS.ge cs (Fin 650) then Fin 22
     else if JS.ge cs (Fin 550) then Fin 24
     else Fin 26) /\
  JS.le (getInterestRate cs) (Fin 26) = true /\
  range_min (interest_rate_range (calculateLoanEligibility u cs)) = getInterestRate cs.
Proof.
  split; [reflexivity | split; [ | reflexivity]].
  unfold getInterestRate.
  destruct (JS.ge cs (Fin 750)); [reflexivity | ].
  destruct (JS.ge cs (Fin 650)); [reflexivity | ].
  destruct (JS.ge cs (Fin 550)); reflexivity.
Qed.

Lemma ge_antitone (cs : num) (a b : Q) :
  a <= b -> JS.ge cs (Fin a) = false -> JS.ge cs (Fin b) = false.
Proof.
  intros Hab. destruct cs as [ | | | c]; try reflexivity; try discriminate.
  unfold JS.ge. cbn [JS.cmp].
  destruct (Qcompare_spec c a), (Qcompare_spec c b);
    try discriminate; try reflexivity; lra.
Qed.

(** C4, at the scores below 550: the upper end of the reported interest rate
    range is 28, above the cap of 26. *)
Theorem interest_rate_range_above_cap (u : UserData) (cs : num) :
  JS.ge cs (Fin 550) = false ->
  range_max (interest_rate_range (calculateLoanEligibility u cs)) = Fin 28 /\
  JS.gt (range_max (interest_rate_range (calculateLoanEligibility u cs)))
        RBI.INTEREST_RATE_CAP = true.
Proof.
  intros H.
  assert (getInterestRate cs = Fin 26) as Hr.
  { unfold getInterestRate.
    rewrite (ge_antitone cs 550 750), (ge_antitone cs 550 650), H by (assumption || lra).
    reflexivity. }
  cbn [calculateLoanEligibility interest_rate_range range_max].
  rewrite Hr. split; reflexivity.
Qed.

Lemma interest_rate_range_above_cap_witness :
  JS.ge (Fin 500) (Fin 550) = false /\
  range_max (interest_rate_range
    (calculateLoanEligibility sample_user (Fin 500))) = Fin 28 /\
  JS.gt (range_max (interest_rate_range
           (calculateLoanEligibility sample_user (Fin 500))))
        RBI.INTEREST_RATE_CAP = true.
Proof.
  split; [reflexivity | ].
  apply (interest_rate_range_above_cap sample_user (Fin 500)). reflexivity.
Defined.

(** The rate of a band is a positive finite number. *)
Lemma getInterestRate_positive (cs : num) :
  exists r : Q, getInterestRate cs = Fin r /\ 0 < r.
Proof.
  unfold getInterestRate.
  destruct (JS.ge cs (Fin 750)); [exists 18; split; [reflexivity | lra] | ].
  destruct (JS.ge cs (Fin 650)); [exists 22; split; [reflexivity | lra] | ].
  destruct (JS.ge cs (Fin 550)); [exists 24 | exists 26]; split; (reflexivity || lra).
Qed.

(** The rounded EMI of a schedule entry is a finite number that is not
    negative, for an amount that is not negative, a positive rate and a
    positive tenure. *)
Lemma emiOption_emi_nonneg (R rate : Q) (n : Z) :
  0 <= R -> 0 < rate -> (0 < n)%Z -> nonneg (emi (emiOption (Fin R) (Fin rate) n)).
Proof.
  intros HR Hrate Hn. unfold emiOption. cbn [emi].
  rewrite !div_fin by lra. cbn [JS.add].
  rewrite pow_fin_pos by assumption. cbn [JS.mul JS.sub].
  set (r := rate / 100 / 12).
  assert (0 < r) as Hr.
  { unfold r. apply Qlt_shift_div_l; [lra | ].
    apply Qlt_shift_div_l; lra. }
  assert (1 < (1 + r) ^ n) as Hp by (apply Qpower_1_lt; [lra | assumption]).
  rewrite div_fin by lra.
  apply round_nonneg, Qdiv_nonneg; [ | lra].
  apply Qmult_le_0_compat; [ | lra].
  apply Qmult_le_0_compat; lra.
Qed.

(** The rounded EMI of the schedule does not grow with the tenure. *)
Lemma emiOption_emi_nonincreasing (R rate : Q) (n1 n2 : Z) :
  0 <= R -> 0 < rate -> (0 < n1 < n2)%Z ->
  JS.le (emi (emiOption (Fin R) (Fin rate) n2))
        (emi (emiOption (Fin R) (Fin rate) n1)) = true.
Proof.
  intros HR Hrate Hn. unfold emiOption. cbn [emi].
  rewrite !div_fin by lra. cbn [JS.add].
  rewrite !pow_fin_pos by lia. cbn [JS.mul JS.sub].
  set (r := rate / 100 / 12).
  assert (0 < r) as Hr.
  { unfold r. apply Qlt_shift_div_l; [lra | ].
    apply Qlt_shift_div_l; lra. }
  assert (1 < (1 + r) ^ n1) as H1 by (apply Qpower_1_lt; [lra | lia]).
  assert ((1 + r) ^ n1 < (1 + r) ^ n2) as H2
    by (apply Qpower_lt_compat_l; [lia | lra]).
  rewrite !div_fin by lra.
  cbn [Math.round of_Z]. apply le_fin. rewrite <- Zle_Qle.
  apply Qfloor_resp_le.
  pose proof (amortization_nonincreasing (R * r) _ _
                ltac:(apply Qmult_le_0_compat; lra) H1 H2).
  lra.
Qed.

Lemma filter_none {A} (f : A -> bool) (l : list A) :
  (forall x, In x l -> f x = false) -> List.filter f l = [].
Proof.
  induction l as [ | a l IH]; intros H; [reflexivity | ].
  cbn [List.filter]. rewrite (H a) by (left; reflexivity).
  apply IH. intros x Hx. apply H. right. exact Hx.
Qed.

(** The recommended amount is a finite number that is not negative when the
    income is positive. *)
Lemma recommended_amount_nonneg (u : UserData) (cs : num) :
  positive (monthly_income u) ->
  nonneg (recommended_amount (calculateLoanEligibility u cs)).
Proof.
  intros Hm. cbn [calculateLoanEligibility recommended_amount].
  fin_of Hm.
  assert (nonneg (Math.round
    (JS.mul (Math.min (Fin 125000) (JS.mul (Fin q) (Fin 10))) (scoreMultiplier cs))))
    as Hmax.
  { cbn [JS.mul Math.min JS.cmp].
    destruct (scoreMultiplier_cases cs) as [-> | [-> | [-> | ->]]];
      destruct (Qcompare_spec 125000 (q * 10)); cbn [JS.mul];
      apply round_nonneg; lra. }
  fin_of Hmax. cbn [JS.mul]. apply round_nonneg. lra.
Qed.

(** C6: with a positive income that does not exceed the existing EMI, no
    schedule entry fits the (negative) capacity: the eligibility record is
    returned with an empty [emi_options] and [eligible] false. *)
Theorem no_capacity_not_eligible (u : UserData) (cs : num) :
  positive (monthly_income u) ->
  JS.le (monthly_income u) (existing_loan_emi u) = true ->
  emi_options (calculateLoanEligibility u cs) = [] /\
  eligible (calculateLoanEligibility u cs) = false.
Proof.
  intros Hm Hle.
  pose proof (recommended_amount_nonneg u cs Hm) as HR.
  cbn [calculateLoanEligibility emi_options eligible recommended_amount] in HR |- *.
  match goal with |- ?l = [] /\ _ => assert (l = []) as Hnone end.
  { fin_of HR as R. destruct (getInterestRate_positive cs) as (r & -> & Hr).
    apply filter_none. intros o Ho.
    assert (nonneg (emi o)) as He.
    { cbn [List.map In] in Ho.
      destruct Ho as [<- | [<- | [<- | [<- | []]]]];
        apply emiOption_emi_nonneg; (assumption || lia). }
    fin_of He as x. fin_of Hm as m.
    destruct (existing_loan_emi u) as [ | | | e]; try discriminate.
    - reflexivity.
    - cbn [JS.mul JS.sub]. apply le_fin_false.
      unfold JS.le in Hle. cbn [JS.cmp] in Hle.
      destruct (Qcompare_spec m e); try discriminate; lra. }
  rewrite Hnone. split; [reflexivity | apply andb_false_r].
Qed.

Lemma no_capacity_not_eligible_witness :
  positive (monthly_income indebted_user) /\
  JS.le (monthly_income indebted_user) (existing_loan_emi indebted_user) = true /\
  (emi_options (calculateLoanEligibility indebted_user (Fin 480)) = [] /\
   eligible (calculateLoanEligibility indebted_user (Fin 480)) = false).
Proof.
  assert (positive (monthly_income indebted_user)) as H1 by reflexivity.
  assert (JS.le (monthly_income indebted_user) (existing_loan_emi indebted_user)
          = true) as H2 by reflexivity.
  split; [exact H1 | split; [exact H2 | ]].
  exact (no_capacity_not_eligible indebted_user (Fin 480) H1 H2).
Defined.

(** A rounded value that compares below something is its own value under
    [|| 0]: it is not not-a-number, and a zero stays zero. *)
Lemma or_zero_round (x cap : num) :
  JS.le (Math.round x) cap = true ->
  JS.or (Math.round x) (Fin 0) = Math.round x.
Proof.
  destruct x as [ | | | q]; try discriminate; try reflexivity.
  intros _. unfold Math.round, of_Z, JS.or, JS.truthy.
  generalize (Qfloor (q + (1 # 2))). intros z.
  destruct (Qeq_bool (inject_Z z) 0) eqn:E; [ | reflexivity].
  cbn [negb]. apply Qeq_bool_eq in E.
  apply (inject_Z_injective z 0) in E. rewrite E. reflexivity.
Qed.

Section FirstFitting.

Variables (R rate cap : num).

Lemma firstEmi_shortest (t : Z) :
  In t tenures ->
  JS.le (emi (emiOption R rate t)) cap = true ->
  (forall t', In t' tenures -> (t' < t)%Z ->
     JS.le (emi (emiOption R rate t')) cap <> true) ->
  firstEmi (List.filter (fun o => JS.le (emi o) cap)
              (List.map (emiOption R rate) tenures)) =
  emi (emiOption R rate t).
Proof.
  intros Ht Hfit Hmin. unfold tenures in *. cbn [List.map List.filter].
  assert (forall t', In t' [12; 18; 24; 36]%Z -> (t' < t)%Z ->
          JS.le (emi (emiOption R rate t')) cap = false) as Hmin'.
  { intros t' Hin Hlt. destruct (JS.le (emi (emiOption R rate t')) cap) eqn:E';
      [ | reflexivity]. exfalso. apply (Hmin t' Hin Hlt). exact E'. }
  cbn [In] in Ht, Hmin'.
  destruct Ht as [<- | [<- | [<- | [<- | []]]]].
  - rewrite Hfit. cbn [firstEmi]. apply (or_zero_round _ cap). exact Hfit.
  - rewrite (Hmin' 12%Z) by (auto || lia).
    rewrite Hfit. cbn [firstEmi]. apply (or_zero_round _ cap). exact Hfit.
  - rewrite (Hmin' 12%Z), (Hmin' 18%Z) by (auto || lia).
    rewrite Hfit. cbn [firstEmi]. apply (or_zero_round _ cap). exact Hfit.
  - rewrite (Hmin' 12%Z), (Hmin' 18%Z), (Hmin' 24%Z) by (auto || lia).
    rewrite Hfit. cbn [firstEmi]. apply (or_zero_round _ cap). exact Hfit.
Qed.

Lemma firstEmi_none :
  (forall t, In t tenures -> JS.le (emi (emiOption R rate t)) cap <> true) ->
  firstEmi (List.filter (fun o => JS.le (emi o) cap)
              (List.map (emiOption R rate) tenures)) = Fin 0.
Proof.
  intros Hnone. rewrite filter_none; [reflexivity | ].
  intros o Ho. apply in_map_iff in Ho. destruct Ho as (t & <- & Ht).
  destruct (JS.le (emi (emiOption R rate t)) cap) eqn:E'; [ | reflexivity].
  exfalso. apply (Hnone t Ht). exact E'.
Qed.

End FirstFitting.

Lemma emi_options_eq (u : UserData) (cs : num) :
  emi_options (calculateLoanEligibility u cs) =
  List.filter (fun o => JS.le (emi o) (emiCapacity u))
    (List.map (emiOption (recommended_amount (calculateLoanEligibility u cs))
                         (getInterestRate cs)) tenures).
Proof. reflexivity. Qed.

Lemma recommended_emi_eq (u : UserData) :
  recommended_emi (calculateCreditScore u) =
  firstEmi (emi_options
    (calculateLoanEligibility u (credit_score (calculateCreditScore u)))).
Proof. reflexivity. Qed.

(** C9: for every profile the optimal tenure of the result is 12, the first
    entry of the fixed tenure list [12, 18, 24, 36], and the recommended EMI
    is the EMI of the shortest tenure that fits the EMI capacity, or 0 when
    no tenure fits. *)
Theorem optimal_tenure_and_recommended_emi (u : UserData) :
  optimal_tenure_months (calculateCreditScore u) = Fin 12 /\
  tenure_options
    (calculateLoanEligibility u (credit_score (calculateCreditScore u))) = tenures /\
  (forall t, In t tenures -> fits u t ->
     (forall t', In t' tenures -> (t' < t)%Z -> ~ fits u t') ->
     recommended_emi (calculateCreditScore u) = scheduleEmi u t) /\
  ((forall t, In t tenures -> ~ fits u t) ->
     recommended_emi (calculateCreditScore u) = Fin 0).
Proof.
  split; [reflexivity | split; [reflexivity | ]].
  rewrite recommended_emi_eq, emi_options_eq.
  unfold fits, scheduleEmi.
  generalize (recommended_amount
    (calculateLoanEligibility u (credit_score (calculateCreditScore u)))).
  generalize (getInterestRate (credit_score (calculateCreditScore u))).
  generalize (emiCapacity u).
  intros cap rate R. split.
  - intros t Ht Hfit Hmin. apply firstEmi_shortest; assumption.
  - intros Hnone. apply firstEmi_none; assumption.
Qed.

(** For the salaried sample the 12-month EMI is above the capacity and the
    18-month EMI fits; for the indebted sample no tenure fits. *)
Lemma optimal_tenure_and_recommended_emi_witness :
  (In 18%Z tenures /\ fits sample_user 18 /\
   (forall t', In t' tenures -> (t' < 18)%Z -> ~ fits sample_user t') /\
   recommended_emi (calculateCreditScore sample_user) = scheduleEmi sample_user 18) /\
  ((forall t, In t tenures -> ~ fits indebted_user t) /\
   recommended_emi (calculateCreditScore indebted_user) = Fin 0).
Proof.
  assert (In 18%Z tenures) as H1 by (right; left; reflexivity).
  assert (fits sample_user 18) as H2 by (vm_compute; reflexivity).
  assert (forall t', In t' tenures -> (t' < 18)%Z -> ~ fits sample_user t') as H3.
  { intros t' [<- | [<- | [<- | [<- | []]]]] Hlt; try lia.
    vm_compute. discriminate. }
  assert (forall t, In t tenures -> ~ fits indebted_user t) as H4.
  { intros t [<- | [<- | [<- | [<- | []]]]]; vm_compute; discriminate. }
  split.
  - split; [exact H1 | split; [exact H2 | split; [exact H3 | ]]].
    exact (proj1 (proj2 (proj2 (optimal_tenure_and_recommended_emi sample_user)))
             18%Z H1 H2 H3).
  - split; [exact H4 | ].
    exact (proj2 (proj2 (proj2 (optimal_tenure_and_recommended_emi indebted_user)))
             H4).
Defined.

End EligibilityFacts.

(** * Regulatory compliance and the EMI formula *)

Module RBIFacts.

Import Props Samples NumFacts RBI.

Lemma monthly_rate_fin (rate : Q) :
  JS.div (Fin rate) (JS.mul (Fin 12) (Fin 100)) = Fin (rate / (12 * 100)).
Proof. cbn [JS.mul]. apply div_fin. lra. Qed.

(** The closed form of the formula at a positive tenure. *)
Lemma calculateEMI_fin (P rate : Q) (n : Z) :
  0 < rate -> (0 < n)%Z ->
  calculateEMI (Fin P) (Fin rate) n =
  Fin (P * (rate / (12 * 100)) * (1 + rate / (12 * 100)) ^ n /
       ((1 + rate / (12 * 100)) ^ n - 1)).
Proof.
  intros Hrate Hn. unfold calculateEMI.
  rewrite monthly_rate_fin. cbn [JS.add].
  rewrite pow_fin_pos by assumption. cbn [JS.mul JS.sub].
  assert (0 < rate / (12 * 100)) as Hr by (apply Qlt_shift_div_l; lra).
  assert (1 < (1 + rate / (12 * 100)) ^ n) as Hp
    by (apply Qpower_1_lt; [lra | assumption]).
  apply div_fin. lra.
Qed.




Lemma length_zero_iff {A} (l : list A) : (length l =? 0)%nat = true <-> l = [].
Proof. destruct l; cbn; split; congruence. Qed.

Lemma starts_with_violation (v w : Violation) (p : Z) (st : State) :
  starts_with v st.1 -> starts_with v (violation w p st).1.
Proof. intros (rest & H). exists (rest ++ [w])%list. cbn. rewrite H. reflexivity. Qed.

Lemma starts_with_bonus (v : Violation) (b : Z) (st : State) :
  starts_with v st.1 -> starts_with v (bonus b st).1.
Proof. intros H. exact H. Qed.

Lemma starts_with_when (v : Violation) (c : bool) (f : State -> State) (st : State) :
  starts_with v st.1 ->
  (forall st', starts_with v st'.1 -> starts_with v (f st').1) ->
  starts_with v (when c f st).1.
Proof. intros H Hf. unfold when. destruct c; [apply Hf | ]; exact H. Qed.

(** C2: a requested amount above 125000 makes the check non-compliant with
    the violation naming the Rs. 125000 ceiling in the list, whatever the
    profile, the rate and the tenure; and the check is compliant exactly when
    the list of violations is empty. *)
Theorem amount_above_ceiling_not_compliant
    (profile : RBIBorrowerProfile) (requestedAmount proposedRate : num)
    (tenureMonths : Z) :
  (isCompliant (checkCompliance profile requestedAmount proposedRate tenureMonths)
     = true <->
   violations (checkCompliance profile requestedAmount proposedRate tenureMonths)
     = []) /\
  (JS.gt requestedAmount (Fin 125000) = true ->
   isCompliant (checkCompliance profile requestedAmount proposedRate tenureMonths)
     = false /\
   In (Message "Loan amount exceeds RBI limit of Rs. 125000")
      (violations
         (checkCompliance profile requestedAmount proposedRate tenureMonths))).
Proof.
  split; [apply length_zero_iff | ].
  intros Habove.
  assert (starts_with (Message "Loan amount exceeds RBI limit of Rs. 125000")
    (violations (checkCompliance profile requestedAmount proposedRate tenureMonths)))
    as (rest & Hrest).
  { unfold checkCompliance. cbn [violations LOAN_LIMITS maxLoanAmount].
    rewrite Habove.
    repeat first
      [ match goal with
        | |- starts_with _ (when true _ ([], _)).1 => eexists; reflexivity
        end
      | apply starts_with_when; [ | intros ? ? ]
      | apply starts_with_violation
      | apply starts_with_bonus
      | match goal with |- context [if ?c then _ else _] => destruct c end
      | assumption ]. }
  change (isCompliant
            (checkCompliance profile requestedAmount proposedRate tenureMonths))
    with (length (violations
            (checkCompliance profile requestedAmount proposedRate tenureMonths))
          =? 0)%nat.
  rewrite Hrest. split; [reflexivity | left; reflexivity].
Qed.

Lemma amount_above_ceiling_not_compliant_witness :
  JS.gt (Fin 130000) (Fin 125000) = true /\
  (isCompliant (checkCompliance sample_profile (Fin 130000) (Fin 24) 24) = false /\
   In (Message "Loan amount exceeds RBI limit of Rs. 125000")
      (violations (checkCompliance sample_profile (Fin 130000) (Fin 24) 24))).
Proof.
  assert (JS.gt (Fin 130000) (Fin 125000) = true) as H by reflexivity.
  split; [exact H | ].
  exact (proj2 (amount_above_ceiling_not_compliant
                  sample_profile (Fin 130000) (Fin 24) 24) H).
Defined.

End RBIFacts.

(** * The EMI formula in binary64 *)

Module Binary64Facts.

Import PrimFloat Binary64.

(** At a rate so small that one plus the monthly rate rounds to one, the
    power is one and the formula divides by zero. *)
Lemma tiny_rate_rounds_to_one :
  add 1%float (div 0x1p-50%float (mul 12 100)) = 1%float.
Proof. reflexivity. Qed.


End Binary64Facts.

(** * The CSV intake *)

Module CSVFacts.

Import Props Samples NumFacts Str CSV Engine.

Lemma or_falsy (x d : num) : JS.truthy x = false -> JS.or x d = d.
Proof. intros H. unfold JS.or. rewrite H. reflexivity. Qed.

Lemma isZero_falsy (x : num) : isZero x -> JS.truthy x = false.
Proof.
  destruct x as [ | | | q]; cbn [isZero JS.truthy]; try contradiction.
  intros H. apply Qeq_eq_bool in H. rewrite H. reflexivity.
Qed.

(** Reduce [assign] at a known header to the branch of that header. *)
Ltac assign_branch H :=
  lazy beta iota fix delta [assign String.eqb Ascii.eqb Bool.eqb] in H.

(** A header only ever writes the property of its own name. *)
Lemma assign_other (header col : string) (value : option string)
    (o o' : RowObject) :
  assign header value o = Ok o' -> header <> col ->
  numbers o' !! col = numbers o !! col.
Proof.
  intros H Hne. unfold assign in H.
  repeat match type of H with
  | (if (?h =? ?s)%string then _ else _) = _ =>
      destruct (String.eqb_spec h s) as [-> | _]
  end.
  all: try (destruct value; cbn [bind withoutPercent] in H; [ | discriminate]).
  all: injection H as <-; cbn [setNumber setText numbers]; try reflexivity.
  all: apply lookup_insert_ne; exact Hne.
Qed.

(** A listed column whose cell reads as zero or as not-a-number stores its
    default. *)
Lemma assign_falsy (c : Column) (value : option string) (o o' : RowObject) :
  In c numericColumns ->
  assign (col_name c) value o = Ok o' ->
  JS.truthy (readCell (col_kind c) value) = false ->
  numbers o' !! col_name c = Some (col_default c).
Proof.
  intros Hin H Hfalsy. unfold numericColumns in Hin. cbn [In] in Hin.
  repeat (destruct Hin as [<- | Hin]); [ .. | contradiction ];
    cbn [col_name col_kind col_default readCell] in *;
    assign_branch H.
  all: try (destruct value; cbn [bind withoutPercent] in H; [ | discriminate]).
  all: injection H as <-; cbn [setNumber numbers].
  all: rewrite lookup_insert_eq, or_falsy by exact Hfalsy; reflexivity.
Qed.

Lemma lastIndexOf_none_cons (col header : string) (rest : list string) :
  lastIndexOf col (header :: rest) = None ->
  header <> col /\ lastIndexOf col rest = None.
Proof.
  cbn [lastIndexOf]. destruct (lastIndexOf col rest); [discriminate | ].
  destruct (String.eqb_spec header col); [discriminate | ]. intros _. split; auto.
Qed.

(** Headers after the last one named [col] leave the property alone. *)
Lemma forEachHeader_untouched (col : string) (values : list string)
    (headers : list string) :
  forall (index : nat) (o o' : RowObject),
    lastIndexOf col headers = None ->
    forEachHeader headers index values o = Ok o' ->
    numbers o' !! col = numbers o !! col.
Proof.
  induction headers as [ | header rest IH]; intros index o o' Hnone H.
  - injection H as <-. reflexivity.
  - apply lastIndexOf_none_cons in Hnone as [Hne Hnone].
    cbn [forEachHeader] in H.
    destruct (assign header (values !! index) o) as [o1 | e] eqn:Ha;
      cbn [bind] in H; [ | discriminate].
    rewrite (IH _ _ _ Hnone H). exact (assign_other _ _ _ _ _ Ha Hne).
Qed.

(** The property named [col] after [forEach] is the one written at the last
    header named [col]. *)
Lemma forEachHeader_last (col : string) (values : list string)
    (headers : list string) :
  forall (index i : nat) (o o' : RowObject),
    lastIndexOf col headers = Some i ->
    forEachHeader headers index values o = Ok o' ->
    exists o1 o2,
      assign col (values !! (index + i)%nat) o1 = Ok o2 /\
      numbers o' !! col = numbers o2 !! col.
Proof.
  induction headers as [ | header rest IH]; intros index i o o' Hlast H;
    [discriminate | ].
  cbn [forEachHeader] in H.
  destruct (assign header (values !! index) o) as [o1 | e] eqn:Ha;
    cbn [bind] in H; [ | discriminate].
  cbn [lastIndexOf] in Hlast.
  destruct (lastIndexOf col rest) as [i' | ] eqn:Hrest.
  - injection Hlast as <-.
    destruct (IH (S index) i' o1 o' eq_refl H) as (o2 & o3 & Hassign & Hsame).
    exists o2, o3. split; [ | exact Hsame].
    replace (index + S i')%nat with (S index + i')%nat by lia. exact Hassign.
  - destruct (String.eqb_spec header col) as [-> | ]; [ | discriminate].
    injection Hlast as <-. exists o, o1. split.
    + replace (index + 0)%nat with index by lia. exact Ha.
    + exact (forEachHeader_untouched col values rest _ _ _ Hrest H).
Qed.

(** The validation of a stored default returns it. *)
Lemma completeRow_default (c : Column) (o : RowObject) :
  In c numericColumns ->
  numbers o !! col_name c = Some (col_default c) ->
  col_field c (completeRow o) = col_default c.
Proof.
  intros Hin H. unfold numericColumns in Hin. cbn [In] in Hin.
  repeat (destruct Hin as [<- | Hin]); [ .. | contradiction ];
    cbn [col_name col_default col_field] in *;
    unfold completeRow;
    cbn [monthly_income income_stability_months emergency_savings
         electricity_bill_on_time dth_recharge_on_time internet_bill_on_time
         rent_payment_on_time existing_loan_emi credit_card_outstanding
         previous_loan_defaults upi_transactions_per_month digital_wallet_usage
         online_bill_payments savings_rate age years_of_employment city_tier];
    rewrite H; reflexivity.
Qed.

(** A listed column whose last cell in the row reads as zero or as
    not-a-number ends with its default. *)
Lemma parseRow_falsy_default (headers : list string) (line : string)
    (user : UserData) (c : Column) (i : nat) :
  parseRow headers line = Ok user ->
  In c numericColumns ->
  lastIndexOf (col_name c) headers = Some i ->
  JS.truthy (readCell (col_kind c) (cellsOf line !! i)) = false ->
  col_field c user = col_default c.
Proof.
  intros Hrow Hin Hlast Hfalsy. unfold parseRow in Hrow.
  destruct (forEachHeader headers 0 (List.map trim (split "," line)) emptyObject)
    as [o | e] eqn:Hfor; cbn [bind] in Hrow; [ | discriminate].
  injection Hrow as <-.
  destruct (forEachHeader_last _ _ _ _ _ _ _ Hlast Hfor) as (o1 & o2 & Ha & Hsame).
  apply completeRow_default; [exact Hin | ].
  rewrite Hsame. exact (assign_falsy c _ _ _ Hin Ha Hfalsy).
Qed.

Lemma numberOr_truthy (x : option num) (d : num) :
  JS.truthy d = true -> JS.truthy (numberOr x d) = true.
Proof.
  intros Hd. destruct x as [n | ]; cbn [numberOr]; [ | exact Hd].
  unfold JS.or. destruct (JS.truthy n) eqn:E; assumption.
Qed.

Lemma mul_truthy (x : num) (q : Q) :
  ~ q == 0 -> JS.truthy x = true -> JS.truthy (JS.mul x (Fin q)) = true.
Proof.
  intros Hq Hx. destruct x as [ | | | a]; try discriminate.
  - cbn [JS.mul JS.sign JS.sign_mul].
    destruct (Qcompare_spec q 0); [contradiction | reflexivity ..].
  - cbn [JS.mul JS.sign JS.sign_mul].
    destruct (Qcompare_spec q 0); [contradiction | reflexivity ..].
  - cbn [JS.mul JS.truthy] in *.
    destruct (Qeq_bool a 0) eqn:Ea; [discriminate | ].
    apply Qeq_bool_neq in Ea.
    destruct (Qeq_bool (a * q) 0) eqn:E; [ | reflexivity].
    apply Qeq_bool_eq, Qmult_integral in E. tauto.
Qed.

(** The [monthly_expenses] column has no fixed default: a cell that reads as
    zero or as not-a-number is replaced by 0.6 times the income read so far
    (or times 25000), which is never zero. *)
Lemma zero_expenses_cell_replaced (headers : list string) (line : string)
    (user : UserData) (i : nat) :
  parseRow headers line = Ok user ->
  lastIndexOf "monthly_expenses" headers = Some i ->
  JS.truthy (parseFloat (cellsOf line !! i)) = false ->
  JS.truthy (monthly_expenses user) = true.
Proof.
  intros Hrow Hlast Hfalsy. unfold parseRow in Hrow.
  destruct (forEachHeader headers 0 (List.map trim (split "," line)) emptyObject)
    as [o | e] eqn:Hfor; cbn [bind] in Hrow; [ | discriminate].
  injection Hrow as <-.
  destruct (forEachHeader_last _ _ _ _ _ _ _ Hlast Hfor) as (o1 & o2 & Ha & Hsame).
  assign_branch Ha. injection Ha as <-.
  cbn [setNumber numbers] in Hsame. rewrite lookup_insert_eq in Hsame.
  fold (cellsOf line) in Hsame. cbn [Nat.add] in Hsame.
  rewrite or_falsy in Hsame by exact Hfalsy.
  unfold completeRow. cbn [monthly_expenses]. rewrite Hsame.
  assert (JS.truthy
            (JS.mul (numberOr (numbers o1 !! "monthly_income") (Fin 25000)) (Fin 0.6))
          = true) as Ht.
  { apply mul_truthy; [intros H; discriminate H | ].
    apply numberOr_truthy. reflexivity. }
  unfold safeParseFloat, parseFloatNumber.
  destruct (JS.mul _ (Fin 0.6)) as [ | | | q]; try discriminate; exact Ht.
Qed.

Lemma mapResult_lookup {A B : Type} (f : A -> result B) (l : list A) :
  forall (r : list B) (k : nat) (a : A),
    mapResult f l = Ok r -> l !! k = Some a ->
    exists b, r !! k = Some b /\ f a = Ok b.
Proof.
  induction l as [ | x l IH]; intros r k a H Hk; [discriminate | ].
  cbn [mapResult] in H.
  destruct (f x) as [y | e] eqn:Hx; cbn [bind] in H; [ | discriminate].
  destruct (mapResult f l) as [ys | e] eqn:Hl; cbn [bind] in H; [ | discriminate].
  injection H as <-.
  destruct k as [ | k].
  - injection Hk as <-. exists y. split; [reflexivity | exact Hx].
  - exact (IH ys k a eq_refl Hk).
Qed.

Lemma parseCSV_rows (csvText : string) (users : list UserData) :
  parseCSV csvText = Ok users ->
  mapResult (parseRow (headersOf csvText)) (rowsOf csvText) = Ok users.
Proof.
  unfold parseCSV.
  destruct (negb (isValid _)); [discriminate | ]. intros H. exact H.
Qed.

Lemma zero_default_columns (c : Column) :
  In c numericColumns ->
  (isZero (col_default c) <-> In (col_name c) zeroDefaultColumns).
Proof.
  intros Hin. unfold numericColumns in Hin. cbn [In] in Hin.
  repeat (destruct Hin as [<- | Hin]); [ .. | contradiction ];
    cbn [col_name col_default isZero zeroDefaultColumns In];
    (split; [ intros H; try (exfalso; revert H; unfold Qeq; cbn; lia); tauto
            | intros H; try reflexivity;
              repeat (destruct H as [H | H]; [discriminate H | ]); contradiction ]).
Qed.

(** C10: in every file that parses, a cell of a listed numeric column that
    reads as exactly zero leaves the column's default in the result, as a
    missing cell does; the default is itself zero only for
    [emergency_savings], [existing_loan_emi], [credit_card_outstanding] and
    [previous_loan_defaults], so only there is the zero kept. *)
Theorem zero_cell_takes_default (csvText : string) (users : list UserData)
    (k : nat) (line : string) (c : Column) (i : nat) :
  parseCSV csvText = Ok users ->
  rowsOf csvText !! k = Some line ->
  In c numericColumns ->
  lastIndexOf (col_name c) (headersOf csvText) = Some i ->
  isZero (readCell (col_kind c) (cellsOf line !! i)) ->
  (exists user, users !! k = Some user /\ col_field c user = col_default c) /\
  (isZero (col_default c) <-> In (col_name c) zeroDefaultColumns).
Proof.
  intros Hcsv Hline Hin Hlast Hzero.
  split; [ | exact (zero_default_columns c Hin)].
  apply parseCSV_rows in Hcsv.
  destruct (mapResult_lookup _ _ _ _ _ Hcsv Hline) as (user & Hk & Hrow).
  exists user. split; [exact Hk | ].
  exact (parseRow_falsy_default _ _ _ c i Hrow Hin Hlast (isZero_falsy _ Hzero)).
Qed.

Lemma zero_cell_takes_default_witness :
  parseCSV csv_zero_cells = Ok users_zero_cells /\
  rowsOf csv_zero_cells !! 0%nat = Some line_zero_cells /\
  In column_monthly_income numericColumns /\
  lastIndexOf "monthly_income" (headersOf csv_zero_cells) = Some 1%nat /\
  isZero (readCell FloatCell (cellsOf line_zero_cells !! 1%nat)) /\
  (exists user, users_zero_cells !! 0%nat = Some user /\
                monthly_income user = Fin 25000).
Proof.
  assert (parseCSV csv_zero_cells = Ok users_zero_cells) as H1
    by (vm_compute; reflexivity).
  assert (rowsOf csv_zero_cells !! 0%nat = Some line_zero_cells) as H2
    by (vm_compute; reflexivity).
  assert (In column_monthly_income numericColumns) as H3
    by (left; reflexivity).
  assert (lastIndexOf (col_name column_monthly_income) (headersOf csv_zero_cells)
          = Some 1%nat) as H4 by (vm_compute; reflexivity).
  assert (isZero (readCell (col_kind column_monthly_income)
                    (cellsOf line_zero_cells !! 1%nat))) as H5
    by (vm_compute; reflexivity).
  split; [exact H1 | split; [exact H2 | split; [exact H3 | split; [exact H4 | ]]]].
  split; [exact H5 | ].
  exact (proj1 (zero_cell_takes_default csv_zero_cells users_zero_cells 0
                  line_zero_cells column_monthly_income 1 H1 H2 H3 H4 H5)).
Defined.

(** With a cell under its header every branch of the [switch] returns. *)
Lemma assign_some (header s : string) (o : RowObject) :
  exists o', assign header (Some s) o = Ok o'.
Proof.
  unfold assign.
  repeat match goal with
  | |- context [if ?b then _ else _] => destruct b
  end; cbn [bind withoutPercent]; eexists; reflexivity.
Qed.

Lemma forEachHeader_total (values : list string) (headers : list string) :
  forall (index : nat) (o : RowObject),
    (index + length headers <= length values)%nat ->
    exists o', forEachHeader headers index values o = Ok o'.
Proof.
  induction headers as [ | header rest IH]; intros index o Hlen.
  - exists o. reflexivity.
  - cbn [length] in Hlen. cbn [forEachHeader].
    destruct (lookup_lt_is_Some_2 values index ltac:(lia)) as (s & ->).
    destruct (assign_some header s o) as (o1 & ->). cbn [bind].
    apply IH. lia.
Qed.

(** A line with a cell for every header is parsed without an exception. *)
Lemma parseRow_total (headers : list string) (line : string) :
  (length headers <= length (cellsOf line))%nat ->
  exists user, parseRow headers line = Ok user.
Proof.
  intros Hlen. unfold parseRow.
  destruct (forEachHeader_total (cellsOf line) headers 0 emptyObject Hlen)
    as (o & Ho).
  unfold cellsOf in Ho. rewrite Ho. cbn [bind]. eexists. reflexivity.
Qed.

Lemma assign_percent_undefined (col : string) (o : RowObject) :
  In col percentColumns -> assign col None o = Throw TypeError.
Proof.
  intros Hin. unfold percentColumns in Hin. cbn [In] in Hin.
  repeat (destruct Hin as [<- | Hin]); [ .. | contradiction ]; reflexivity.
Qed.

(** A line without a cell under a percentage header makes the row function
    throw. *)
Lemma parseRow_missing_percent_cell (headers : list string) (line col : string)
    (i : nat) :
  In col percentColumns ->
  headers !! i = Some col ->
  cellsOf line !! i = None ->
  exists e, parseRow headers line = Throw e.
Proof.
  intros Hin Hi Hcell.
  assert (forall hs index j o,
            hs !! j = Some col -> cellsOf line !! (index + j)%nat = None ->
            exists e, forEachHeader hs index (cellsOf line) o = Throw e) as Hthrow.
  { induction hs as [ | h hs IH]; intros index j o Hj Hnone; [discriminate | ].
    cbn [forEachHeader]. destruct j as [ | j].
    - injection Hj as ->. replace (index + 0)%nat with index in Hnone by lia.
      rewrite Hnone, (assign_percent_undefined col o Hin). eexists. reflexivity.
    - destruct (assign h (cellsOf line !! index) o) as [o1 | e];
        cbn [bind]; [ | eexists; reflexivity].
      apply (IH (S index) j o1 Hj).
      replace (S index + j)%nat with (index + S j)%nat by lia. exact Hnone. }
  destruct (Hthrow headers 0%nat i emptyObject Hi Hcell) as (e & He).
  exists e. unfold parseRow. unfold cellsOf in He. rewrite He. reflexivity.
Qed.

(** C7, at a file whose header has every required column and whose second
    data line stops after three cells: [parseCSV] throws a [TypeError]
    instead of filling in the defaults. *)
Theorem short_row_throws : parseCSV csv_short_row = Throw TypeError.
Proof. vm_compute. reflexivity. Qed.

(** An income cell reading [Infinity] passes both the [||] default and the
    not-a-number check: the income of the result is not finite. *)
Lemma infinite_income_kept :
  exists user, parseCSV csv_infinite_income = Ok [user] /\
               monthly_income user = PInf /\
               JS.isFinite (monthly_income user) = false.
Proof. eexists. split; [vm_compute; reflexivity | split; reflexivity ]. Qed.

End CSVFacts.

(** * The model run on the sample inputs *)

Module Examples.

Import Props Samples Str CSV Engine.

Example sample_credit_score :
  credit_score (calculateCreditScore sample_user) = Fin 813.
Proof. vm_compute. reflexivity. Qed.

Example sample_decision :
  decision (calculateCreditScore sample_user) = Approve /\
  risk_band (calculateCreditScore sample_user) = Excellent /\
  default_probability (calculateCreditScore sample_user) = Fin 7.
Proof. repeat split; vm_compute; reflexivity. Qed.

(** The 12-month EMI of the sample is above the capacity of 8000, so the
    schedule starts at 18 months while the optimal tenure stays 12. *)
Example sample_schedule :
  List.map tenure
    (emi_options (calculateLoanEligibility sample_user (Fin 813))) = [18; 24; 36]%Z /\
  recommended_emi (calculateCreditScore sample_user) = Fin 5583 /\
  optimal_tenure_months (calculateCreditScore sample_user) = Fin 12.
Proof. repeat split; vm_compute; reflexivity. Qed.

Example low_score_rate_range :
  interest_rate_range (calculateLoanEligibility indebted_user (Fin 480)) =
  {| range_min := Fin 26; range_max := Fin 28 |}.
Proof. vm_compute. reflexivity. Qed.

Example compliance_above_ceiling :
  RBI.violations (RBI.checkCompliance sample_profile (Fin 130000) (Fin 24) 24) =
  [RBI.Message "Loan amount exceeds RBI limit of Rs. 125000";
   RBI.Message "Total indebtedness exceeds RBI limit of Rs. 100000"].
Proof. vm_compute. reflexivity. Qed.

(** A rate of zero makes the EMI zero over zero: the ratio is not a number
    and neither the violation nor the bonus of rule 6 applies. *)
Example compliance_zero_rate :
  RBI.checkCompliance sample_profile (Fin 50000) (Fin 0) 24 =
  {| RBI.isCompliant := true; RBI.violations := []; RBI.riskAdjustment := 3 |}.
Proof. vm_compute. reflexivity. Qed.

Example parseFloat_texts :
  List.map (fun s => JS.cmp (parseFloatString s) (Fin 12.5))
    ["12.5"; "  12.5abc"; "1.25e1"; "+12.50%"] =
    [Some Eq; Some Eq; Some Eq; Some Eq] /\
  List.map parseFloatString [""; "abc"; "."; "-"; "e5"] = [NaN; NaN; NaN; NaN; NaN] /\
  List.map parseFloatString ["Infinity"; "-Infinity"; "+Infinityx"] = [PInf; NInf; PInf].
Proof. repeat split; vm_compute; reflexivity. Qed.

Example parseInt_texts :
  List.map parseIntString ["42"; " -7.9"; "0x1A"; "12abc"; "1e3"] =
    [Fin 42; Fin (-7); Fin 26; Fin 12; Fin 1] /\
  List.map parseIntString [""; "abc"; "0x"; "Infinity"] = [NaN; NaN; NaN; NaN].
Proof. repeat split; vm_compute; reflexivity. Qed.

Example parseInt_numbers :
  List.map (fun q => parseIntNumber (Fin q)) [15; 12.5; 0.0000005; 10 ^ 21] =
  [Fin 15; Fin 12; Fin 5; Fin 1].
Proof. vm_compute. reflexivity. Qed.

Example split_and_trim :
  split "," "a,b,,c" = ["a"; "b"; ""; "c"] /\
  split "," "" = [""] /\
  trim "  95% " = "95%" /\
  removeFirst "%" "95%" = "95".
Proof. repeat split; vm_compute; reflexivity. Qed.

(** The row of zeros and empty cells: every column is at its default. *)
Example zero_cells_row :
  List.map (fun user =>
    (monthly_income user, upi_transactions_per_month user, savings_rate user,
     electricity_bill_on_time user, income_type user))
    users_zero_cells =
  [(Fin 25000, Fin 15, Fin 15, Fin 80, "salary")].
Proof. vm_compute. reflexivity. Qed.

Example header_without_columns :
  parseCSV "user_id,monthly_income
U001,30000" =
  Throw (InvalidCSVFormat (List.filter
    (fun col => negb (includes ["user_id"; "monthly_income"] col)) requiredColumns)).
Proof. vm_compute. reflexivity. Qed.

End Examples.

(** * Further facts: the order of numbers *)

Module OrderFacts.

Import Props Order NumFacts.

Lemma cmp_swap (x y : num) :
  JS.cmp y x = match JS.cmp x y with
               | Some c => Some (CompOpp c)
               | None => None
               end.
Proof.
  destruct x as [ | | | a], y as [ | | | b]; try reflexivity.
  cbn [JS.cmp]. rewrite <- Qcompare_antisym. reflexivity.
Qed.

Lemma ge_le (x y : num) : JS.ge x y = JS.le y x.
Proof.
  unfold JS.ge, JS.le. rewrite (cmp_swap x y).
  destruct (JS.cmp x y) as [[ | | ] | ]; reflexivity.
Qed.

Lemma gt_lt (x y : num) : JS.gt x y = JS.lt y x.
Proof.
  unfold JS.gt, JS.lt. rewrite (cmp_swap x y).
  destruct (JS.cmp x y) as [[ | | ] | ]; reflexivity.
Qed.

Lemma le_fin_iff (a b : Q) : JS.le (Fin a) (Fin b) = true <-> a <= b.
Proof.
  unfold JS.le. cbn [JS.cmp].
  destruct (Qcompare_spec a b); split; intros; try reflexivity; try discriminate; lra.
Qed.

Lemma lt_fin_iff (a b : Q) : JS.lt (Fin a) (Fin b) = true <-> a < b.
Proof.
  unfold JS.lt. cbn [JS.cmp].
  destruct (Qcompare_spec a b); split; intros; try reflexivity; try discriminate; lra.
Qed.

Lemma gt_fin_iff (a b : Q) : JS.gt (Fin a) (Fin b) = true <-> b < a.
Proof. rewrite gt_lt. apply lt_fin_iff. Qed.

Lemma ge_fin_iff (a b : Q) : JS.ge (Fin a) (Fin b) = true <-> b <= a.
Proof. rewrite ge_le. apply le_fin_iff. Qed.

Lemma le_trans (x y z : num) :
  JS.le x y = true -> JS.le y z = true -> JS.le x z = true.
Proof.
  destruct x as [ | | | a], y as [ | | | b], z as [ | | | c];
    try discriminate; try reflexivity.
  rewrite !le_fin_iff. lra.
Qed.

Lemma lt_le_trans (x y z : num) :
  JS.lt x y = true -> JS.le y z = true -> JS.lt x z = true.
Proof.
  destruct x as [ | | | a], y as [ | | | b], z as [ | | | c];
    try discriminate; try reflexivity.
  rewrite !lt_fin_iff, le_fin_iff. lra.
Qed.

Lemma le_lt_false (x y : num) : JS.le x y = true -> JS.lt y x = false.
Proof.
  unfold JS.le, JS.lt. rewrite (cmp_swap x y).
  destruct (JS.cmp x y) as [[ | | ] | ]; try discriminate; reflexivity.
Qed.

Lemma fle_le (x y : num) : fle x y -> JS.le x y = true.
Proof.
  destruct x as [ | | | a], y as [ | | | b]; cbn [fle]; try contradiction.
  apply le_fin_iff.
Qed.

Lemma fle_round (x y : num) : fle x y -> fle (Math.round x) (Math.round y).
Proof.
  destruct x as [ | | | a], y as [ | | | b]; cbn [fle]; try contradiction.
  intros H. cbn [Math.round of_Z fle]. rewrite <- Zle_Qle.
  apply Qfloor_resp_le. lra.
Qed.

Lemma fle_max (a : Q) (x y : num) :
  fle x y -> fle (Math.max (Fin a) x) (Math.max (Fin a) y).
Proof.
  destruct x as [ | | | p], y as [ | | | q]; cbn [fle]; try contradiction.
  intros H. qcases; cbn [fle]; lra.
Qed.

Lemma fle_min (a : Q) (x y : num) :
  fle x y -> fle (Math.min (Fin a) x) (Math.min (Fin a) y).
Proof.
  destruct x as [ | | | p], y as [ | | | q]; cbn [fle]; try contradiction.
  intros H. qcases; cbn [fle]; lra.
Qed.

Lemma fle_add_r (x y : num) (c : Q) : fle x y -> fle (JS.add x (Fin c)) (JS.add y (Fin c)).
Proof.
  destruct x as [ | | | p], y as [ | | | q]; cbn [fle JS.add]; try contradiction.
  intros H. lra.
Qed.

Lemma fle_refl_fin (x : num) : JS.isFinite x = true -> fle x x.
Proof. destruct x; try discriminate. intros _. cbn [fle]. lra. Qed.

End OrderFacts.

(** * Further facts: bands, decisions and the compliance flags of the engine *)

Module DecisionFacts.

Import Props Order Samples NumFacts OrderFacts Engine.

Lemma ge_mono (x y k : num) :
  JS.le x y = true -> JS.ge x k = true -> JS.ge y k = true.
Proof. rewrite !ge_le. intros Hxy Hk. exact (le_trans _ _ _ Hk Hxy). Qed.

(** X1: the risk band, the interest rate and the amount multiplier follow the
    same three thresholds: Excellent goes with 18% and the full base amount,
    Good with 22% and 0.8, Fair with 24% and 0.6, and both Poor and Very Poor
    with 26% and 0.4. *)
Theorem band_rate_multiplier_agree (cs : num) :
  match getRiskBand cs with
  | Excellent => getInterestRate cs = Fin 18 /\ scoreMultiplier cs = Fin 1.0
  | Good => getInterestRate cs = Fin 22 /\ scoreMultiplier cs = Fin 0.8
  | Fair => getInterestRate cs = Fin 24 /\ scoreMultiplier cs = Fin 0.6
  | Poor | VeryPoor => getInterestRate cs = Fin 26 /\ scoreMultiplier cs = Fin 0.4
  end.
Proof.
  unfold getRiskBand, getInterestRate, scoreMultiplier.
  destruct (JS.ge cs (Fin 750)); [split; reflexivity | ].
  destruct (JS.ge cs (Fin 650)); [split; reflexivity | ].
  destruct (JS.ge cs (Fin 550)); [split; reflexivity | ].
  destruct (JS.ge cs (Fin 450)); split; reflexivity.
Qed.

Lemma band_decision (cs dp : num) :
  match getRiskBand cs with
  | Poor | VeryPoor => makeDecision cs dp = Reject
  | Fair => makeDecision cs dp <> Approve
  | Good | Excellent => True
  end.
Proof.
  unfold getRiskBand, makeDecision.
  destruct (JS.ge cs (Fin 750)); [exact I | ].
  destruct (JS.ge cs (Fin 650)); [exact I | ].
  destruct (JS.ge cs (Fin 550)).
  - cbn [andb]. destruct (JS.le dp (Fin 35)); discriminate.
  - destruct (JS.ge cs (Fin 450)); reflexivity.
Qed.

(** X2: in every result the decision respects the risk band: a Poor or Very
    Poor band is rejected, and a Fair band is never approved. *)
Theorem decision_respects_band (u : UserData) :
  match risk_band (calculateCreditScore u) with
  | Poor | VeryPoor => decision (calculateCreditScore u) = Reject
  | Fair => decision (calculateCreditScore u) <> Approve
  | Good | Excellent => True
  end.
Proof.
  exact (band_decision (credit_score (calculateCreditScore u))
                       (default_probability (calculateCreditScore u))).
Qed.

(** X3: the decision is monotone: a higher credit score together with a lower
    default probability never gives a worse decision. *)
Theorem makeDecision_monotone (cs1 cs2 dp1 dp2 : num) :
  JS.le cs1 cs2 = true -> JS.le dp2 dp1 = true ->
  (decisionRank (makeDecision cs1 dp1) <= decisionRank (makeDecision cs2 dp2))%nat.
Proof.
  intros Hcs Hdp. unfold makeDecision.
  pose proof (ge_mono cs1 cs2 (Fin 650) Hcs) as A1.
  pose proof (ge_mono cs1 cs2 (Fin 550) Hcs) as A2.
  pose proof (le_trans dp2 dp1 (Fin 20) Hdp) as A3.
  pose proof (le_trans dp2 dp1 (Fin 35) Hdp) as A4.
  destruct (JS.ge cs1 (Fin 650)), (JS.ge cs1 (Fin 550)),
           (JS.le dp1 (Fin 20)), (JS.le dp1 (Fin 35));
    repeat match goal with
    | H : true = true -> _ |- _ => rewrite (H eq_refl); clear H
    | H : false = true -> _ |- _ => clear H
    end;
    cbn [andb decisionRank];
    repeat match goal with
    | |- context [if ?c then _ else _] => destruct c
    end; cbn [andb decisionRank]; lia.
Qed.

Lemma makeDecision_monotone_witness :
  JS.le (Fin 600) (Fin 700) = true /\ JS.le (Fin 15) (Fin 30) = true /\
  (decisionRank (makeDecision (Fin 600) (Fin 30)) <=
   decisionRank (makeDecision (Fin 700) (Fin 15)))%nat.
Proof.
  assert (JS.le (Fin 600) (Fin 700) = true) as H1 by reflexivity.
  assert (JS.le (Fin 15) (Fin 30) = true) as H2 by reflexivity.
  split; [exact H1 | split; [exact H2 | ]].
  exact (makeDecision_monotone (Fin 600) (Fin 700) (Fin 30) (Fin 15) H1 H2).
Defined.

(** X4: the percentile rank never decreases when the credit score grows. *)
Theorem percentile_rank_monotone (cs1 cs2 : num) :
  JS.le cs1 cs2 = true ->
  JS.le (calculatePercentileRank cs1) (calculatePercentileRank cs2) = true.
Proof.
  intros Hcs. unfold calculatePercentileRank.
  pose proof (ge_mono cs1 cs2 (Fin 800) Hcs) as A1.
  pose proof (ge_mono cs1 cs2 (Fin 750) Hcs) as A2.
  pose proof (ge_mono cs1 cs2 (Fin 700) Hcs) as A3.
  pose proof (ge_mono cs1 cs2 (Fin 650) Hcs) as A4.
  pose proof (ge_mono cs1 cs2 (Fin 600) Hcs) as A5.
  pose proof (ge_mono cs1 cs2 (Fin 550) Hcs) as A6.
  destruct (JS.ge cs1 (Fin 800)), (JS.ge cs1 (Fin 750)), (JS.ge cs1 (Fin 700)),
           (JS.ge cs1 (Fin 650)), (JS.ge cs1 (Fin 600)), (JS.ge cs1 (Fin 550));
    repeat match goal with
    | H : true = true -> _ |- _ => rewrite (H eq_refl); clear H
    | H : false = true -> _ |- _ => clear H
    end;
    repeat match goal with
    | |- context [if ?c then _ else _] => destruct c
    end; reflexivity.
Qed.

Lemma percentile_rank_monotone_witness :
  JS.le (Fin 640) (Fin 720) = true /\
  JS.le (calculatePercentileRank (Fin 640)) (calculatePercentileRank (Fin 720)) = true.
Proof.
  assert (JS.le (Fin 640) (Fin 720) = true) as H by reflexivity.
  split; [exact H | exact (percentile_rank_monotone (Fin 640) (Fin 720) H)].
Defined.

(** X5: for a valid profile the default probability never grows with the
    credit score. *)
Theorem default_probability_antitone (u : UserData) (c1 c2 : Q) :
  valid_profile u -> c1 <= c2 ->
  JS.le (calculateDefaultProbability (Fin c2) u)
        (calculateDefaultProbability (Fin c1) u) = true.
Proof.
  intros Hv Hc.
  destruct Hv as [Hm _ _ _ _ Hs Hx _ _ _ _ _ _ Hp He _ _ _ _ _].
  unfold calculateDefaultProbability.
  fin_of Hm as m; fin_of Hs as s; fin_of Hx as x; fin_of Hp as d; fin_of He as e.
  cbn [JS.sub JS.mul]. rewrite !div_fin by lra.
  repeat match goal with
  | |- context [if ?c then _ else _] => destruct c
  end;
  apply fle_le, fle_min, fle_max, fle_round;
  repeat apply fle_add_r;
  apply fle_max; cbn [fle];
  (assert ((c1 - 300) / 12 <= (c2 - 300) / 12) as Hdiv
     by (apply Qmult_le_compat_r; [lra | apply Qinv_le_0_compat; lra]));
  lra.
Qed.

Lemma default_probability_antitone_witness :
  valid_profile sample_user /\ 600 <= 700 /\
  JS.le (calculateDefaultProbability (Fin 700) sample_user)
        (calculateDefaultProbability (Fin 600) sample_user) = true.
Proof.
  assert (valid_profile sample_user) as Hv by (split; cbn; try lra; auto).
  assert (600 <= 700) as Hc by lra.
  split; [exact Hv | split; [exact Hc | ]].
  exact (default_probability_antitone sample_user 600 700 Hv Hc).
Defined.

(** X6: the compliance check and the list of violations agree: the check
    passes exactly when the list is empty. *)
Theorem compliance_iff_no_violation (u : UserData) (loanAmount : num) :
  checkRBICompliance u loanAmount = true <-> getRBIViolations u loanAmount = [].
Proof.
  unfold checkRBICompliance, getRBIViolations.
  destruct (JS.gt loanAmount (Fin 125000));
    destruct (JS.gt (JS.div (existing_loan_emi u) (monthly_income u)) (Fin 0.5));
    cbn [app]; split; intros H; (reflexivity || discriminate H).
Qed.

Lemma result_compliance_eq (u : UserData) :
  rbi_compliant (calculateCreditScore u) =
    checkRBICompliance u
      (max_amount (calculateLoanEligibility u (credit_score (calculateCreditScore u))))
  /\
  rbi_violations (calculateCreditScore u) =
    getRBIViolations u
      (max_amount (calculateLoanEligibility u (credit_score (calculateCreditScore u)))).
Proof. split; reflexivity. Qed.

(** X7: the engine never reports its own maximum amount as above the loan
    limit: in every result the only possible violation is the EMI ratio, and
    the result is compliant exactly when the existing EMI is not above half
    of the income. *)
Theorem result_violations (u : UserData) :
  rbi_violations (calculateCreditScore u) =
    (if JS.gt (JS.div (existing_loan_emi u) (monthly_income u)) (Fin 0.5)
     then ["EMI-to-income ratio exceeds 50%"] else []) /\
  rbi_compliant (calculateCreditScore u) =
    negb (JS.gt (JS.div (existing_loan_emi u) (monthly_income u)) (Fin 0.5)).
Proof.
  destruct (result_compliance_eq u) as [-> ->].
  unfold checkRBICompliance, getRBIViolations.
  rewrite EligibilityFacts.max_amount_never_above_ceiling.
  destruct (JS.gt (JS.div (existing_loan_emi u) (monthly_income u)) (Fin 0.5));
    split; reflexivity.
Qed.

End DecisionFacts.

(** * Further facts: the loan offer *)

Module OfferFacts.

Import Props Order Samples NumFacts OrderFacts Engine EligibilityFacts.

(** The rounded EMI of a schedule entry in closed form. *)
Lemma emiOption_emi_closed (R rate : Q) (n : Z) :
  0 < rate -> (0 < n)%Z ->
  emi (emiOption (Fin R) (Fin rate) n) =
  Math.round (Fin (R * (rate / 100 / 12) * (1 + rate / 100 / 12) ^ n /
                   ((1 + rate / 100 / 12) ^ n - 1))) /\
  0 < rate / 100 / 12 /\ 1 < (1 + rate / 100 / 12) ^ n.
Proof.
  intros Hrate Hn.
  assert (0 < rate / 100 / 12) as Hr.
  { apply Qlt_shift_div_l; [lra | ]. apply Qlt_shift_div_l; lra. }
  assert (1 < (1 + rate / 100 / 12) ^ n) as Hp
    by (apply Qpower_1_lt; [lra | assumption]).
  split; [ | split; assumption].
  unfold emiOption. cbn [emi].
  rewrite !div_fin by lra. cbn [JS.add].
  rewrite pow_fin_pos by assumption. cbn [JS.mul JS.sub].
  rewrite div_fin by lra. reflexivity.
Qed.

Lemma floor_half_nonneg (q : Q) : 0 <= q -> (0 <= Qfloor (q + (1 # 2)))%Z.
Proof.
  intros Hq.
  assert (inject_Z 0 <= q + (1 # 2)) as H by (change (inject_Z 0) with 0; lra).
  apply Qfloor_resp_le in H. rewrite Qfloor_Z in H. exact H.
Qed.

(** The maximum amount is a whole number that is not negative when the
    income is positive. *)
Lemma max_amount_whole (u : UserData) (cs : num) :
  positive (monthly_income u) ->
  exists z : Z, max_amount (calculateLoanEligibility u cs) = of_Z z /\ (0 <= z)%Z.
Proof.
  intros Hm. rewrite max_amount_eq. fin_of Hm as m.
  cbn [JS.mul Math.min JS.cmp].
  destruct (scoreMultiplier_cases cs) as [-> | [-> | [-> | ->]]];
    destruct (Qcompare_spec 125000 (m * 10)); cbn [JS.mul Math.round];
    eexists; (split; [reflexivity | ]); apply floor_half_nonneg; lra.
Qed.

Lemma recommended_amount_eq (u : UserData) (cs : num) :
  recommended_amount (calculateLoanEligibility u cs) =
  Math.round (JS.mul (max_amount (calculateLoanEligibility u cs)) (Fin 0.7)).
Proof. reflexivity. Qed.

(** X10: with a positive income the recommended amount is a number between
    zero and the maximum amount. *)
Theorem recommended_within_max (u : UserData) (cs : num) :
  positive (monthly_income u) ->
  nonneg (recommended_amount (calculateLoanEligibility u cs)) /\
  JS.le (recommended_amount (calculateLoanEligibility u cs))
        (max_amount (calculateLoanEligibility u cs)) = true.
Proof.
  intros Hm. split; [exact (recommended_amount_nonneg u cs Hm) | ].
  rewrite recommended_amount_eq.
  destruct (max_amount_whole u cs Hm) as (z & -> & Hz).
  unfold of_Z at 1. cbn [JS.mul]. apply round_le.
  rewrite inject_Z_plus. change (inject_Z 1) with 1.
  assert (0 <= inject_Z z) as H0
    by (change 0 with (inject_Z 0); rewrite <- Zle_Qle; exact Hz).
  lra.
Qed.

Lemma recommended_within_max_witness :
  positive (monthly_income sample_user) /\
  (nonneg (recommended_amount (calculateLoanEligibility sample_user (Fin 700))) /\
   JS.le (recommended_amount (calculateLoanEligibility sample_user (Fin 700)))
         (max_amount (calculateLoanEligibility sample_user (Fin 700))) = true).
Proof.
  assert (positive (monthly_income sample_user)) as H by reflexivity.
  split; [exact H | exact (recommended_within_max sample_user (Fin 700) H)].
Defined.

Lemma scoreMultiplier_monotone (cs1 cs2 : num) :
  JS.le cs1 cs2 = true -> fle (scoreMultiplier cs1) (scoreMultiplier cs2).
Proof.
  intros Hcs. unfold scoreMultiplier.
  pose proof (DecisionFacts.ge_mono cs1 cs2 (Fin 750) Hcs) as A1.
  pose proof (DecisionFacts.ge_mono cs1 cs2 (Fin 650) Hcs) as A2.
  pose proof (DecisionFacts.ge_mono cs1 cs2 (Fin 550) Hcs) as A3.
  destruct (JS.ge cs1 (Fin 750)), (JS.ge cs1 (Fin 650)), (JS.ge cs1 (Fin 550));
    repeat match goal with
    | H : true = true -> _ |- _ => rewrite (H eq_refl); clear H
    | H : false = true -> _ |- _ => clear H
    end;
    repeat match goal with
    | |- context [if ?c then _ else _] => destruct c
    end; cbn [fle]; lra.
Qed.

(** X11: with a positive income a higher credit score never lowers the
    maximum amount. *)
Theorem max_amount_monotone (u : UserData) (cs1 cs2 : num) :
  positive (monthly_income u) -> JS.le cs1 cs2 = true ->
  JS.le (max_amount (calculateLoanEligibility u cs1))
        (max_amount (calculateLoanEligibility u cs2)) = true.
Proof.
  intros Hm Hcs. rewrite !max_amount_eq. fin_of Hm as m.
  pose proof (scoreMultiplier_monotone cs1 cs2 Hcs) as Hk.
  destruct (scoreMultiplier cs1) as [ | | | k1]; try contradiction.
  destruct (scoreMultiplier cs2) as [ | | | k2]; try contradiction.
  cbn [fle] in Hk. cbn [JS.mul Math.min JS.cmp].
  apply fle_le, fle_round.
  destruct (Qcompare_spec 125000 (m * 10)); cbn [JS.mul fle];
    apply Qmult_le_l; lra.
Qed.

Lemma max_amount_monotone_witness :
  positive (monthly_income sample_user) /\ JS.le (Fin 600) (Fin 800) = true /\
  JS.le (max_amount (calculateLoanEligibility sample_user (Fin 600)))
        (max_amount (calculateLoanEligibility sample_user (Fin 800))) = true.
Proof.
  assert (positive (monthly_income sample_user)) as H1 by reflexivity.
  assert (JS.le (Fin 600) (Fin 800) = true) as H2 by reflexivity.
  split; [exact H1 | split; [exact H2 | ]].
  exact (max_amount_monotone sample_user (Fin 600) (Fin 800) H1 H2).
Defined.

(** Every entry of [emi_options] is the schedule entry of a listed tenure and
    fits the capacity. *)
Lemma emi_options_In (u : UserData) (cs : num) (o : EmiOption) :
  In o (emi_options (calculateLoanEligibility u cs)) ->
  (exists t, In t tenures /\
     o = emiOption (recommended_amount (calculateLoanEligibility u cs))
                   (getInterestRate cs) t) /\
  JS.le (emi o) (emiCapacity u) = true.
Proof.
  rewrite emi_options_eq. intros H. apply filter_In in H as [Hin Hfit].
  split; [ | exact Hfit].
  apply in_map_iff in Hin as (t & <- & Ht). exists t. split; [exact Ht | reflexivity].
Qed.

Lemma tenures_positive (t : Z) : In t tenures -> (0 < t)%Z.
Proof. intros [<- | [<- | [<- | [<- | []]]]]; lia. Qed.

(** X9: with a positive income the retained tenures are closed upwards: when
    a tenure is among the EMI options, so is every longer tenure of the
    list 12, 18, 24, 36. *)
Theorem longer_tenures_also_fit (u : UserData) (cs : num) (t1 t2 : Z) :
  positive (monthly_income u) ->
  In t1 (List.map tenure (emi_options (calculateLoanEligibility u cs))) ->
  In t2 tenures -> (t1 < t2)%Z ->
  In t2 (List.map tenure (emi_options (calculateLoanEligibility u cs))).
Proof.
  intros Hm H1 H2 Hlt.
  apply in_map_iff in H1 as (o & Ho & Hin).
  destruct (emi_options_In u cs o Hin) as ((t & Ht & ->) & Hfit).
  cbn [emiOption tenure] in Ho. subst t.
  pose proof (recommended_amount_nonneg u cs Hm) as HR.
  destruct (getInterestRate_positive cs) as (r & Hr & Hrpos).
  apply in_map_iff.
  exists (emiOption (recommended_amount (calculateLoanEligibility u cs))
                    (getInterestRate cs) t2).
  split; [reflexivity | ].
  rewrite emi_options_eq. apply filter_In. split.
  - apply in_map. exact H2.
  - revert Hfit. rewrite Hr. fin_of HR as R. intros Hfit.
    refine (le_trans _ _ _ _ Hfit).
    apply emiOption_emi_nonincreasing; try assumption.
    split; [exact (tenures_positive t1 Ht) | exact Hlt].
Qed.

Lemma longer_tenures_also_fit_witness :
  positive (monthly_income sample_user) /\
  In 18%Z (List.map tenure
             (emi_options (calculateLoanEligibility sample_user (Fin 813)))) /\
  In 36%Z tenures /\ (18 < 36)%Z /\
  In 36%Z (List.map tenure
             (emi_options (calculateLoanEligibility sample_user (Fin 813)))).
Proof.
  assert (positive (monthly_income sample_user)) as H1 by reflexivity.
  assert (In 18%Z (List.map tenure
            (emi_options (calculateLoanEligibility sample_user (Fin 813))))) as H2
    by (vm_compute; left; reflexivity).
  assert (In 36%Z tenures) as H3
    by (right; right; right; left; reflexivity).
  assert (18 < 36)%Z as H4 by lia.
  split; [exact H1 | split; [exact H2 | split; [exact H3 | split; [exact H4 | ]]]].
  exact (longer_tenures_also_fit sample_user (Fin 813) 18 36 H1 H2 H3 H4).
Defined.

(** The first retained EMI of a valid profile is a number between zero and
    0.4 times the income. *)
Lemma firstEmi_bounds (u : UserData) (cs : num) (m : Q) :
  monthly_income u = Fin m -> 0 < m -> nonneg (existing_loan_emi u) ->
  between 0 (m * 0.4) (firstEmi (emi_options (calculateLoanEligibility u cs))).
Proof.
  intros Hm Hpos He.
  assert (positive (monthly_income u)) as Hp by (rewrite Hm; exact Hpos).
  pose proof (recommended_amount_nonneg u cs Hp) as HR.
  destruct (getInterestRate_positive cs) as (r & Hr & Hrpos).
  destruct (emi_options (calculateLoanEligibility u cs)) as [ | o rest] eqn:E.
  - cbn [firstEmi between]. lra.
  - assert (In o (emi_options (calculateLoanEligibility u cs))) as Hin
      by (rewrite E; left; reflexivity).
    destruct (emi_options_In u cs o Hin) as ((t & Ht & Ho) & Hfit).
    assert (nonneg (emi o)) as Hnn.
    { rewrite Ho, Hr. fin_of HR as R.
      apply emiOption_emi_nonneg; try assumption.
      exact (tenures_positive t Ht). }
    unfold emiCapacity in Hfit. rewrite Hm in Hfit.
    cbn [firstEmi]. unfold JS.or.
    fin_of He as e. fin_of Hnn as x.
    cbn [JS.mul JS.sub] in Hfit. apply le_fin_iff in Hfit.
    destruct (JS.truthy (Fin x)); cbn [between]; lra.
Qed.

Lemma emi_to_income_ratio_eq (u : UserData) :
  emi_to_income_ratio (calculateCreditScore u) =
  JS.mul (JS.div (firstEmi (emi_options
            (calculateLoanEligibility u (credit_score (calculateCreditScore u)))))
            (monthly_income u)) (Fin 100).
Proof. reflexivity. Qed.

(** With exact quotients the EMI-to-income ratio of a valid profile stays
    within the 40 percent of the income that the capacity starts from. *)
Lemma emi_ratio_within_capacity_share (u : UserData) :
  valid_profile u ->
  between 0 40 (emi_to_income_ratio (calculateCreditScore u)).
Proof.
  intros Hv. rewrite emi_to_income_ratio_eq.
  pose proof (valid_monthly_income u Hv) as Hm.
  pose proof (valid_existing_loan_emi u Hv) as He.
  destruct (monthly_income u) as [ | | | m] eqn:Em; try contradiction.
  cbn [positive] in Hm.
  pose proof (firstEmi_bounds u (credit_score (calculateCreditScore u)) m Em Hm He)
    as Hb.
  destruct (firstEmi _) as [ | | | x]; try contradiction. cbn [between] in Hb.
  rewrite div_fin by lra. cbn [JS.mul between].
  pose proof (Qdiv_nonneg x m ltac:(lra) Hm).
  assert (x / m <= 0.4) as Hq by (apply Qle_shift_div_r; lra).
  lra.
Qed.

Lemma eligible_eq (u : UserData) (cs : num) :
  eligible (calculateLoanEligibility u cs) =
  JS.gt (max_amount (calculateLoanEligibility u cs)) (Fin 10000) &&
  (0 <? length (emi_options (calculateLoanEligibility u cs)))%nat.
Proof.
  unfold calculateLoanEligibility. cbn [eligible max_amount emi_options].
  reflexivity.
Qed.

Lemma getInterestRate_cases (cs : num) :
  getInterestRate cs = Fin 18 \/ getInterestRate cs = Fin 22 \/
  getInterestRate cs = Fin 24 \/ getInterestRate cs = Fin 26.
Proof.
  unfold getInterestRate.
  destruct (JS.ge cs (Fin 750)); [tauto | ].
  destruct (JS.ge cs (Fin 650)); [tauto | ].
  destruct (JS.ge cs (Fin 550)); tauto.
Qed.

(** The EMI of a schedule entry is at least one month of interest on the
    amount, before rounding. *)
Lemma emi_at_least_interest (R r p : Q) :
  0 <= R -> 0 < r -> 1 < p -> R * r <= R * r * p / (p - 1).
Proof.
  intros HR Hr Hp. apply Qle_shift_div_l; [lra | ].
  assert (0 <= R * r) by (apply Qmult_le_0_compat; lra). lra.
Qed.

Lemma interest_lower_bound (R k : Q) :
  7000 <= R -> (3 # 200) <= k -> 105 <= R * k.
Proof. intros HR Hk. nra. Qed.

(** X12: an eligible offer has a first EMI option, whose EMI is positive and
    within the EMI capacity. *)
Theorem eligible_offer_has_emi (u : UserData) (cs : num) :
  eligible (calculateLoanEligibility u cs) = true ->
  JS.gt (firstEmi (emi_options (calculateLoanEligibility u cs))) (Fin 0) = true /\
  JS.le (firstEmi (emi_options (calculateLoanEligibility u cs))) (emiCapacity u)
    = true.
Proof.
  rewrite eligible_eq. intros H. apply andb_true_iff in H as [Hmax Hlen].
  pose proof (max_amount_never_above_ceiling u cs) as Hceil.
  pose proof (recommended_amount_eq u cs) as HR.
  destruct (max_amount (calculateLoanEligibility u cs)) as [ | | | M];
    try discriminate.
  apply gt_fin_iff in Hmax.
  cbn [JS.mul Math.round] in HR.
  assert (7000 <= Qfloor (M * 0.7 + (1 # 2)))%Z as Hz.
  { rewrite <- (Qfloor_Z 7000). apply Qfloor_resp_le.
    change (inject_Z 7000) with 7000. lra. }
  destruct (emi_options (calculateLoanEligibility u cs)) as [ | o rest] eqn:E;
    [discriminate | ].
  assert (In o (emi_options (calculateLoanEligibility u cs))) as Hin
    by (rewrite E; left; reflexivity).
  destruct (emi_options_In u cs o Hin) as ((t & Ht & Ho) & Hfit).
  pose proof (tenures_positive t Ht) as Htpos.
  rewrite HR in Ho. unfold of_Z in Ho.
  assert (7000 <= inject_Z (Qfloor (M * 0.7 + (1 # 2)))) as HRq.
  { change 7000 with (inject_Z 7000). rewrite <- Zle_Qle. exact Hz. }
  revert Ho HRq. generalize (inject_Z (Qfloor (M * 0.7 + (1 # 2)))). intros R Ho HRq.
  assert (exists x, emi o = Math.round (Fin x) /\ 105 <= x) as (x & Hx & Hx105).
  { destruct (getInterestRate_cases cs) as [Hr | [Hr | [Hr | Hr]]];
      rewrite Hr in Ho; rewrite Ho;
      match goal with
      | |- context [emiOption (Fin R) (Fin ?rate) t] =>
          destruct (emiOption_emi_closed R rate t ltac:(lra) Htpos) as (-> & Hr0 & Hp);
          pose proof (emi_at_least_interest R (rate / 100 / 12) _
                        ltac:(lra) Hr0 Hp) as Hlow
      end;
      (eexists; split; [reflexivity | ]);
      (eapply Qle_trans; [ | exact Hlow]);
      (apply interest_lower_bound; [exact HRq | apply Qle_bool_imp_le; reflexivity]). }
  cbn [firstEmi]. rewrite Hx in Hfit |- *.
  rewrite (or_zero_round _ _ Hfit). split; [ | exact Hfit].
  cbn [Math.round of_Z]. apply gt_fin_iff.
  assert (105 <= Qfloor (x + (1 # 2)))%Z as H105.
  { rewrite <- (Qfloor_Z 105). apply Qfloor_resp_le.
    change (inject_Z 105) with 105. lra. }
  apply (Qlt_le_trans _ (inject_Z 105)); [reflexivity | ].
  rewrite <- Zle_Qle. exact H105.
Qed.

Lemma eligible_offer_has_emi_witness :
  eligible (calculateLoanEligibility sample_user (Fin 813)) = true /\
  (JS.gt (firstEmi (emi_options (calculateLoanEligibility sample_user (Fin 813))))
         (Fin 0) = true /\
   JS.le (firstEmi (emi_options (calculateLoanEligibility sample_user (Fin 813))))
         (emiCapacity sample_user) = true).
Proof.
  assert (eligible (calculateLoanEligibility sample_user (Fin 813)) = true) as H
    by (vm_compute; reflexivity).
  split; [exact H | exact (eligible_offer_has_emi sample_user (Fin 813) H)].
Defined.

End OfferFacts.

(** * Further facts: the financial profile and the recommendations *)

Module AdvisorFacts.

Import Props Order Samples NumFacts OrderFacts Engine Advisor.

(** X13: for a valid profile the savings-to-income ratio lies between 0 and
    1 and the bill payment reliability between 0 and 100; the
    expense-to-income ratio and the credit utilization pattern are numbers
    that are not negative; the emergency fund adequacy is not negative when
    the monthly expenses are not zero, and is not finite when they are. *)
Theorem financial_profile_ratios (u : UserData) :
  valid_profile u ->
  between 0 1 (savings_to_income_ratio (buildFinancialProfile u)) /\
  between 0 100 (bill_payment_reliability (buildFinancialProfile u)) /\
  JS.ge (expense_to_income_ratio (buildFinancialProfile u)) (Fin 0) = true /\
  JS.ge (credit_utilization_pattern (buildFinancialProfile u)) (Fin 0) = true /\
  (if JS.truthy (monthly_expenses u)
   then JS.ge (emergency_fund_adequacy (buildFinancialProfile u)) (Fin 0) = true
   else JS.isFinite (emergency_fund_adequacy (buildFinancialProfile u)) = false).
Proof.
  intros Hv.
  destruct Hv as [Hm _ _ _ Hsr Hs Hx Hel Hdt Hin Hre _ _ _ He Hc _ _ _ _].
  unfold buildFinancialProfile.
  cbn [savings_to_income_ratio expense_to_income_ratio
       bill_payment_reliability credit_utilization_pattern emergency_fund_adequacy].
  fin_of Hm as m; fin_of Hsr as sr; fin_of Hs as s; fin_of Hx as x;
    fin_of Hel as el; fin_of Hdt as dt; fin_of Hin as it; fin_of Hre as re;
    fin_of He as e; fin_of Hc as c.
  cbn [JS.mul JS.add]. rewrite !div_fin by lra.
  pose proof (Qdiv_nonneg x m Hx Hm) as Hxm.
  pose proof (Qdiv_nonneg c m Hc Hm) as Hcm.
  split; [ | split; [ | split; [ | split]]].
  - cbn [between]. split; [apply Qle_shift_div_l; lra | apply Qle_shift_div_r; lra].
  - cbn [between]. split; [apply Qle_shift_div_l; lra | apply Qle_shift_div_r; lra].
  - apply ge_fin_iff. exact Hxm.
  - cbn [JS.mul]. apply ge_fin_iff. lra.
  - cbn [JS.truthy JS.div].
    destruct (Qeq_bool x 0) eqn:Ex; cbn [negb].
    + destruct (Qcompare_spec s 0); reflexivity.
    + apply Qeq_bool_neq in Ex. cbn [JS.mul].
      pose proof (Qdiv_nonneg s x Hs ltac:(lra)). apply ge_fin_iff. lra.
Qed.

Lemma financial_profile_ratios_witness :
  valid_profile sample_user /\
  between 0 1 (savings_to_income_ratio (buildFinancialProfile sample_user)) /\
  between 0 100 (bill_payment_reliability (buildFinancialProfile sample_user)).
Proof.
  assert (valid_profile sample_user) as Hv by (split; cbn; try lra; auto).
  split; [exact Hv | ].
  destruct (financial_profile_ratios sample_user Hv) as (H1 & H2 & _).
  split; [exact H1 | exact H2].
Defined.

(** X14: whatever the user data, the recommendations pair every immediate
    text with one coaching entry, there are at most five of them, the
    coaching priorities never go back up from low to high, and nothing is
    recommended exactly when none of the five conditions holds. *)
Theorem recommendations_shape (u : UserData) (profile : FinancialProfile) :
  length (immediate (generateRecommendations u profile)) =
    length (coaching (generateRecommendations u profile)) /\
  (length (immediate (generateRecommendations u profile)) <= 5)%nat /\
  nondecreasing
    (List.map (fun c => priorityRank (priority c))
       (coaching (generateRecommendations u profile))) = true /\
  (immediate (generateRecommendations u profile) = [] <->
   JS.lt (overall_bill_payment_score u) (Fin 80) = false /\
   JS.gt (JS.div (existing_loan_emi u) (monthly_income u)) (Fin 0.4) = false /\
   JS.lt (upi_transactions_per_month u) (Fin 20) = false /\
   JS.lt (emergency_savings u) (JS.mul (monthly_expenses u) (Fin 3)) = false /\
   JS.lt (savings_rate u) (Fin 20) = false).
Proof.
  unfold generateRecommendations.
  destruct (JS.lt (overall_bill_payment_score u) (Fin 80));
    destruct (JS.gt (JS.div (existing_loan_emi u) (monthly_income u)) (Fin 0.4));
    destruct (JS.lt (upi_transactions_per_month u) (Fin 20));
    destruct (JS.lt (emergency_savings u) (JS.mul (monthly_expenses u) (Fin 3)));
    destruct (JS.lt (savings_rate u) (Fin 20));
    cbn [advise immediate coaching app length List.map priority priorityRank
         nondecreasing Nat.leb andb];
    (split; [reflexivity | split; [lia | split; [reflexivity | ]]]);
    (split; [intros H; (discriminate H || (repeat split; reflexivity))
            | intros (H1 & H2 & H3 & H4 & H5);
              (reflexivity || discriminate) ]).
Qed.

End AdvisorFacts.

(** * Further facts: the compliance rules *)

Module ComplianceFacts.

Import Props Order Samples NumFacts OrderFacts RBI RBIFacts.

(** Replace every condition of the rules by a boolean variable. *)
Ltac abstract_conditions :=
  repeat match goal with
  | |- context [when ?c _] =>
      tryif is_var c then fail else (let b := fresh "c" in generalize c; intros b)
  | |- context [if ?c then _ else _] =>
      tryif is_var c then fail else (let b := fresh "c" in generalize c; intros b)
  end.

Ltac split_conditions :=
  repeat match goal with
  | c : bool |- _ => destruct c
  end.

(** X19: at a rate of zero the formula divides zero by zero whatever the
    tenure, so the EMI is not a number; rule 6 of the compliance check then
    neither reports the EMI ratio nor grants its bonus. *)
Theorem zero_rate_emi_is_nan (profile : RBIBorrowerProfile) (P : Q) (n : Z) :
  calculateEMI (Fin P) (Fin 0) n = NaN /\
  forall ratio,
    ~ In (EmiToIncomeRatioExceeds ratio)
         (violations (checkCompliance profile (Fin P) (Fin 0) n)).
Proof.
  assert (calculateEMI (Fin P) (Fin 0) n = NaN) as Hnan.
  { unfold calculateEMI. cbn [JS.mul].
    rewrite div_fin by (intros H; discriminate H). cbn [JS.add].
    unfold Math.pow.
    destruct (Z.eqb_spec n 0) as [-> | Hn].
    - cbn [JS.mul JS.sub JS.div].
      replace (Qeq_bool (1 - 1) 0) with true by reflexivity.
      assert (P * (0 / (12 * 100)) * 1 == 0) as H0 by (field; discriminate).
      apply Qeq_alt in H0. rewrite H0. reflexivity.
    - replace (Qeq_bool (1 + 0 / (12 * 100)) 0) with false by reflexivity.
      cbn [andb JS.mul JS.sub JS.div].
      assert ((1 + 0 / (12 * 100)) ^ n == 1) as H1.
      { assert (1 + 0 / (12 * 100) == 1) as -> by reflexivity. apply Qpower_1. }
      assert (Qeq_bool ((1 + 0 / (12 * 100)) ^ n - 1) 0 = true) as ->
        by (apply Qeq_eq_bool; rewrite H1; reflexivity).
      assert (P * (0 / (12 * 100)) * (1 + 0 / (12 * 100)) ^ n == 0) as H0
        by (rewrite H1; field; discriminate).
      apply Qeq_alt in H0. rewrite H0. reflexivity. }
  split; [exact Hnan | ].
  intros ratio. unfold checkCompliance. cbn [violations]. rewrite Hnan.
  replace (JS.gt (JS.mul (JS.div NaN (monthly_income profile)) (Fin 100)) (Fin 50))
    with false by reflexivity.
  replace (JS.lt (JS.mul (JS.div NaN (monthly_income profile)) (Fin 100)) (Fin 30))
    with false by reflexivity.
  abstract_conditions. split_conditions;
    cbn [when violation bonus fst snd app In]; intuition discriminate.
Qed.

(** X17: a compliant check never carries a penalty: its risk adjustment is
    one of 0, 3, 5 and 8, the sum of the bonuses of rules 6 and 8. *)
Theorem compliant_adjustment (profile : RBIBorrowerProfile)
    (requestedAmount proposedRate : num) (tenureMonths : Z) :
  isCompliant (checkCompliance profile requestedAmount proposedRate tenureMonths)
    = true ->
  In (riskAdjustment
        (checkCompliance profile requestedAmount proposedRate tenureMonths))
     [0; 3; 5; 8]%Z.
Proof.
  unfold checkCompliance. cbn [isCompliant riskAdjustment].
  abstract_conditions. split_conditions;
    vm_compute; intros H; try discriminate H; tauto.
Qed.

Lemma compliant_adjustment_witness :
  isCompliant (checkCompliance sample_profile (Fin 50000) (Fin 24) 24) = true /\
  In (riskAdjustment (checkCompliance sample_profile (Fin 50000) (Fin 24) 24))
     [0; 3; 5; 8]%Z.
Proof.
  assert (isCompliant (checkCompliance sample_profile (Fin 50000) (Fin 24) 24)
          = true) as H by (vm_compute; reflexivity).
  split; [exact H | ].
  exact (compliant_adjustment sample_profile (Fin 50000) (Fin 24) 24 H).
Defined.

End ComplianceFacts.

(** * Further facts: loan recommendations and the compliance report *)

Module ReportFacts.

Import Props Order Samples NumFacts OrderFacts RBI RBIFacts RBIReport.
Import ComplianceFacts.

Lemma gt_fin_false (a b : Q) : a <= b -> JS.gt (Fin a) (Fin b) = false.
Proof. intros H. apply gt_le, le_fin. exact H. Qed.

Lemma lt_fin_false (a b : Q) : b <= a -> JS.lt (Fin a) (Fin b) = false.
Proof. intros H. apply le_lt_false, le_fin. exact H. Qed.

Lemma min_fin (a b : Q) :
  exists x, Math.min (Fin a) (Fin b) = Fin x /\ x <= a /\ x <= b /\ (x == a \/ x == b).
Proof.
  unfold Math.min. cbn [JS.cmp].
  destruct (Qcompare_spec a b); eexists; (split; [reflexivity | ]);
    repeat split; try lra; (left; lra) || (right; lra).
Qed.

Lemma max_fin (a b : Q) :
  exists x, Math.max (Fin a) (Fin b) = Fin x /\ a <= x /\ b <= x /\ (x == a \/ x == b).
Proof.
  unfold Math.max. cbn [JS.cmp].
  destruct (Qcompare_spec a b); eexists; (split; [reflexivity | ]);
    repeat split; try lra; (left; lra) || (right; lra).
Qed.

Lemma gt_fin_cases (a b : Q) :
  (JS.gt (Fin a) (Fin b) = true /\ b < a) \/ (JS.gt (Fin a) (Fin b) = false /\ a <= b).
Proof.
  unfold JS.gt. cbn [JS.cmp].
  destruct (Qcompare_spec a b); [right | right | left]; split; try reflexivity; lra.
Qed.

Lemma le_fin_cases (a b : Q) :
  (JS.le (Fin a) (Fin b) = true /\ a <= b) \/ (JS.le (Fin a) (Fin b) = false /\ b < a).
Proof.
  unfold JS.le. cbn [JS.cmp].
  destruct (Qcompare_spec a b); [left | left | right]; split; try reflexivity; lra.
Qed.

(** What the recommendation is, for a finite income and existing debt. *)
Lemma recommendation_amount (profile : RBIBorrowerProfile) (m e : Q) :
  monthly_income profile = Fin m -> existing_loan_amount profile = Fin e ->
  exists a,
    maxRecommendedAmount (getRecommendations profile) = Fin a /\
    0 <= a /\ a <= 125000 /\ (0 <= m -> a <= m * 12) /\
    (e <= 100000 -> a + e <= 100000) /\ (100000 <= e -> a == 0) /\
    ((recommendedTenure (getRecommendations profile) = 36%Z /\ 15000 < a) \/
     (recommendedTenure (getRecommendations profile) = 12%Z /\ a <= 15000)) /\
    (In "Borrower not eligible due to existing debt levels"
        (warnings (getRecommendations profile)) <-> a == 0).
Proof.
  intros Hm He. unfold getRecommendations.
  cbn [maxRecommendedAmount recommendedTenure warnings LOAN_LIMITS maxLoanAmount
       maxTotalIndebtedness minIncomeThreshold].
  rewrite Hm, He. cbn [JS.mul JS.sub].
  destruct (min_fin (m * 0.5 * 24) 125000) as (x & -> & Hx1 & Hx2 & Hx3).
  destruct (min_fin x (100000 - e)) as (y & -> & Hy1 & Hy2 & Hy3).
  destruct (max_fin 0 y) as (a & -> & Ha1 & Ha2 & Ha3).
  exists a. split; [reflexivity | ].
  split; [lra | ]. split; [lra | ]. split; [intros; lra | ].
  split; [intros; lra | ]. split; [intros; lra | ].
  split.
  - destruct (gt_fin_cases y 15000) as [[-> H] | [-> H]]; [left | right];
      (split; [reflexivity | lra]).
  - destruct (le_fin_cases y 0) as [[-> H] | [-> H]]; unfold append_if; cbn [app].
    + split; [intros _; lra | intros _].
      destruct (JS.lt (Fin m) (Fin 5000)); cbn [app In]; left; reflexivity.
    + split; [ | intros; lra].
      destruct (JS.lt (Fin m) (Fin 5000)); cbn [app In];
        [intros [H' | H']; [discriminate H' | contradiction] | contradiction].
Qed.



(** [checkCompliance] answers compliant exactly when none of its seven
    blocking rules fires; the bonuses play no part. *)
Lemma isCompliant_conditions (profile : RBIBorrowerProfile)
    (requestedAmount proposedRate : num) (tenureMonths : Z) :
  isCompliant (checkCompliance profile requestedAmount proposedRate tenureMonths) =
  negb
    (JS.gt requestedAmount (Fin 125000) ||
     JS.gt (JS.add (existing_loan_amount profile) requestedAmount) (Fin 100000) ||
     JS.lt (monthly_income profile) (Fin 5000) ||
     JS.gt proposedRate (Fin 26) ||
     (JS.gt requestedAmount (Fin 15000) && (tenureMonths <? 24)%Z) ||
     JS.gt (JS.mul (JS.div (calculateEMI requestedAmount proposedRate tenureMonths)
                      (monthly_income profile)) (Fin 100)) (Fin 50) ||
     negb (collateral_free profile)).
Proof.
  unfold checkCompliance, INTEREST_RATE_CAP, MIN_TENURE_MONTHS.
  cbn [LOAN_LIMITS maxLoanAmount maxTotalIndebtedness minIncomeThreshold].
  generalize (JS.gt requestedAmount (Fin 125000)).
  generalize (JS.gt (JS.add (existing_loan_amount profile) requestedAmount) (Fin 100000)).
  generalize (JS.lt (monthly_income profile) (Fin 5000)).
  generalize (JS.gt proposedRate (Fin 26)).
  generalize (JS.gt requestedAmount (Fin 15000) && (tenureMonths <? 24)%Z).
  generalize (JS.mul (JS.div (calculateEMI requestedAmount proposedRate tenureMonths)
                      (monthly_income profile)) (Fin 100)).
  intros ratio. generalize (JS.gt ratio (Fin 50)). generalize (JS.lt ratio (Fin 30)).
  generalize (negb (collateral_free profile)).
  intros c7 c6' c6 c5 c4 c3 c2 c1.
  abstract_conditions.
  split_conditions; reflexivity.
Qed.

Lemma compliant_no_violations (profile : RBIBorrowerProfile)
    (requestedAmount proposedRate : num) (tenureMonths : Z) :
  isCompliant (checkCompliance profile requestedAmount proposedRate tenureMonths) = true ->
  violations (checkCompliance profile requestedAmount proposedRate tenureMonths) = [].
Proof. apply length_zero_iff. Qed.

Lemma emi_ratio_bound (a m r p k : Q) :
  0 <= a -> 0 < m -> 1 < p -> r * p / (p - 1) <= k -> a * k * 2 <= m ->
  a * r * p / (p - 1) / m * 100 <= 50.
Proof.
  intros Ha Hm Hp Hk Hshare.
  assert (a * r * p / (p - 1) == a * (r * p / (p - 1))) as -> by (field; lra).
  revert Hk. generalize (r * p / (p - 1)). intros K HK.
  assert (a * K <= a * k) as Hak.
  { rewrite (Qmult_comm a K), (Qmult_comm a k).
    apply Qmult_le_compat_r; assumption. }
  assert (a * K / m <= 1 # 2) as Hhalf.
  { apply Qle_shift_div_r; [exact Hm | lra]. }
  revert Hhalf. generalize (a * K / m). intros x Hx. lra.
Qed.

Lemma capped_rate_factor_36 :
  26 / (12 * 100) * (1 + 26 / (12 * 100)) ^ 36 / ((1 + 26 / (12 * 100)) ^ 36 - 1)
  <= 1 # 24.
Proof. apply Qle_bool_imp_le. vm_compute. reflexivity. Qed.

Lemma capped_rate_factor_12 :
  26 / (12 * 100) * (1 + 26 / (12 * 100)) ^ 12 / ((1 + 26 / (12 * 100)) ^ 12 - 1)
  <= 1 # 6.
Proof. apply Qle_bool_imp_le. vm_compute. reflexivity. Qed.

(** X16 (getRecommendations, then checkCompliance): a borrower with a finite
    income of at least 5000, an existing debt of at most 100000 and a
    collateral-free loan passes every rule of [checkCompliance] when the
    recommended amount is requested at the recommended rate and tenure. *)
Theorem recommendation_is_compliant (profile : RBIBorrowerProfile) (m e : Q) :
  monthly_income profile = Fin m -> existing_loan_amount profile = Fin e ->
  5000 <= m -> e <= 100000 -> collateral_free profile = true ->
  let r := getRecommendations profile in
  isCompliant
    (checkCompliance profile (maxRecommendedAmount r) (maxInterestRate r)
       (recommendedTenure r)) = true /\
  violations
    (checkCompliance profile (maxRecommendedAmount r) (maxInterestRate r)
       (recommendedTenure r)) = [].
Proof.
  intros Hm He Hmin Hdebt Hfree r. subst r.
  destruct (recommendation_amount profile m e Hm He)
    as (a & Ha & H0 & Hmax & Hinc & Hsum & _ & Hten & _).
  assert (isCompliant
            (checkCompliance profile (maxRecommendedAmount (getRecommendations profile))
               (maxInterestRate (getRecommendations profile))
               (recommendedTenure (getRecommendations profile))) = true) as Hok.
  { rewrite isCompliant_conditions.
    change (maxInterestRate (getRecommendations profile)) with (Fin 26).
    rewrite Ha, Hm, He, Hfree. cbn [JS.add negb].
    rewrite (gt_fin_false a 125000) by lra.
    rewrite (gt_fin_false (e + a) 100000) by (specialize (Hsum Hdebt); lra).
    rewrite (lt_fin_false m 5000) by lra.
    rewrite (gt_fin_false 26 26) by lra.
    assert (0 < m) as Hmpos by lra.
    assert (1 < (1 + 26 / (12 * 100)) ^ 36) as Hp36
      by (apply Qpower_1_lt; [reflexivity | reflexivity]).
    assert (1 < (1 + 26 / (12 * 100)) ^ 12) as Hp12
      by (apply Qpower_1_lt; [reflexivity | reflexivity]).
    destruct Hten as [[-> Hbig] | [-> Hsmall]].
    - rewrite (calculateEMI_fin a 26 36) by (reflexivity || lia).
      rewrite div_fin by lra. cbn [JS.mul].
      change (36 <? 24)%Z with false. rewrite andb_false_r.
      rewrite gt_fin_false; [reflexivity | ].
      apply (emi_ratio_bound a m _ _ (1 # 24));
        [exact H0 | exact Hmpos | exact Hp36 | exact capped_rate_factor_36 | ].
      assert (a <= m * 12) by (apply Hinc; lra). lra.
    - rewrite (calculateEMI_fin a 26 12) by (reflexivity || lia).
      rewrite div_fin by lra. cbn [JS.mul].
      rewrite (gt_fin_false a 15000) by exact Hsmall.
      rewrite gt_fin_false; [reflexivity | ].
      apply (emi_ratio_bound a m _ _ (1 # 6));
        [exact H0 | exact Hmpos | exact Hp12 | exact capped_rate_factor_12 | lra]. }
  split; [exact Hok | ].
  apply compliant_no_violations. exact Hok.
Qed.

Lemma recommendation_is_compliant_witness :
  isCompliant
    (checkCompliance sample_profile
       (maxRecommendedAmount (getRecommendations sample_profile))
       (maxInterestRate (getRecommendations sample_profile))
       (recommendedTenure (getRecommendations sample_profile))) = true.
Proof.
  refine (proj1 (recommendation_is_compliant sample_profile _ _ eq_refl eq_refl _ _ eq_refl));
    vm_compute; discriminate.
Defined.

(** A share [c / n * 100] of a count in a total. *)
Lemma share_range (c n : nat) :
  (c <= n)%nat -> n <> 0%nat ->
  between 0 100 (JS.mul (JS.div (of_Z (Z.of_nat c)) (of_Z (Z.of_nat n))) (Fin 100)).
Proof.
  intros Hc Hn. unfold of_Z.
  assert (0 <= inject_Z (Z.of_nat c)) as H0
    by (change 0 with (inject_Z 0); rewrite <- Zle_Qle; lia).
  assert (0 < inject_Z (Z.of_nat n)) as H1
    by (change 0 with (inject_Z 0); rewrite <- Zlt_Qlt; lia).
  assert (inject_Z (Z.of_nat c) <= inject_Z (Z.of_nat n)) as H2
    by (rewrite <- Zle_Qle; lia).
  revert H0 H1 H2. generalize (inject_Z (Z.of_nat c)), (inject_Z (Z.of_nat n)).
  intros a b H0 H1 H2.
  rewrite div_fin by lra. cbn [JS.mul between].
  assert (0 <= a / b) as Hlo by (apply Qdiv_nonneg; assumption).
  assert (a / b <= 1) as Hhi by (apply Qle_shift_div_r; [assumption | lra]).
  revert Hlo Hhi. generalize (a / b). intros x Hlo Hhi. lra.
Qed.

Lemma share_of_none (c : nat) :
  JS.mul (JS.div (of_Z (Z.of_nat c)) (of_Z (Z.of_nat 0))) (Fin 100) =
  match c with O => NaN | S _ => PInf end.
Proof. destruct c; reflexivity. Qed.

Lemma compliantCount_le (profiles : list RBIBorrowerProfile)
    (decisions : list LoanDecision) :
  (compliantCount profiles decisions <= length profiles)%nat.
Proof.
  unfold compliantCount.
  enough (forall acc,
    (fold_left
       (fun compliantCount profile =>
          match find (fun d => decided_user_id d =? user_id profile)%string decisions with
          | Some decision =>
              if isCompliant (checkCompliance profile (amount decision) (Fin 24) 24)
              then S compliantCount else compliantCount
          | None => compliantCount
          end) profiles acc <= acc + length profiles)%nat) as H by apply (H 0%nat).
  induction profiles as [ | p rest IH]; intros acc; cbn [fold_left length]; [lia | ].
  etransitivity; [apply IH | ].
  destruct (find _ decisions) as [d | ];
    [destruct (isCompliant _) | ]; lia.
Qed.

Lemma exclusive_filters {A : Type} (f g h : A -> bool) (l : list A) :
  (forall x, f x && g x = false /\ f x && h x = false /\ g x && h x = false) ->
  (length (List.filter f l) + length (List.filter g l) + length (List.filter h l)
   <= length l)%nat.
Proof.
  intros Hex. induction l as [ | x rest IH]; cbn [List.filter length]; [lia | ].
  destruct (Hex x) as (Hfg & Hfh & Hgh).
  destruct (f x), (g x), (h x); cbn [length]; try discriminate; lia.
Qed.

(** X20 (generateComplianceReport): the compliant applications are never
    more than the applications, the three risk groups together are never more
    than the decisions, and the compliance rate is NaN for an empty list of
    profiles and within 0 and 100 otherwise. *)
Theorem compliance_report_counts (profiles : list RBIBorrowerProfile)
    (decisions : list LoanDecision) :
  let r := generateComplianceReport profiles decisions in
  (compliantApplications r <= totalApplications r)%nat /\
  (low (riskDistribution r) + medium (riskDistribution r) + high (riskDistribution r)
   <= length decisions)%nat /\
  match profiles with
  | [] => complianceRate r = NaN
  | _ :: _ => between 0 100 (complianceRate r)
  end.
Proof.
  cbv zeta. unfold generateComplianceReport.
  cbn [compliantApplications totalApplications riskDistribution low medium high
       complianceRate].
  split; [apply compliantCount_le | ].
  split.
  - apply exclusive_filters. intros d.
    destruct (String.eqb_spec (decided d) "Approve") as [-> | ];
      destruct (String.eqb_spec (decided d) "Review") as [E | ];
      try discriminate E;
      destruct (String.eqb_spec (decided d) "Reject") as [E' | ];
      try discriminate E'; try (rewrite E in E'; discriminate E');
      repeat split; reflexivity.
  - destruct profiles as [ | p rest]; [reflexivity | ].
    unfold Count.of_nat. apply share_range; [apply compliantCount_le | discriminate].
Qed.

End ReportFacts.

(** * Further facts: counting by key, sorting by count *)

Module TallyFacts.

Import Batch.

(** The count a map holds for a key, [None] when the key is absent. *)
Lemma increment_keys (key : string) (m : list (string * nat)) (k : string) :
  In k (List.map fst (increment key m)) <-> k = key \/ In k (List.map fst m).
Proof.
  induction m as [ | [k' n] rest IH]; cbn [increment List.map fst In].
  - intuition congruence.
  - destruct (String.eqb_spec k' key) as [-> | Hne]; cbn [List.map fst In];
      rewrite ?IH; intuition congruence.
Qed.

Lemma increment_NoDup (key : string) (m : list (string * nat)) :
  NoDup (List.map fst m) -> NoDup (List.map fst (increment key m)).
Proof.
  induction m as [ | [k' n] rest IH]; cbn [increment List.map fst]; intros Hnd.
  - apply NoDup_singleton.
  - destruct (String.eqb_spec k' key) as [-> | Hne]; cbn [List.map fst]; [exact Hnd | ].
    apply NoDup_cons in Hnd as [Hnot Hrest].
    apply NoDup_cons. split; [ | apply IH; exact Hrest].
    rewrite list_elem_of_In, increment_keys. rewrite list_elem_of_In in Hnot.
    intros [-> | H]; [apply Hne; reflexivity | apply Hnot; exact H].
Qed.

Lemma In_fst (m : list (string * nat)) (k : string) (c : nat) :
  In (k, c) m -> In k (List.map fst m).
Proof. intros H. apply (in_map fst) in H. exact H. Qed.

Lemma increment_In (key : string) (m : list (string * nat)) (k : string) (c : nat) :
  NoDup (List.map fst m) ->
  In (k, c) (increment key m) <->
  (k <> key /\ In (k, c) m) \/
  (k = key /\
   ((exists c0, c = S c0 /\ In (key, c0) m) \/
    (c = 1%nat /\ ~ In key (List.map fst m)))).
Proof.
  induction m as [ | [k' n] rest IH]; cbn [increment List.map fst In]; intros Hnd.
  - split.
    + intros [H | []]. injection H as <- <-. right. split; [reflexivity | ].
      right. split; [reflexivity | tauto].
    + intros [[_ []] | [-> [(c0 & _ & []) | [-> _]]]]. left. reflexivity.
  - apply NoDup_cons in Hnd as [Hnot Hrest]. rewrite list_elem_of_In in Hnot.
    specialize (IH Hrest).
    destruct (String.eqb_spec k' key) as [-> | Hne]; cbn [In].
    + split.
      * intros [H | H].
        -- injection H as <- <-. right. split; [reflexivity | ].
           left. exists n. split; [reflexivity | left; reflexivity].
        -- left. split; [ | right; exact H].
           intros ->. apply Hnot. exact (In_fst _ _ _ H).
      * intros [[Hk [H | H]] | [-> [(c0 & -> & [H | H]) | [_ H]]]].
        -- injection H as -> _. contradiction Hk. reflexivity.
        -- right. exact H.
        -- injection H as ->. left. reflexivity.
        -- contradiction Hnot. exact (In_fst _ _ _ H).
        -- contradiction H. left. reflexivity.
    + rewrite IH. split.
      * intros [H | [[Hk H] | [-> [(c0 & -> & H) | [-> H]]]]].
        -- injection H as <- <-. left. split; [exact Hne | left; reflexivity].
        -- left. split; [exact Hk | right; exact H].
        -- right. split; [reflexivity | ]. left. exists c0.
           split; [reflexivity | right; exact H].
        -- right. split; [reflexivity | ]. right. split; [reflexivity | ].
           intros [H' | H']; [apply Hne; exact H' | apply H; exact H'].
      * intros [[Hk [H | H]] | [-> [(c0 & -> & [H | H]) | [-> H]]]].
        -- left. exact H.
        -- right. left. split; assumption.
        -- injection H as H _. contradiction Hne.
        -- right. right. split; [reflexivity | ]. left. exists c0.
           split; [reflexivity | exact H].
        -- right. right. split; [reflexivity | ]. right. split; [reflexivity | ].
           intros H'. apply H. right. exact H'.
Qed.

(** The entries of a map that counts [keys]: one entry for each key that
    occurs, holding the number of its occurrences. *)
Lemma count_occ_snoc (keys : list string) (key k : string) :
  count_occ string_dec (keys ++ [key]) k =
  (count_occ string_dec keys k + (if string_dec key k then 1 else 0))%nat.
Proof.
  rewrite count_occ_app. cbn [count_occ].
  destruct (string_dec key k); reflexivity.
Qed.

Lemma increment_counts (keys : list string) (key : string) (m : list (string * nat)) :
  NoDup (List.map fst m) ->
  (forall k c, In (k, c) m <-> c = count_occ string_dec keys k /\ (1 <= c)%nat) ->
  forall k c,
    In (k, c) (increment key m) <->
    c = count_occ string_dec (keys ++ [key]) k /\ (1 <= c)%nat.
Proof.
  intros Hnd Hm k c. rewrite (increment_In key m k c Hnd), count_occ_snoc.
  assert (~ In key (List.map fst m) <-> count_occ string_dec keys key = 0%nat) as Habsent.
  { split.
    - intros Hno. destruct (count_occ string_dec keys key) eqn:E; [reflexivity | ].
      contradiction Hno. apply (In_fst _ _ (S n)). apply Hm. rewrite E. split; [reflexivity | lia].
    - intros Hz Hin. apply in_map_iff in Hin as ([k' c'] & Hk & Hin).
      cbn [fst] in Hk. subst k'. apply Hm in Hin. lia. }
  destruct (string_dec key k) as [<- | Hne].
  - split.
    + intros [[Hk _] | [_ [(c0 & -> & H) | [-> H]]]].
      * contradiction Hk. reflexivity.
      * apply Hm in H. lia.
      * apply Habsent in H. lia.
    + intros [-> _]. right. split; [reflexivity | ].
      destruct (count_occ string_dec keys key) eqn:E.
      * right. split; [reflexivity | ]. apply Habsent. reflexivity.
      * left. exists (S n). split; [lia | ]. apply Hm. rewrite E. split; [reflexivity | lia].
  - rewrite Nat.add_0_r. rewrite <- Hm. split.
    + intros [[_ H] | [-> _]]; [exact H | contradiction Hne; reflexivity].
    + intros H. left. split; [intros ->; apply Hne; reflexivity | exact H].
Qed.

Lemma tally_from (keys done : list string) (m : list (string * nat)) :
  NoDup (List.map fst m) ->
  (forall k c, In (k, c) m <-> c = count_occ string_dec done k /\ (1 <= c)%nat) ->
  NoDup (List.map fst (fold_left (fun m key => increment key m) keys m)) /\
  forall k c,
    In (k, c) (fold_left (fun m key => increment key m) keys m) <->
    c = count_occ string_dec (done ++ keys) k /\ (1 <= c)%nat.
Proof.
  revert done m. induction keys as [ | key rest IH]; intros done m Hnd Hm;
    cbn [fold_left].
  - rewrite app_nil_r. split; assumption.
  - replace (done ++ key :: rest)%list with ((done ++ [key]) ++ rest)%list
      by (rewrite <- app_assoc; reflexivity).
    apply IH; [apply increment_NoDup; exact Hnd | ].
    apply increment_counts; assumption.
Qed.

Lemma tally_spec (keys : list string) :
  NoDup (List.map fst (tally keys)) /\
  forall k c,
    In (k, c) (tally keys) <-> c = count_occ string_dec keys k /\ (1 <= c)%nat.
Proof.
  apply (tally_from keys [] []); [apply NoDup_nil_2 | ].
  intros k c. cbn. split; [intros [] | lia].
Qed.

(** Sorting by count: a permutation, by decreasing count. *)
Lemma insertByCount_perm (x : string * nat) (l : list (string * nat)) :
  Permutation (insertByCount x l) (x :: l).
Proof.
  induction l as [ | y rest IH]; cbn [insertByCount]; [reflexivity | ].
  destruct (x.2 <? y.2)%nat; [ | reflexivity].
  rewrite IH. apply perm_swap.
Qed.

Lemma insertByCount_sorted (x : string * nat) (l : list (string * nat)) :
  ForallOrdPairs (fun a b => (b.2 <= a.2)%nat) l ->
  ForallOrdPairs (fun a b => (b.2 <= a.2)%nat) (insertByCount x l).
Proof.
  induction l as [ | y rest IH]; cbn [insertByCount]; intros Hs.
  - constructor; constructor.
  - inversion Hs as [ | y' rest' Hy Hrest]; subst.
    destruct (Nat.ltb_spec x.2 y.2) as [Hlt | Hge].
    + constructor; [ | apply IH; exact Hrest].
      rewrite insertByCount_perm. constructor; [lia | exact Hy].
    + constructor; [ | exact Hs].
      constructor; [exact Hge | ].
      eapply Forall_impl; [exact Hy | ]. cbn beta. intros z Hz. lia.
Qed.

Lemma sortByCount_perm (l : list (string * nat)) : Permutation (sortByCount l) l.
Proof.
  induction l as [ | x rest IH]; cbn [sortByCount fold_right]; [reflexivity | ].
  rewrite insertByCount_perm. constructor. exact IH.
Qed.

Lemma sortByCount_sorted (l : list (string * nat)) :
  ForallOrdPairs (fun a b => (b.2 <= a.2)%nat) (sortByCount l).
Proof.
  induction l as [ | x rest IH]; cbn [sortByCount fold_right]; [constructor | ].
  apply insertByCount_sorted. exact IH.
Qed.

Lemma firstn_In {A : Type} (n : nat) (l : list A) (x : A) :
  In x (firstn n l) -> In x l.
Proof.
  intros H. rewrite <- (firstn_skipn n l). apply in_or_app. left. exact H.
Qed.

Lemma sorted_firstn (n : nat) (l : list (string * nat)) :
  ForallOrdPairs (fun a b => (b.2 <= a.2)%nat) l ->
  ForallOrdPairs (fun a b => (b.2 <= a.2)%nat) (firstn n l).
Proof.
  revert n. induction l as [ | x rest IH]; intros [ | n] Hs; cbn [firstn];
    try constructor.
  - inversion Hs as [ | x' rest' Hx Hrest]; subst.
    apply List.Forall_forall. intros y Hy. apply firstn_In in Hy.
    rewrite List.Forall_forall in Hx. apply Hx. exact Hy.
  - inversion Hs; subst. apply IH. assumption.
Qed.

Lemma sorted_nonincreasing (l : list (string * nat)) :
  ForallOrdPairs (fun a b => (b.2 <= a.2)%nat) l ->
  Order.nonincreasing (List.map snd l) = true.
Proof.
  induction l as [ | x [ | y rest] IH]; intros Hs; try reflexivity.
  inversion Hs as [ | x' rest' Hx Hrest]; subst.
  change (((y.2 <=? x.2)%nat && Order.nonincreasing (List.map snd (y :: rest))) = true).
  rewrite (IH Hrest), andb_true_r. apply Nat.leb_le.
  inversion Hx; subst. assumption.
Qed.

Lemma sorted_skipn (n : nat) (l : list (string * nat)) (x y : string * nat) :
  ForallOrdPairs (fun a b => (b.2 <= a.2)%nat) l ->
  In x (firstn n l) -> In y (skipn n l) -> (y.2 <= x.2)%nat.
Proof.
  revert n. induction l as [ | z rest IH]; intros [ | n] Hs Hx Hy;
    cbn [firstn skipn In] in Hx, Hy; try contradiction.
  inversion Hs as [ | z' rest' Hz Hrest]; subst.
  destruct Hx as [<- | Hx].
  - rewrite List.Forall_forall in Hz. apply Hz.
    rewrite <- (firstn_skipn n rest). apply in_or_app. right. exact Hy.
  - exact (IH n Hrest Hx Hy).
Qed.

(** The [n] most common keys: at most [n] entries with distinct keys, by
    decreasing count; each entry counts the occurrences of its key, and a
    key left out occurs no more often than any key listed. *)
Lemma mostCommon_spec (n : nat) (keys : list string) :
  (length (mostCommon n keys) <= n)%nat /\
  NoDup (List.map fst (mostCommon n keys)) /\
  Order.nonincreasing (List.map snd (mostCommon n keys)) = true /\
  (forall k c, In (k, c) (mostCommon n keys) ->
     c = count_occ string_dec keys k /\ (1 <= c)%nat) /\
  (forall k, In k keys -> ~ In k (List.map fst (mostCommon n keys)) ->
     length (mostCommon n keys) = n /\
     forall k' c', In (k', c') (mostCommon n keys) ->
       (count_occ string_dec keys k <= c')%nat).
Proof.
  unfold mostCommon.
  destruct (tally_spec keys) as [Hnd Hcount].
  pose proof (sortByCount_perm (tally keys)) as Hperm.
  pose proof (sortByCount_sorted (tally keys)) as Hsorted.
  assert (NoDup (List.map fst (sortByCount (tally keys)))) as Hnd'
    by (rewrite Hperm; exact Hnd).
  assert (forall k c, In (k, c) (sortByCount (tally keys)) <->
            c = count_occ string_dec keys k /\ (1 <= c)%nat) as Hcount'.
  { intros k c. rewrite <- Hcount. rewrite <- !list_elem_of_In. rewrite Hperm. tauto. }
  revert Hnd' Hcount' Hsorted. generalize (sortByCount (tally keys)).
  intros l Hnd' Hcount' Hsorted.
  split; [apply firstn_le_length | ].
  split.
  { rewrite <- (firstn_skipn n l), map_app in Hnd'.
    apply NoDup_app in Hnd'. apply Hnd'. }
  split; [apply sorted_nonincreasing, sorted_firstn; exact Hsorted | ].
  split.
  { intros k c H. apply Hcount'. exact (firstn_In _ _ _ H). }
  intros k Hk Hno.
  assert (In (k, count_occ string_dec keys k) l) as Hin.
  { apply Hcount'. split; [reflexivity | ].
    apply (count_occ_In string_dec) in Hk. lia. }
  rewrite <- (firstn_skipn n l) in Hin. apply in_app_or in Hin as [Hin | Hin].
  { contradiction Hno. exact (In_fst _ _ _ Hin). }
  split.
  - apply firstn_length_le.
    destruct (Nat.le_gt_cases n (length l)) as [H | H]; [exact H | ].
    rewrite skipn_all2 in Hin by lia. contradiction.
  - intros k' c' H'.
    exact (sorted_skipn n l (k', c') (k, count_occ string_dec keys k) Hsorted H' Hin).
Qed.

End TallyFacts.

(** * Further facts: the statistics of a batch *)

Module BatchFacts.

Import Props Order Samples NumFacts OrderFacts Engine Advisor Batch.
Import ReportFacts TallyFacts.

Lemma countIf_ext {A : Type} (f g : A -> bool) (l : list A) :
  (forall x, In x l -> f x = g x) -> countIf f l = countIf g l.
Proof. intros H. unfold countIf. rewrite (filter_ext_in f g l H). reflexivity. Qed.

Lemma countIf_le {A : Type} (f : A -> bool) (l : list A) :
  (countIf f l <= length l)%nat.
Proof. apply filter_length_le. Qed.

(** The thresholds of the distribution are those of [getRiskBand]. *)
Lemma band_tests (s : RiskScore) (q : Q) :
  credit_score s = Fin q -> risk_band s = getRiskBand (Fin q) ->
  JS.ge (credit_score s) (Fin 750) = inBand Excellent s /\
  JS.ge (credit_score s) (Fin 650) && JS.lt (credit_score s) (Fin 750) = inBand Good s /\
  JS.ge (credit_score s) (Fin 550) && JS.lt (credit_score s) (Fin 650) = inBand Fair s /\
  JS.ge (credit_score s) (Fin 450) && JS.lt (credit_score s) (Fin 550) = inBand Poor s /\
  JS.lt (credit_score s) (Fin 450) = inBand VeryPoor s.
Proof.
  unfold inBand. intros -> ->. unfold getRiskBand, JS.ge, JS.lt. cbn [JS.cmp].
  destruct (Qcompare_spec q 750); destruct (Qcompare_spec q 650);
    destruct (Qcompare_spec q 550); destruct (Qcompare_spec q 450);
    try lra; repeat split; reflexivity.
Qed.

Lemma bands_partition (scores : list RiskScore) :
  (countIf (inBand Excellent) scores + countIf (inBand Good) scores +
   countIf (inBand Fair) scores + countIf (inBand Poor) scores +
   countIf (inBand VeryPoor) scores = length scores)%nat.
Proof.
  unfold countIf, inBand.
  induction scores as [ | s rest IH]; cbn [List.filter length]; [reflexivity | ].
  destruct (risk_band s); cbn [length]; lia.
Qed.

Lemma finite_scores (userData : list UserData) (s : RiskScore) :
  Forall valid_profile userData ->
  In s (List.map calculateCreditScore userData) ->
  exists q, credit_score s = Fin q /\ risk_band s = getRiskBand (Fin q).
Proof.
  intros Hvalid Hs. apply in_map_iff in Hs as (u & <- & Hu).
  rewrite List.Forall_forall in Hvalid.
  destruct (EngineFacts.credit_score_whole u (Hvalid u Hu)) as (z & Hz & _).
  exists (inject_Z z). split; [exact Hz | ].
  change (risk_band (calculateCreditScore u))
    with (getRiskBand (credit_score (calculateCreditScore u))).
  rewrite Hz. reflexivity.
Qed.

(** X21 (calculateRiskScore): for a batch of valid users the five counts of
    the score distribution are the numbers of results in the five risk
    bands, and they add up to the number of users. *)
Theorem distribution_counts_bands (userData : list UserData) :
  Forall valid_profile userData ->
  let scores := (calculateRiskScore userData).1 in
  let d := score_distribution (calculateRiskScore userData).2 in
  excellent d = countIf (inBand Excellent) scores /\
  good d = countIf (inBand Good) scores /\
  fair d = countIf (inBand Fair) scores /\
  poor d = countIf (inBand Poor) scores /\
  very_poor d = countIf (inBand VeryPoor) scores /\
  (excellent d + good d + fair d + poor d + very_poor d = length userData)%nat.
Proof.
  intros Hvalid scores d.
  assert (forall s, In s scores ->
            exists q, credit_score s = Fin q /\ risk_band s = getRiskBand (Fin q)) as Hfin
    by (intros s; apply finite_scores; exact Hvalid).
  assert (excellent d = countIf (inBand Excellent) scores) as H1.
  { apply countIf_ext. intros s Hs. destruct (Hfin s Hs) as (q & Hq & Hb).
    apply (band_tests s q Hq Hb). }
  assert (good d = countIf (inBand Good) scores) as H2.
  { apply countIf_ext. intros s Hs. destruct (Hfin s Hs) as (q & Hq & Hb).
    apply (band_tests s q Hq Hb). }
  assert (fair d = countIf (inBand Fair) scores) as H3.
  { apply countIf_ext. intros s Hs. destruct (Hfin s Hs) as (q & Hq & Hb).
    apply (band_tests s q Hq Hb). }
  assert (poor d = countIf (inBand Poor) scores) as H4.
  { apply countIf_ext. intros s Hs. destruct (Hfin s Hs) as (q & Hq & Hb).
    apply (band_tests s q Hq Hb). }
  assert (very_poor d = countIf (inBand VeryPoor) scores) as H5.
  { apply countIf_ext. intros s Hs. destruct (Hfin s Hs) as (q & Hq & Hb).
    apply (band_tests s q Hq Hb). }
  repeat (split; [assumption | ]).
  rewrite H1, H2, H3, H4, H5, bands_partition.
  apply length_map.
Qed.

Lemma distribution_counts_bands_witness :
  Forall valid_profile [sample_user; indebted_user] /\
  (excellent (score_distribution (calculateRiskScore [sample_user; indebted_user]).2) +
   good (score_distribution (calculateRiskScore [sample_user; indebted_user]).2) +
   fair (score_distribution (calculateRiskScore [sample_user; indebted_user]).2) +
   poor (score_distribution (calculateRiskScore [sample_user; indebted_user]).2) +
   very_poor (score_distribution (calculateRiskScore [sample_user; indebted_user]).2)
   = 2)%nat.
Proof.
  assert (Forall valid_profile [sample_user; indebted_user]) as Hv.
  { constructor; [split; cbn; try lra; auto | ].
    constructor; [split; cbn; try lra; auto | constructor]. }
  split; [exact Hv | ].
  apply (distribution_counts_bands [sample_user; indebted_user] Hv).
Defined.

(** X22 (calculateRiskScore): the approval rate and the compliance rate of
    a batch are percentages between 0 and 100; for an empty batch they, and
    every average of the statistics, are NaN. *)
Theorem batch_rates (userData : list UserData) :
  let stats := (calculateRiskScore userData).2 in
  match userData with
  | [] =>
      approval_rate stats = NaN /\ rbi_compliance_rate stats = NaN /\
      avg_credit_score stats = NaN /\ avg_default_probability stats = NaN /\
      avg_digital_adoption stats = NaN /\ avg_savings_rate stats = NaN /\
      avg_eligible_loan_amount stats = NaN
  | _ :: _ =>
      between 0 100 (approval_rate stats) /\
      between 0 100 (rbi_compliance_rate stats)
  end.
Proof.
  destruct userData as [ | u rest]; cbv zeta.
  - repeat split; reflexivity.
  - unfold calculateRiskScore.
    cbn [snd approval_rate rbi_compliance_rate]. unfold Count.of_nat.
    split; (apply share_range; [apply countIf_le | rewrite length_map; discriminate]).
Qed.

(** Sums and averages of bounded numbers. *)
Lemma inject_succ (n : nat) :
  inject_Z (Z.of_nat (S n)) == inject_Z (Z.of_nat n) + 1.
Proof. rewrite Nat2Z.inj_succ. unfold Z.succ. rewrite inject_Z_plus. reflexivity. Qed.

Lemma sumOf_from {A : Type} (f : A -> num) (lo hi : Q) (l : list A) (a : Q) :
  (forall x, In x l -> between lo hi (f x)) ->
  exists s,
    fold_left (fun sum x => JS.add sum (f x)) l (Fin a) = Fin s /\
    a + inject_Z (Z.of_nat (length l)) * lo <= s /\
    s <= a + inject_Z (Z.of_nat (length l)) * hi.
Proof.
  revert a. induction l as [ | x rest IH]; intros a Hl; cbn [fold_left].
  - exists a. split; [reflexivity | ]. change (inject_Z (Z.of_nat (length []))) with 0. lra.
  - assert (between lo hi (f x)) as Hx by (apply Hl; left; reflexivity).
    destruct (f x) as [ | | | y]; try contradiction. cbn [between] in Hx.
    cbn [JS.add].
    destruct (IH (a + y)) as (s & Hs & H1 & H2).
    { intros z Hz. apply Hl. right. exact Hz. }
    exists s. split; [exact Hs | ].
    cbn [length]. rewrite inject_succ.
    revert H1 H2. generalize (inject_Z (Z.of_nat (length rest))). intros N H1 H2.
    split; nra.
Qed.

Lemma average_range {A : Type} (f : A -> num) (lo hi : Q) (l : list A) :
  l <> [] -> (forall x, In x l -> between lo hi (f x)) ->
  between lo hi (JS.div (sumOf f l) (of_Z (Z.of_nat (length l)))).
Proof.
  intros Hne Hl. unfold sumOf, of_Z.
  destruct (sumOf_from f lo hi l 0 Hl) as (s & -> & H1 & H2).
  assert (0 < inject_Z (Z.of_nat (length l))) as HN.
  { change 0 with (inject_Z 0). rewrite <- Zlt_Qlt.
    destruct l; [contradiction Hne; reflexivity | cbn [length]; lia]. }
  revert H1 H2 HN. generalize (inject_Z (Z.of_nat (length l))). intros N H1 H2 HN.
  rewrite div_fin by lra. cbn [between]. split.
  - apply Qle_shift_div_l; [exact HN | lra].
  - apply Qle_shift_div_r; [exact HN | lra].
Qed.

Lemma round_between (lo hi : Z) (x : num) :
  between (inject_Z lo) (inject_Z hi) x ->
  between (inject_Z lo) (inject_Z hi) (Math.round x).
Proof.
  intros H. destruct x as [ | | | q]; try contradiction. cbn [between] in H.
  apply round_bounds; [lra | ].
  rewrite inject_Z_plus. change (inject_Z 1) with 1. lra.
Qed.

Lemma round_hundredths (lo hi : Z) (x : num) :
  between (inject_Z lo) (inject_Z hi) x ->
  between (inject_Z lo) (inject_Z hi)
    (JS.div (Math.round (JS.mul x (Fin 100))) (Fin 100)).
Proof.
  intros H. destruct x as [ | | | q]; try contradiction. cbn [between] in H.
  cbn [JS.mul].
  pose proof (round_bounds (lo * 100) (hi * 100) (q * 100)) as Hr.
  rewrite inject_Z_plus, !inject_Z_mult in Hr.
  change (inject_Z 100) with 100 in Hr. change (inject_Z 1) with 1 in Hr.
  specialize (Hr ltac:(lra) ltac:(lra)).
  destruct (Math.round (Fin (q * 100))) as [ | | | r]; try contradiction.
  cbn [between] in Hr. rewrite div_fin by lra. cbn [between]. split.
  - apply Qle_shift_div_l; lra.
  - apply Qle_shift_div_r; lra.
Qed.

Lemma result_ranges (u : UserData) :
  valid_profile u ->
  between 300 900 (credit_score (calculateCreditScore u)) /\
  between 1 95 (default_probability (calculateCreditScore u)) /\
  between 0 125000 (max_eligible_amount (calculateCreditScore u)).
Proof.
  intros Hv.
  destruct (EngineFacts.credit_score_whole u Hv) as (z & Hz & Hlo & Hhi).
  split; [ | split].
  - rewrite Hz. cbn [of_Z between].
    rewrite Zle_Qle in Hlo, Hhi. change (inject_Z 300) with 300 in Hlo.
    change (inject_Z 900) with 900 in Hhi. lra.
  - change (default_probability (calculateCreditScore u))
      with (calculateDefaultProbability (credit_score (calculateCreditScore u)) u).
    rewrite Hz. apply (EngineFacts.default_probability_range u Hv).
  - change (max_eligible_amount (calculateCreditScore u))
      with (max_amount (calculateLoanEligibility u (credit_score (calculateCreditScore u)))).
    generalize (credit_score (calculateCreditScore u)). intros cs.
    pose proof (valid_monthly_income u Hv) as Hm.
    destruct (OfferFacts.max_amount_whole u cs Hm) as (a & Ha & Ha0).
    destruct (monthly_income u) as [ | | | m] eqn:Em; try contradiction.
    pose proof (EligibilityFacts.max_amount_finite_income u cs m Em) as Hle.
    rewrite Ha in Hle |- *. unfold of_Z in Hle |- *. apply le_fin_iff in Hle.
    cbn [between]. rewrite Zle_Qle in Ha0. change (inject_Z 0) with 0 in Ha0. lra.
Qed.

(** X23 (calculateRiskScore): for a non-empty batch of valid users the
    average credit score is a whole number from 300 to 900, the average
    default probability lies between 1 and 95, the average eligible amount
    between 0 and 125000, and the averages of digital adoption and of the
    savings rate between 0 and 100. *)
Theorem batch_averages (userData : list UserData) :
  Forall valid_profile userData -> userData <> [] ->
  let stats := (calculateRiskScore userData).2 in
  (exists z : Z, avg_credit_score stats = of_Z z /\ (300 <= z <= 900)%Z) /\
  between 1 95 (avg_default_probability stats) /\
  between 0 125000 (avg_eligible_loan_amount stats) /\
  between 0 100 (avg_digital_adoption stats) /\
  between 0 100 (avg_savings_rate stats).
Proof.
  intros Hvalid Hne stats. subst stats. rewrite List.Forall_forall in Hvalid.
  unfold calculateRiskScore.
  cbn [snd avg_credit_score avg_default_probability avg_eligible_loan_amount
       avg_digital_adoption avg_savings_rate].
  unfold Count.of_nat. rewrite length_map.
  assert (List.map calculateCreditScore userData <> []) as Hne'
    by (destruct userData; [contradiction Hne; reflexivity | discriminate]).
  assert (forall s, In s (List.map calculateCreditScore userData) ->
            between 300 900 (credit_score s) /\
            between 1 95 (default_probability s) /\
            between 0 125000 (max_eligible_amount s)) as Hres.
  { intros s Hs. apply in_map_iff in Hs as (u & <- & Hu).
    apply result_ranges. apply Hvalid. exact Hu. }
  pose proof (average_range credit_score 300 900 _ Hne'
                (fun s Hs => proj1 (Hres s Hs))) as H1.
  pose proof (average_range default_probability 1 95 _ Hne'
                (fun s Hs => proj1 (proj2 (Hres s Hs)))) as H2.
  pose proof (average_range max_eligible_amount 0 125000 _ Hne'
                (fun s Hs => proj2 (proj2 (Hres s Hs)))) as H3.
  pose proof (average_range digital_financial_activity_score 0 100 userData Hne
                (fun u Hu => valid_digital_activity u (Hvalid u Hu))) as H4.
  pose proof (average_range savings_rate 0 100 userData Hne
                (fun u Hu => valid_savings_rate u (Hvalid u Hu))) as H5.
  rewrite length_map in H1, H2, H3.
  split; [ | split; [ | split; [exact H3 | split]]].
  - apply (round_between 300 900) in H1.
    destruct (sumOf credit_score _ / _)%num as [ | | | q]; try contradiction.
    cbn [Math.round of_Z between] in H1 |- *.
    eexists. split; [reflexivity | ].
    rewrite <- !Zle_Qle in H1. exact H1.
  - exact (round_hundredths 1 95 _ H2).
  - exact (round_between 0 100 _ H4).
  - exact (round_hundredths 0 100 _ H5).
Qed.

Lemma batch_averages_witness :
  Forall valid_profile [sample_user; indebted_user] /\
  between 1 95
    (avg_default_probability (calculateRiskScore [sample_user; indebted_user]).2).
Proof.
  assert (Forall valid_profile [sample_user; indebted_user]) as Hv.
  { constructor; [split; cbn; try lra; auto | ].
    constructor; [split; cbn; try lra; auto | constructor]. }
  split; [exact Hv | ].
  apply (batch_averages [sample_user; indebted_user] Hv). discriminate.
Defined.

(** The violations of one result: the EMI ratio, or none. *)
Lemma result_violation_list (u : UserData) :
  rbi_violations (calculateCreditScore u) =
  if rbi_compliant (calculateCreditScore u) then []
  else ["EMI-to-income ratio exceeds 50%"].
Proof.
  destruct (DecisionFacts.result_compliance_eq u) as [-> ->].
  unfold checkRBICompliance, getRBIViolations.
  rewrite EligibilityFacts.max_amount_never_above_ceiling.
  destruct (JS.gt (JS.div (existing_loan_emi u) (monthly_income u)) (Fin 0.5));
    reflexivity.
Qed.

Lemma violations_of_batch (userData : list UserData) :
  List.concat (List.map rbi_violations (List.map calculateCreditScore userData)) =
  repeat "EMI-to-income ratio exceeds 50%"
    (countIf (fun s => negb (rbi_compliant s)) (List.map calculateCreditScore userData)).
Proof.
  unfold countIf.
  induction userData as [ | u rest IH]; cbn [List.map List.concat List.filter];
    [reflexivity | ].
  rewrite IH, result_violation_list.
  destruct (rbi_compliant (calculateCreditScore u)); reflexivity.
Qed.

Lemma tally_repeat_from (key : string) (n c : nat) :
  fold_left (fun m k => increment k m) (repeat key n) [(key, c)] = [(key, (c + n)%nat)].
Proof.
  revert c. induction n as [ | n IH]; intros c; cbn [repeat fold_left increment].
  - rewrite Nat.add_0_r. reflexivity.
  - rewrite String.eqb_refl, IH. do 2 f_equal. lia.
Qed.

Lemma mostCommon_repeat (key : string) (n : nat) :
  mostCommon 3 (repeat key n) =
  match n with O => [] | S _ => [(key, n)] end.
Proof.
  destruct n as [ | n]; [reflexivity | ].
  unfold mostCommon, tally. cbn [repeat fold_left increment].
  rewrite tally_repeat_from. reflexivity.
Qed.

Lemma compliant_split (scores : list RiskScore) :
  (countIf (fun s => negb (rbi_compliant s)) scores + countIf rbi_compliant scores
   = length scores)%nat.
Proof.
  unfold countIf.
  induction scores as [ | s rest IH]; cbn [List.filter length]; [reflexivity | ].
  destruct (rbi_compliant s); cbn [negb length]; lia.
Qed.

(** X24 (calculateRiskScore): the list of common violations of a batch is
    empty when every result is compliant, and otherwise has the single entry
    of the EMI ratio, counted once for each result that is not compliant. *)
Theorem common_violations_count (userData : list UserData) :
  let scores := (calculateRiskScore userData).1 in
  let stats := (calculateRiskScore userData).2 in
  let failing := countIf (fun s => negb (rbi_compliant s)) scores in
  common_violations stats =
    match failing with
    | O => []
    | S _ => [("EMI-to-income ratio exceeds 50%", failing)]
    end /\
  (failing + countIf rbi_compliant scores = total_users stats)%nat.
Proof.
  cbv zeta. unfold calculateRiskScore. cbn [fst snd common_violations total_users].
  split; [ | apply compliant_split].
  rewrite violations_of_batch. apply mostCommon_repeat.
Qed.

(** X25 (calculateRiskScore): the common improvement areas are at most
    three entries with distinct areas, in order of decreasing count; each
    count is the number of suggestions of the batch whose first word is the
    area, and an area left out has no more suggestions than any area
    listed. *)
Theorem common_improvement_areas_spec (userData : list UserData) :
  let areas :=
    List.concat
      (List.map (fun user => List.map firstWord (improvement_suggestions user))
         userData) in
  let top := common_improvement_areas (calculateRiskScore userData).2 in
  (length top <= 3)%nat /\
  NoDup (List.map fst top) /\
  nonincreasing (List.map snd top) = true /\
  (forall area count, In (area, count) top ->
     count = count_occ string_dec areas area /\ (1 <= count)%nat) /\
  (forall area, In area areas -> ~ In area (List.map fst top) ->
     length top = 3%nat /\
     forall area' count', In (area', count') top ->
       (count_occ string_dec areas area <= count')%nat).
Proof.
  cbv zeta. unfold calculateRiskScore. cbn [snd common_improvement_areas].
  apply mostCommon_spec.
Qed.

(** X26 (generateRecommendations, calculateRiskScore): the area of a
    suggestion is one of four words, and the suggestions on UPI use and on
    the savings rate fall in the same area. *)
Theorem improvement_area_words (u : UserData) :
  let words := List.map firstWord (improvement_suggestions u) in
  (forall w, In w words -> In w ["Set"; "Your"; "Increase"; "Build"]) /\
  count_occ string_dec words "Increase" =
    (Nat.b2n (JS.lt (upi_transactions_per_month u) (Fin 20)) +
     Nat.b2n (JS.lt (savings_rate u) (Fin 20)))%nat.
Proof.
  cbv zeta. unfold improvement_suggestions, generateRecommendations.
  generalize (JS.lt (overall_bill_payment_score u) (Fin 80)).
  generalize (JS.gt (JS.div (existing_loan_emi u) (monthly_income u)) (Fin 0.4)).
  generalize (JS.lt (upi_transactions_per_month u) (Fin 20)).
  generalize (JS.lt (emergency_savings u) (JS.mul (monthly_expenses u) (Fin 3))).
  generalize (JS.lt (savings_rate u) (Fin 20)).
  intros c5 c4 c3 c2 c1.
  destruct c1, c2, c3, c4, c5;
    cbn [advise immediate app List.map firstWord];
    (split; [ | vm_compute; reflexivity]);
    intros w Hw; cbn [In] in Hw |- *;
    repeat (destruct Hw as [<- | Hw]; [vm_compute; tauto | ]); contradiction.
Qed.

Lemma countIf_none {A : Type} (f : A -> bool) (l : list A) :
  (forall x, In x l -> f x = false) -> countIf f l = 0%nat.
Proof.
  intros H. unfold countIf.
  induction l as [ | x rest IH]; cbn [List.filter]; [reflexivity | ].
  rewrite (H x (or_introl eq_refl)). apply IH.
  intros y Hy. apply H. right. exact Hy.
Qed.

(** X8 (calculateCreditScore, RBIComplianceDashboard): for valid users the
    EMI-to-income ratio of every result is a number that is not negative and
    not above 50, the recommended EMI being within the EMI capacity; so the
    dashboard's count of results with a ratio above 50 is zero. *)
Theorem high_emi_ratio_never_counted (userData : list UserData) :
  Forall valid_profile userData ->
  (forall s, In s (calculateRiskScore userData).1 ->
     nonneg (emi_to_income_ratio s) /\
     JS.gt (emi_to_income_ratio s) (Fin 50) = false) /\
  Dashboard.highEMIRatioCount (calculateRiskScore userData).1 = 0%nat.
Proof.
  intros Hvalid. rewrite List.Forall_forall in Hvalid.
  assert (forall s, In s (calculateRiskScore userData).1 ->
            nonneg (emi_to_income_ratio s) /\
            JS.gt (emi_to_income_ratio s) (Fin 50) = false) as Hall.
  { intros s Hs. unfold calculateRiskScore in Hs. cbn [fst] in Hs.
    apply in_map_iff in Hs as (u & <- & Hu).
    pose proof (OfferFacts.emi_ratio_within_capacity_share u (Hvalid u Hu)) as Hr.
    destruct (emi_to_income_ratio (calculateCreditScore u)) as [ | | | q];
      try contradiction.
    cbn [between] in Hr. split; [cbn [nonneg]; lra | ].
    apply gt_fin_false. lra. }
  split; [exact Hall | ].
  unfold Dashboard.highEMIRatioCount. apply countIf_none.
  intros s Hs. apply (Hall s Hs).
Qed.

Lemma high_emi_ratio_never_counted_witness :
  Forall valid_profile [sample_user; indebted_user] /\
  Dashboard.highEMIRatioCount (calculateRiskScore [sample_user; indebted_user]).1 = 0%nat.
Proof.
  assert (Forall valid_profile [sample_user; indebted_user]) as Hv.
  { constructor; [split; cbn; try lra; auto | ].
    constructor; [split; cbn; try lra; auto | constructor]. }
  split; [exact Hv | ].
  apply (high_emi_ratio_never_counted [sample_user; indebted_user] Hv).
Defined.

End BatchFacts.

(** * Further facts: what the CSV intake returns and throws *)

Module IntakeFacts.

Import Props Samples NumFacts Str CSV Engine CSVFacts.

Lemma includes_In (l : list string) (s : string) : includes l s = true <-> In s l.
Proof.
  unfold includes. rewrite existsb_exists. split.
  - intros (x & Hx & Heq). apply String.eqb_eq in Heq. subst x. exact Hx.
  - intros H. exists s. split; [exact H | apply String.eqb_refl].
Qed.

Lemma missing_columns (headers : list string) (col : string) :
  In col (missingColumns (validateCSVFormat headers)) <->
  In col requiredColumns /\ ~ In col headers.
Proof.
  unfold validateCSVFormat. cbn [missingColumns].
  rewrite filter_In, negb_true_iff, <- (includes_In headers col).
  destruct (includes headers col); intuition congruence.
Qed.

Lemma valid_headers (headers : list string) :
  isValid (validateCSVFormat headers) = true <->
  forall col, In col requiredColumns -> In col headers.
Proof.
  unfold validateCSVFormat. cbn [isValid]. rewrite RBIFacts.length_zero_iff. split.
  - intros Hnone col Hcol. apply includes_In.
    destruct (includes headers col) eqn:E; [reflexivity | ].
    assert (In col (List.filter (fun c => negb (includes headers c)) requiredColumns))
      as Hin by (apply filter_In; split; [exact Hcol | rewrite E; reflexivity]).
    rewrite Hnone in Hin. contradiction.
  - intros Hall.
    destruct (List.filter (fun c => negb (includes headers c)) requiredColumns)
      as [ | col rest] eqn:E; [reflexivity | ].
    assert (In col (List.filter (fun c => negb (includes headers c)) requiredColumns))
      as Hin by (rewrite E; left; reflexivity).
    apply filter_In in Hin as [Hcol Hno]. apply negb_true_iff in Hno.
    apply Hall, includes_In in Hcol. congruence.
Qed.

(** The [switch] only throws at a percentage header without a cell. *)
Lemma assign_throws (header : string) (value : option string) (o : RowObject)
    (e : error) :
  assign header value o = Throw e ->
  e = TypeError /\ value = None /\ In header percentColumns.
Proof.
  intros H. destruct value as [s | ].
  { destruct (assign_some header s o) as (o' & Ho). congruence. }
  unfold assign in H.
  repeat match type of H with
  | (if (?h =? ?s)%string then _ else _) = _ =>
      destruct (String.eqb_spec h s) as [-> | _]
  end; cbn [bind withoutPercent] in H; try discriminate H;
    injection H as <-; (split; [reflexivity | split; [reflexivity | ]]);
    unfold percentColumns; cbn [In]; tauto.
Qed.

Lemma forEachHeader_throws (values : list string) (headers : list string) :
  forall (index : nat) (o : RowObject) (e : error),
    forEachHeader headers index values o = Throw e ->
    e = TypeError /\
    exists i col, headers !! i = Some col /\ In col percentColumns /\
                  values !! (index + i)%nat = None.
Proof.
  induction headers as [ | header rest IH]; intros index o e H; [discriminate | ].
  cbn [forEachHeader] in H.
  destruct (assign header (values !! index) o) as [o1 | e1] eqn:Ha; cbn [bind] in H.
  - destruct (IH (S index) o1 e H) as (He & i & col & Hi & Hcol & Hnone).
    split; [exact He | ]. exists (S i), col.
    split; [exact Hi | split; [exact Hcol | ]].
    replace (index + S i)%nat with (S index + i)%nat by lia. exact Hnone.
  - injection H as <-. destruct (assign_throws _ _ _ _ Ha) as (He & Hnone & Hcol).
    split; [exact He | ]. exists 0%nat, header.
    split; [reflexivity | split; [exact Hcol | ]].
    rewrite Nat.add_0_r. exact Hnone.
Qed.

(** The row function throws exactly when a percentage header has no cell
    under it in the line, and what it throws is a [TypeError]. *)
Lemma parseRow_throws (headers : list string) (line : string) (e : error) :
  parseRow headers line = Throw e <->
  e = TypeError /\
  exists i col, headers !! i = Some col /\ In col percentColumns /\
                cellsOf line !! i = None.
Proof.
  split.
  - intros H. unfold parseRow in H.
    destruct (forEachHeader headers 0 (List.map trim (split "," line)) emptyObject)
      as [o | e1] eqn:Hfor; cbn [bind] in H; [discriminate | ].
    injection H as <-. exact (forEachHeader_throws _ _ _ _ _ Hfor).
  - intros (-> & i & col & Hi & Hcol & Hnone).
    destruct (parseRow_missing_percent_cell headers line col i Hcol Hi Hnone)
      as (e & He).
    rewrite He. f_equal.
    unfold parseRow in He.
    destruct (forEachHeader headers 0 (List.map trim (split "," line)) emptyObject)
      as [o | e1] eqn:Hfor; cbn [bind] in He; [discriminate | ].
    injection He as <-. exact (proj1 (forEachHeader_throws _ _ _ _ _ Hfor)).
Qed.

Lemma mapResult_throws {A B : Type} (f : A -> result B) (l : list A) (e : error) :
  mapResult f l = Throw e <->
  exists before a after,
    l = (before ++ a :: after)%list /\ f a = Throw e /\
    forall x, In x before -> exists b, f x = Ok b.
Proof.
  split.
  - induction l as [ | x rest IH]; cbn [mapResult]; [discriminate | ].
    destruct (f x) as [b | e1] eqn:Hx; cbn [bind].
    + destruct (mapResult f rest) as [bs | e2]; cbn [bind]; [discriminate | ].
      intros H. injection H as ->.
      destruct (IH eq_refl) as (before & a & after & -> & Ha & Hb).
      exists (x :: before), a, after.
      split; [reflexivity | split; [exact Ha | ]].
      intros z [<- | Hz]; [eexists; exact Hx | apply Hb; exact Hz].
    + intros H. injection H as ->. exists [], x, rest.
      split; [reflexivity | split; [exact Hx | intros z []]].
  - intros (before & a & after & -> & Ha & Hb).
    induction before as [ | y before IH]; cbn [app mapResult].
    + rewrite Ha. reflexivity.
    + destruct (Hb y (or_introl eq_refl)) as (b & ->). cbn [bind].
      rewrite IH; [reflexivity | ].
      intros z Hz. apply Hb. right. exact Hz.
Qed.

Lemma mapResult_length {A B : Type} (f : A -> result B) (l : list A) (r : list B) :
  mapResult f l = Ok r -> length r = length l.
Proof.
  revert r. induction l as [ | x rest IH]; intros r; cbn [mapResult].
  - intros H. injection H as <-. reflexivity.
  - destruct (f x) as [b | e]; cbn [bind]; [ | discriminate].
    destruct (mapResult f rest) as [bs | e]; cbn [bind]; [ | discriminate].
    intros H. injection H as <-. cbn [length]. rewrite (IH bs eq_refl). reflexivity.
Qed.

Lemma mapResult_backwards {A B : Type} (f : A -> result B) (l : list A) :
  forall (r : list B) (k : nat) (b : B),
    mapResult f l = Ok r -> r !! k = Some b ->
    exists a, l !! k = Some a /\ f a = Ok b.
Proof.
  induction l as [ | x rest IH]; intros r k b; cbn [mapResult].
  - intros H. injection H as <-. discriminate.
  - destruct (f x) as [b0 | e] eqn:Hx; cbn [bind]; [ | discriminate].
    destruct (mapResult f rest) as [bs | e]; cbn [bind]; [ | discriminate].
    intros H. injection H as <-. destruct k as [ | k]; cbn.
    + intros H. injection H as <-. exists x. split; [reflexivity | exact Hx].
    + intros H. exact (IH bs k b eq_refl H).
Qed.

Lemma parseCSV_cases (csvText : string) :
  parseCSV csvText =
  if isValid (validateCSVFormat (headersOf csvText))
  then mapResult (parseRow (headersOf csvText)) (rowsOf csvText)
  else Throw (InvalidCSVFormat (missingColumns (validateCSVFormat (headersOf csvText)))).
Proof.
  unfold parseCSV, headersOf, rowsOf.
  destruct (isValid _); reflexivity.
Qed.

Lemma invalid_has_missing (headers : list string) :
  isValid (validateCSVFormat headers) = false ->
  exists col, In col (missingColumns (validateCSVFormat headers)).
Proof.
  unfold validateCSVFormat. cbn [isValid missingColumns].
  destruct (List.filter _ requiredColumns) as [ | col rest]; [discriminate | ].
  intros _. exists col. left. reflexivity.
Qed.

Lemma rows_throw_TypeError (headers : list string) (lines : list string) (e : error) :
  mapResult (parseRow headers) lines = Throw e -> e = TypeError.
Proof.
  intros H. apply mapResult_throws in H as (_ & line & _ & _ & H & _).
  apply parseRow_throws in H as [H _]. exact H.
Qed.

(** X27 (validateCSVFormat, parseCSV): the header is rejected exactly when a
    required column is absent from it, whatever the order of the columns and
    whatever else it holds; the error then lists the absent required
    columns and no other. *)
Theorem header_rejected_iff_column_missing (csvText : string) :
  ((exists missing, parseCSV csvText = Throw (InvalidCSVFormat missing)) <->
   (exists col, In col requiredColumns /\ ~ In col (headersOf csvText))) /\
  (forall missing, parseCSV csvText = Throw (InvalidCSVFormat missing) ->
     forall col, In col missing <->
                 In col requiredColumns /\ ~ In col (headersOf csvText)).
Proof.
  rewrite parseCSV_cases.
  pose proof (valid_headers (headersOf csvText)) as Hv.
  pose proof (missing_columns (headersOf csvText)) as Hm.
  pose proof (invalid_has_missing (headersOf csvText)) as Hi.
  pose proof (rows_throw_TypeError (headersOf csvText) (rowsOf csvText)) as Hrows.
  revert Hv Hm Hi Hrows.
  generalize (validateCSVFormat (headersOf csvText)).
  generalize (mapResult (parseRow (headersOf csvText)) (rowsOf csvText)).
  generalize (headersOf csvText).
  intros headers rows v Hv Hm Hi Hrows.
  destruct (isValid v).
  - assert (forall missing, rows <> Throw (InvalidCSVFormat missing)) as Hno.
    { intros missing H. specialize (Hrows _ H). discriminate Hrows. }
    split.
    + split.
      * intros (missing & H). contradiction (Hno missing H).
      * intros (col & Hcol & Hmiss). contradiction Hmiss.
        exact (proj1 Hv eq_refl col Hcol).
    + intros missing H. contradiction (Hno missing H).
  - split.
    + split.
      * intros _. destruct (Hi eq_refl) as (col & Hcol).
        exists col. apply Hm. exact Hcol.
      * intros _. eexists. reflexivity.
    + intros missing H. injection H as <-. exact Hm.
Qed.

(** X28 (parseCSV): apart from a rejected header the only exception is the
    [TypeError] of a line that has no cell under a percentage header, and it
    is thrown exactly when the header is accepted and there is such a
    line. *)
Theorem row_throws_iff_percent_cell_missing (csvText : string) (e : error) :
  (forall col, In col requiredColumns -> In col (headersOf csvText)) ->
  (parseCSV csvText = Throw e <->
   e = TypeError /\
   exists line i col,
     In line (rowsOf csvText) /\ headersOf csvText !! i = Some col /\
     In col percentColumns /\ cellsOf line !! i = None).
Proof.
  intros Hall. apply valid_headers in Hall. rewrite parseCSV_cases, Hall.
  clear Hall. generalize (headersOf csvText), (rowsOf csvText).
  intros headers rows. split.
  - intros H. apply mapResult_throws in H as (before & line & after & Hl & H & _).
    apply parseRow_throws in H as (-> & i & col & Hi & Hcol & Hnone).
    split; [reflexivity | ]. exists line, i, col.
    split; [rewrite Hl; apply in_or_app; right; left; reflexivity | ].
    split; [exact Hi | split; [exact Hcol | exact Hnone]].
  - intros (-> & line & i & col & Hline & Hi & Hcol & Hnone).
    destruct (mapResult (parseRow headers) rows) as [users | e] eqn:Hmap.
    + exfalso. rewrite <- list_elem_of_In, list_elem_of_lookup in Hline.
      destruct Hline as (k & Hk).
      destruct (mapResult_lookup _ _ _ _ _ Hmap Hk) as (u & _ & Hu).
      assert (parseRow headers line = Throw TypeError) as Hthrow.
      { apply parseRow_throws. split; [reflexivity | ]. exists i, col. auto. }
      congruence.
    + f_equal. exact (rows_throw_TypeError _ _ _ Hmap).
Qed.

Lemma row_throws_iff_percent_cell_missing_witness :
  (forall col, In col requiredColumns -> In col (headersOf csv_short_row)) /\
  exists line i col,
    In line (rowsOf csv_short_row) /\ headersOf csv_short_row !! i = Some col /\
    In col percentColumns /\ cellsOf line !! i = None.
Proof.
  assert (forall col, In col requiredColumns -> In col (headersOf csv_short_row)) as Hall.
  { apply valid_headers. vm_compute. reflexivity. }
  split; [exact Hall | ].
  apply (row_throws_iff_percent_cell_missing csv_short_row TypeError Hall).
  vm_compute. reflexivity.
Defined.

(** X29 (parseCSV): a file that is read gives one record for each line
    after the header, in the order of the lines, each the result of the row
    function on its line; no line is left out. *)
Theorem one_record_per_line (csvText : string) (users : list UserData) :
  parseCSV csvText = Ok users ->
  length users = length (rowsOf csvText) /\
  forall k user, users !! k = Some user ->
    exists line, rowsOf csvText !! k = Some line /\
                 parseRow (headersOf csvText) line = Ok user.
Proof.
  intros H. apply parseCSV_rows in H. split.
  - exact (mapResult_length _ _ _ H).
  - intros k user Hk. exact (mapResult_backwards _ _ _ _ _ H Hk).
Qed.

Lemma one_record_per_line_witness :
  parseCSV csv_zero_cells = Ok users_zero_cells /\
  length users_zero_cells = length (rowsOf csv_zero_cells).
Proof.
  assert (parseCSV csv_zero_cells = Ok users_zero_cells) as H
    by (vm_compute; reflexivity).
  split; [exact H | ].
  exact (proj1 (one_record_per_line csv_zero_cells users_zero_cells H)).
Defined.

(** The validation of the numeric fields. *)
Lemma safeParseFloat_not_nan (val : option num) (d : num) :
  JS.isNaN d = false -> JS.isNaN (safeParseFloat val d) = false.
Proof.
  intros Hd. unfold safeParseFloat.
  destruct (JS.isNaN (match val with Some n => parseFloatNumber n | None => NaN end))
    eqn:E; [exact Hd | exact E].
Qed.

Lemma safeParseInt_whole (val : option num) (d : num) :
  (exists z, d = of_Z z) -> exists z, safeParseInt val d = of_Z z.
Proof.
  intros Hd. unfold safeParseInt.
  destruct val as [[ | | | q] | ]; cbn [parseIntNumber JS.isNaN]; try exact Hd.
  destruct (Qeq_bool q 0); [exists 0%Z; reflexivity | ].
  destruct (Qle_bool (1 # 1000000) (Qabs q) && negb (Qle_bool (10 ^ 21) (Qabs q)));
    cbn [of_Z JS.isNaN]; eexists; reflexivity.
Qed.

Lemma whole_not_nan (x : num) : (exists z, x = of_Z z) -> JS.isNaN x = false.
Proof. intros (z & ->). reflexivity. Qed.

Lemma scaled_not_nan (x : num) :
  JS.isNaN x = false -> JS.isNaN (JS.mul x (Fin 0.6)) = false.
Proof. destruct x; intros H; (discriminate H || reflexivity). Qed.

Lemma completeRow_numbers (o : RowObject) (c : Column) :
  In c numericColumns ->
  JS.isNaN (col_field c (completeRow o)) = false /\
  (col_kind c = IntCell -> exists z, col_field c (completeRow o) = of_Z z).
Proof.
  intros Hin. unfold numericColumns in Hin. cbn [In] in Hin.
  repeat (destruct Hin as [<- | Hin]); [ .. | contradiction ];
    cbn [col_kind col_field];
    unfold completeRow;
    cbn [monthly_income income_stability_months emergency_savings
         electricity_bill_on_time dth_recharge_on_time internet_bill_on_time
         rent_payment_on_time existing_loan_emi credit_card_outstanding
         previous_loan_defaults upi_transactions_per_month digital_wallet_usage
         online_bill_payments savings_rate age years_of_employment city_tier];
    (split; [ | intros Hk; try discriminate Hk]);
    try (apply safeParseFloat_not_nan; reflexivity);
    try (apply whole_not_nan);
    apply safeParseInt_whole; eexists; reflexivity.
Qed.

Lemma completeRow_expenses (o : RowObject) :
  JS.isNaN (monthly_expenses (completeRow o)) = false.
Proof.
  unfold completeRow. cbn [monthly_expenses].
  apply safeParseFloat_not_nan, scaled_not_nan, safeParseFloat_not_nan. reflexivity.
Qed.

Lemma parseRow_completes (headers : list string) (line : string) (user : UserData) :
  parseRow headers line = Ok user -> exists o, user = completeRow o.
Proof.
  unfold parseRow.
  destruct (forEachHeader headers 0 (List.map trim (split "," line)) emptyObject)
    as [o | e]; cbn [bind]; [ | discriminate].
  intros H. injection H as <-. exists o. reflexivity.
Qed.

(** X30 (parseCSV): in every record of a file that is read none of the
    eighteen numeric fields that are read from a cell and validated (the
    seventeen with a fixed default and [monthly_expenses]) is NaN, whatever
    the cells hold, and the five of them read with [parseInt] are whole
    numbers.  The scores derived from them afterwards are not covered: a
    sum of an infinite and a minus infinite field is NaN. *)
Theorem parsed_numbers_not_nan (csvText : string) (users : list UserData)
    (user : UserData) :
  parseCSV csvText = Ok users -> In user users ->
  (forall c, In c numericColumns ->
     JS.isNaN (col_field c user) = false /\
     (col_kind c = IntCell -> exists z, col_field c user = of_Z z)) /\
  JS.isNaN (monthly_expenses user) = false.
Proof.
  intros H Huser. apply parseCSV_rows in H.
  rewrite <- list_elem_of_In, list_elem_of_lookup in Huser.
  destruct Huser as (k & Hk).
  destruct (mapResult_backwards _ _ _ _ _ H Hk) as (line & _ & Hrow).
  apply parseRow_completes in Hrow as (o & ->).
  split; [intros c Hc; exact (completeRow_numbers o c Hc) | ].
  apply completeRow_expenses.
Qed.

Lemma parsed_numbers_not_nan_witness :
  exists user,
    parseCSV csv_infinite_income = Ok [user] /\
    JS.isNaN (monthly_income user) = false /\
    JS.isNaN (monthly_expenses user) = false.
Proof.
  eexists. 
  assert (parseCSV csv_infinite_income = Ok [_]) as H by (vm_compute; reflexivity).
  split; [exact H | ].
  destruct (parsed_numbers_not_nan csv_infinite_income _ _ H (or_introl eq_refl))
    as [Hcols Hexp].
  split; [ | exact Hexp].
  exact (proj1 (Hcols column_monthly_income (or_introl eq_refl))).
Defined.

End IntakeFacts.
